(** * The Kubernetes component adapter of odo

    A shallow embedding of
    [pkg/devfile/adapters/kubernetes/component/adapter.go] (and of the kaniko
    part of the same package), with the properties its specification states
    about image builds, reconciliation of cluster resources and the dispatch
    of devfile commands.

    Conventions of the embedding:
    - a Go [string] is a [string]; [[]byte] is a [string] as well;
    - a Go [error] value is an [error]; a result [(x, err)] is [error + X],
      a lone [err] result is [option error] ([None] is [nil]);
    - a Go [map[string]T] is a [gmap string T];
    - everything the adapter asks of the cluster, of the file synchroniser, of
      the command executor or of the operating system is a [call]; a Go
      function that makes such calls is a [prog], a tree of calls that is run
      against an arbitrary, stateful [handler];
    - spinner and klog output is left out; [log.Infof], [log.Warningf],
      [log.Successf] and [log.Errorf] are calls. *)

From Stdlib Require Import ZArith Ascii String.
From stdpp Require Import base tactics option list gmap strings.

Local Open Scope string_scope.

(** ** Strings *)

(** [strings.Split(s, sep)] for a separator [sep] of one byte: the substrings
    of [s] between the occurrences of [sep]; an empty [s] gives one empty
    substring. *)
Fixpoint Split (s : string) (sep : ascii) : list string :=
  match s with
  | EmptyString => [EmptyString]
  | String c rest =>
      if Ascii.eqb c sep then EmptyString :: Split rest sep
      else match Split rest sep with
           | seg :: segs => String c seg :: segs
           | [] => [String c EmptyString]
           end
  end.

(** The number of occurrences of a byte in a string ([strings.Count]). *)
Fixpoint Count (s : string) (sep : ascii) : nat :=
  match s with
  | EmptyString => 0
  | String c rest => (if Ascii.eqb c sep then 1 else 0) + Count rest sep
  end.

(** The lowering of the ASCII letters of a string, which is what
    [strings.ToLower] does to a string of ASCII characters. *)
Definition lower_ascii (c : ascii) : ascii :=
  let n := nat_of_ascii c in
  if (65 <=? n)%nat && (n <=? 90)%nat then ascii_of_nat (n + 32) else c.

Fixpoint lower_string (s : string) : string :=
  match s with
  | EmptyString => EmptyString
  | String c rest => String (lower_ascii c) (lower_string rest)
  end.

(** [strings.TrimSuffix]. *)
Fixpoint rev_string (s acc : string) : string :=
  match s with
  | EmptyString => acc
  | String c rest => rev_string rest (String c acc)
  end.

Fixpoint strip_prefix (p s : string) : option string :=
  match p, s with
  | EmptyString, _ => Some s
  | String a p', String b s' => if Ascii.eqb a b then strip_prefix p' s' else None
  | String _ _, EmptyString => None
  end.

Definition TrimSuffix (s suffix : string) : string :=
  match strip_prefix (rev_string suffix "") (rev_string s "") with
  | Some r => rev_string r ""
  | None => s
  end.

(** ** Errors *)

Inductive StatusReason :=
| StatusReasonForbidden
| StatusReasonNotFound
| StatusReasonUnknown.

(** An [error] is made by [errors.New] or [fmt.Errorf] ([ErrorString]),
    returned by the cluster API with a status ([StatusError]), or wraps
    another error with a message ([errors.Wrap], [errors.Wrapf]). *)
Inductive error :=
| ErrorString (msg : string)
| StatusError (reason : StatusReason) (msg : string)
| Wrapped (cause : error) (msg : string).

Definition Wrap (err : error) (msg : string) : error := Wrapped err msg.

(** [err.Error()]. *)
Fixpoint Error_ (err : error) : string :=
  match err with
  | ErrorString msg => msg
  | StatusError _ msg => msg
  | Wrapped cause msg => msg ++ ": " ++ Error_ cause
  end.

(** [kerrors.IsForbidden(err)]: the error is an API status error whose reason
    is Forbidden; [nil] is not. *)
Definition IsForbidden (err : option error) : bool :=
  match err with
  | Some (StatusError StatusReasonForbidden _) => true
  | _ => false
  end.

(** ** Constants of the package *)

Definition regcredName : string := "regcred".
Definition DeployComponentSuffix : string := "-deploy".
(** [5 * time.Minute], in nanoseconds. *)
Definition BuildTimeout : Z := 5 * 60 * 1000000000.
Definition internalRegistryHost : string :=
  "image-registry.openshift-image-registry.svc:5000".
Definition dockerfilePath : string := "Dockerfile".

Definition kanikoSecret : string := "kaniko-secret".
Definition buildContext : string := "build-context".
Definition buildContextMountPath : string := "/root/build-context".
Definition kanikoSecretMountPath : string := "/root/.docker".
Definition completionFile : string := "/tmp/complete".

(** ** Detection of the internal registry *)

Definition slash : ascii := "/"%char.

Definition isInternalRegistry (imageTag : string) : bool * option error :=
  let components := Split imageTag slash in
  if negb (List.length components =? 3)%nat then
    (false, Some (ErrorString
       ("Invalid image tag '" ++ imageTag ++ "', must contain 3 components")))
  else if bool_decide (components !! 0%nat = Some internalRegistryHost) then
    (true, None)
  else (false, None).

(** ** Substitution of variables in a manifest *)

(** The part of [text/template] the adapter uses. [Parse] is
    [template.New(name).Parse(text)]; [Execute] gives what was written to the
    buffer, together with the error of the execution, if any. *)
Class TextTemplate := {
  Template : Type;
  Parse : string -> string -> error + Template;
  Execute : Template -> gmap string string -> string * option error;
}.

Section Substitution.
Context `{TextTemplate}.

Definition substitueYamlVariables (baseYaml : string)
    (yamlSubstitutions : gmap string string) : string * option error :=
  match Parse "deploy" baseYaml with
  | inl err => ("", Some (Wrap err "error creating template"))
  | inr tmpl =>
      let '(buf, _) := Execute tmpl yamlSubstitutions in
      (buf, None)
  end.

End Substitution.

(** ** Kubernetes objects

    The fields are those the adapter reads or writes. *)

Module OwnerReference.
Record t := { APIVersion : string; Kind : string; Name : string; UID : string }.
End OwnerReference.

Module ObjectMeta.
Record t := {
  Name : string;
  Namespace : string;
  Labels : gmap string string;
  Annotations : gmap string string;
  OwnerReferences : list OwnerReference.t;
  ResourceVersion : string;
}.
Definition set_OwnerReferences (refs : list OwnerReference.t) (m : t) : t :=
  {| Name := Name m; Namespace := Namespace m; Labels := Labels m;
     Annotations := Annotations m; OwnerReferences := refs;
     ResourceVersion := ResourceVersion m |}.
Definition set_ResourceVersion (v : string) (m : t) : t :=
  {| Name := Name m; Namespace := Namespace m; Labels := Labels m;
     Annotations := Annotations m; OwnerReferences := OwnerReferences m;
     ResourceVersion := v |}.
End ObjectMeta.

Module EnvVar.
Record t := { Name : string; Value : string }.
End EnvVar.

Module ContainerPort.
Record t := { Name : string; ContainerPort : Z; Protocol : string }.
End ContainerPort.

Module VolumeMount.
Record t := { Name : string; MountPath : string }.
End VolumeMount.

Module Container.
Record t := {
  Name : string;
  Image : string;
  ImagePullPolicy : string;
  Env : list EnvVar.t;
  Command : list string;
  Args : list string;
  Ports : list ContainerPort.t;
  VolumeMounts : list VolumeMount.t;
}.
End Container.

Module KeyToPath.
Record t := { Key : string; Path : string }.
End KeyToPath.

Module SecretVolumeSource.
Record t := { SecretName : string; Items : list KeyToPath.t }.
End SecretVolumeSource.

(** The pointer fields of [corev1.VolumeSource] are options; an
    [EmptyDirVolumeSource{}] has no field of its own. *)
Module VolumeSource.
Record t := {
  Secret : option SecretVolumeSource.t;
  EmptyDir : option unit;
  PersistentVolumeClaim : option string;
}.
End VolumeSource.

Module Volume.
Record t := { Name : string; VolumeSource : VolumeSource.t }.
End Volume.

Module PodSecurityContext.
Record t := { RunAsUser : option Z }.
End PodSecurityContext.

Inductive RestartPolicy := RestartPolicyAlways | RestartPolicyOnFailure | RestartPolicyNever.

Module PodSpec.
Record t := {
  RestartPolicy : option RestartPolicy;
  SecurityContext : option PodSecurityContext.t;
  InitContainers : list Container.t;
  Containers : list Container.t;
  Volumes : list Volume.t;
}.
End PodSpec.

Inductive PodPhase := PodPending | PodRunning | PodSucceeded | PodFailed | PodUnknown.

Module Pod.
Record t := { ObjectMeta : ObjectMeta.t; Spec : PodSpec.t }.
Definition GetName (p : t) : string := ObjectMeta.Name (ObjectMeta p).
End Pod.

Module PodTemplateSpec.
Record t := { ObjectMeta : ObjectMeta.t; Spec : PodSpec.t }.
End PodTemplateSpec.

Module DeploymentSpec.
Record t := { Template : PodTemplateSpec.t; Selector : gmap string string }.
End DeploymentSpec.

Module Deployment.
Record t := { ObjectMeta : ObjectMeta.t; Spec : DeploymentSpec.t }.
End Deployment.

Module ServicePort.
Record t := { Name : string; Port : Z; TargetPort : Z }.
End ServicePort.

Module ServiceSpec.
Record t := {
  Ports : list ServicePort.t;
  ClusterIP : string;
  Selector : gmap string string;
}.
Definition set_ClusterIP (ip : string) (s : t) : t :=
  {| Ports := Ports s; ClusterIP := ip; Selector := Selector s |}.
End ServiceSpec.

Module Service.
Record t := { ObjectMeta : ObjectMeta.t; Spec : ServiceSpec.t }.
Definition GetResourceVersion (s : t) : string :=
  ObjectMeta.ResourceVersion (ObjectMeta s).
End Service.

Module GroupVersionResource.
Record t := { Group : string; Version : string; Resource : string }.
End GroupVersionResource.

(** An [unstructured.Unstructured] object, as far as the adapter looks into
    it. *)
Module Unstructured.
Record t := { Kind : string; Name : string; Namespace : string; Content : string }.
End Unstructured.

(** ** Devfile and adapter data *)

Module DevfileVolume.
Record t := { Name : string; ContainerPath : string; Size : string }.
End DevfileVolume.

Module Storage.
Record t := { Name : string; Volume : DevfileVolume.t }.
End Storage.

Module Exec.
Record t := {
  Id : string;
  Component : string;
  CommandLine : string;
  WorkingDir : string;
  Attributes : gmap string string;
}.
End Exec.

Module Composite.
Record t := { Id : string; Commands : list string; Parallel : bool }.
End Composite.

(** A [DevfileCommand] holds a pointer to an exec command or to a composite
    command; either may be [nil]. *)
Module DevfileCommand.
Record t := { Exec : option Exec.t; Composite : option Composite.t }.
(** The zero value, which a Go map gives for a missing key. *)
Definition zero : t := {| Exec := None; Composite := None |}.
End DevfileCommand.

Module ComponentInfo.
Record t := { ContainerName : string; PodName : string; SourceMount : string }.
Definition set_ContainerName (c : string) (i : t) : t :=
  {| ContainerName := c; PodName := PodName i; SourceMount := SourceMount i |}.
End ComponentInfo.

Module EnvSpecificInfo.
Record t := { Namespace : string; Name : string }.
Definition GetNamespace (ei : t) : string := Namespace ei.
End EnvSpecificInfo.

Module BuildParameters.
Record t := {
  Path : string;
  Tag : string;
  Rootless : bool;
  DockerConfigJSONFilename : string;
  EnvSpecificInfo : EnvSpecificInfo.t;
}.
Definition set_Tag (tag : string) (p : t) : t :=
  {| Path := Path p; Tag := tag; Rootless := Rootless p;
     DockerConfigJSONFilename := DockerConfigJSONFilename p;
     EnvSpecificInfo := EnvSpecificInfo p |}.
End BuildParameters.

Module PushParameters.
Record t := {
  Path : string;
  ForceBuild : bool;
  Show : bool;
  EnvSpecificInfo : EnvSpecificInfo.t;
  DevfileInitCmd : string;
  DevfileBuildCmd : string;
  DevfileRunCmd : string;
  DevfileDebugCmd : string;
  Debug : bool;
  DebugPort : Z;
}.
Definition set_ForceBuild (b : bool) (p : t) : t :=
  {| Path := Path p; ForceBuild := b; Show := Show p;
     EnvSpecificInfo := EnvSpecificInfo p; DevfileInitCmd := DevfileInitCmd p;
     DevfileBuildCmd := DevfileBuildCmd p; DevfileRunCmd := DevfileRunCmd p;
     DevfileDebugCmd := DevfileDebugCmd p; Debug := Debug p;
     DebugPort := DebugPort p |}.
End PushParameters.

Module SyncParameters.
Record t := {
  PushParams : PushParameters.t;
  CompInfo : ComponentInfo.t;
  ComponentExists : bool;
  PodChanged : bool;
}.
End SyncParameters.

(** A map of the selected commands, keyed by the kind of their group. *)
Abbreviation PushCommandsMap := (gmap string DevfileCommand.t).

(** A Go map that is ranged over: its entries in the order of the
    iteration, which Go leaves unspecified. *)
Abbreviation ContainerVolumes := (list (string * list DevfileVolume.t)).

(** ** Calls to the outside

    One constructor for each function of the cluster clients ([kclient],
    [occlient]), of the packages [sync], [exec], [storage], [utils] and
    [component], of [os/signal] and of [log] that the adapter calls and that
    reads or changes the state of the cluster, of the file system or of the
    process. The client, the adapter context and the event logger that the Go
    functions take are the same in every call and are left out. *)

Inductive LogLevel := LogInfo | LogWarning | LogSuccess | LogError.

Inductive call :=
(* log *)
| Logf (level : LogLevel) (msg : string)
(* os/signal: [signal.Notify] with the start of [terminateBuild], and
   [signal.Stop] *)
| SignalNotify
| SignalStop
(* occlient *)
| OcclientNew
| IsBuildConfigSupported
| CreateDockerBuildConfigWithBinaryInput (commonObjectMeta : ObjectMeta.t)
    (dockerfile tag : string) (envVars : list EnvVar.t)
    (buildOutput secretName : string)
| DeleteBuildConfig (commonObjectMeta : ObjectMeta.t)
| RunBuildConfigWithBinaryInput (name : string) (reader : string)
| WaitForBuildToFinish (buildName : string) (timeout : Z)
(* sync *)
| SyncFilesBuild (parameters : BuildParameters.t) (dockerfile : string)
| SyncFiles (syncParameters : SyncParameters.t)
(* utils *)
| CreateDockerConfigDataFromFilepath (filename : string)
| CreateSecret (name namespace : string) (data : string)
| ComponentExists (name : string)
(* kclient *)
| DynamicCreate (gvr : GroupVersionResource.t) (namespace : string)
    (obj : Unstructured.t)
| PodsCreate (namespace : string) (pod : Pod.t)
| WaitAndGetPodOnInitContainerStarted (selector initContainer msg : string)
    (hideSpinner : bool)
| WaitAndGetPod (selector : string) (desiredPhase : PodPhase) (msg : string)
    (hideSpinner : bool)
| ExtractProjectToComponent (compInfo : ComponentInfo.t) (targetPath : string)
    (source : string)
| ExecCMDInContainer (compInfo : ComponentInfo.t) (cmd : list string)
| UpdateDeployment (spec : DeploymentSpec.t)
| CreateDeployment (spec : DeploymentSpec.t)
| ServicesGet (namespace name : string)
| CreateService (objectMeta : ObjectMeta.t) (spec : ServiceSpec.t)
| UpdateService (objectMeta : ObjectMeta.t) (spec : ServiceSpec.t)
| ServicesDelete (namespace name : string)
| WaitForDeploymentRollout (name : string)
| DeleteDeployment (labels : gmap string string)
(* storage *)
| GeneratePVCNameFromDevfileVol (volName componentName : string)
| GetExistingPVC (volName componentName : string)
| StorageCreate (storages : list Storage.t)
(* component *)
| ApplyConfig (ei : EnvSpecificInfo.t) (componentExists : bool)
(* exec *)
| ExecuteCompositeDevfileAction (composite : Composite.t)
    (commandsMap : gmap string DevfileCommand.t) (compInfo : ComponentInfo.t)
    (show : bool)
| ExecuteDevfileCommandSynchronously (command : Exec.t) (cmdName : string)
    (compInfo : ComponentInfo.t) (show consoleOutputStdout : bool)
| ExecuteDevfileRunAction (command : Exec.t) (cmdName : string)
    (compInfo : ComponentInfo.t) (show : bool)
| ExecuteDevfileRunActionWithoutRestart (command : Exec.t) (cmdName : string)
    (compInfo : ComponentInfo.t) (show : bool)
| ExecuteDevfileDebugAction (command : Exec.t) (cmdName : string)
    (compInfo : ComponentInfo.t) (show : bool)
| ExecuteDevfileDebugActionWithoutRestart (command : Exec.t) (cmdName : string)
    (compInfo : ComponentInfo.t) (show : bool)
| ExecuteCommand (compInfo : ComponentInfo.t) (command : list string)
    (show : bool)
(* machineoutput *)
| ReportError (err : error).

(** What a call gives back. *)
Definition resp (c : call) : Type :=
  match c with
  | Logf _ _ | SignalNotify | SignalStop | ReportError _ => unit
  | OcclientNew => option error
  | IsBuildConfigSupported => (error + bool)%type
  | CreateDockerBuildConfigWithBinaryInput _ _ _ _ _ _ => option error
  | DeleteBuildConfig _ => option error
  | RunBuildConfigWithBinaryInput _ _ => (error + string)%type
  | WaitForBuildToFinish _ _ => option error
  | SyncFilesBuild _ _ => (error + string)%type
  | SyncFiles _ => (error + bool)%type
  | CreateDockerConfigDataFromFilepath _ => (error + string)%type
  | CreateSecret _ _ _ => (error + Unstructured.t)%type
  | ComponentExists _ => (bool * option error)%type
  | DynamicCreate _ _ _ => option error
  | PodsCreate _ _ => (error + Pod.t)%type
  | WaitAndGetPodOnInitContainerStarted _ _ _ _ => (error + Pod.t)%type
  | WaitAndGetPod _ _ _ _ => (error + Pod.t)%type
  | ExtractProjectToComponent _ _ _ => option error
  | ExecCMDInContainer _ _ => (string * string * option error)%type
  | UpdateDeployment _ | CreateDeployment _ => (error + Deployment.t)%type
  | ServicesGet _ _ => (error + Service.t)%type
  | CreateService _ _ | UpdateService _ _ => option error
  | ServicesDelete _ _ => option error
  | WaitForDeploymentRollout _ => option error
  | DeleteDeployment _ => option error
  | GeneratePVCNameFromDevfileVol _ _ => (error + string)%type
  | GetExistingPVC _ _ => (error + string)%type
  | StorageCreate _ => option error
  | ApplyConfig _ _ => option error
  | ExecuteCompositeDevfileAction _ _ _ _ => option error
  | ExecuteDevfileCommandSynchronously _ _ _ _ _ => option error
  | ExecuteDevfileRunAction _ _ _ _
  | ExecuteDevfileRunActionWithoutRestart _ _ _ _
  | ExecuteDevfileDebugAction _ _ _ _
  | ExecuteDevfileDebugActionWithoutRestart _ _ _ _ => option error
  | ExecuteCommand _ _ _ => option error
  end.

(** ** Programs

    A Go function that talks to the outside is a tree: it returns, or it
    stops the goroutine (a run-time panic, such as the dereference of a nil
    pointer) or the process ([os.Exit]), or it makes a call and goes on with
    the response. *)

Inductive crash :=
| NilDereference
| OsExit (code : Z).

Inductive prog (A : Type) : Type :=
| Ret (a : A)
| Crash (c : crash)
| Do (c : call) (k : resp c -> prog A).

Arguments Ret {A} a.
Arguments Crash {A} c.
Arguments Do {A} c k.

Fixpoint bind {A B : Type} (p : prog A) (f : A -> prog B) : prog B :=
  match p with
  | Ret a => f a
  | Crash c => Crash c
  | Do c k => Do c (fun r => bind (k r) f)
  end.

Definition perform (c : call) : prog (resp c) := Do c Ret.

Notation "x <- p ;; q" := (bind p (fun x => q))
  (at level 20, p at level 99, q at level 200, only parsing).
Notation "' pat <- p ;; q" := (bind p (fun x => match x with pat => q end))
  (at level 20, pat pattern, p at level 99, q at level 200, only parsing).

(** [*p] for a pointer [p]. *)
Definition deref {A : Type} (p : option A) : prog A :=
  match p with
  | Some a => Ret a
  | None => Crash NilDereference
  end.

(** [defer]: the deferred function runs when the body returns, with the
    error the body returns, and may replace it; it runs as well when the body
    panics, and the panic goes on; it does not run when the process exits. *)
Fixpoint defer_ {E : Type} (nil : E) (body : prog E) (deferred : E -> prog E)
    : prog E :=
  match body with
  | Ret err => deferred err
  | Crash NilDereference => _ <- deferred nil ;; Crash NilDereference
  | Crash (OsExit code) => Crash (OsExit code)
  | Do c k => Do c (fun r => defer_ nil (k r) deferred)
  end.

(** ** Running a program

    The outside is a state [W] and a [handler] that answers each call and
    moves the state. A run gives the calls made with their responses, in
    order, how the program ended, and the last state. *)

Definition handler (W : Type) : Type := forall c : call, W -> resp c * W.

Inductive event := Ev (c : call) (r : resp c).

Inductive outcome (A : Type) : Type :=
| Returned (a : A)
| Crashed (c : crash).

Arguments Returned {A} a.
Arguments Crashed {A} c.

Fixpoint run {W A : Type} (h : handler W) (p : prog A) (w : W)
    : list event * outcome A * W :=
  match p with
  | Ret a => ([], Returned a, w)
  | Crash c => ([], Crashed c, w)
  | Do c k =>
      let '(r, w1) := h c w in
      let '(tr, out, w2) := run h (k r) w1 in
      (Ev c r :: tr, out, w2)
  end.

Definition trace {W A : Type} (h : handler W) (p : prog A) (w : W) : list event :=
  fst (fst (run h p w)).

Definition result {W A : Type} (h : handler W) (p : prog A) (w : W) : outcome A :=
  snd (fst (run h p w)).

Definition ev_call (e : event) : call :=
  match e with Ev c _ => c end.

(** The calls of a trace, without the responses. *)
Definition calls (tr : list event) : list call := ev_call <$> tr.

(** The error a call gave back, if it gave one. *)
Definition resp_error (c : call) : resp c -> option error :=
  match c as c0 return resp c0 -> option error with
  | Logf _ _ => fun _ => None
  | SignalNotify => fun _ => None
  | SignalStop => fun _ => None
  | ReportError _ => fun _ => None
  | OcclientNew => fun r => r
  | IsBuildConfigSupported => fun r => match r with inl err => Some err | inr _ => None end
  | CreateDockerBuildConfigWithBinaryInput _ _ _ _ _ _ => fun r => r
  | DeleteBuildConfig _ => fun r => r
  | RunBuildConfigWithBinaryInput _ _ => fun r => match r with inl err => Some err | inr _ => None end
  | WaitForBuildToFinish _ _ => fun r => r
  | SyncFilesBuild _ _ => fun r => match r with inl err => Some err | inr _ => None end
  | SyncFiles _ => fun r => match r with inl err => Some err | inr _ => None end
  | CreateDockerConfigDataFromFilepath _ => fun r => match r with inl err => Some err | inr _ => None end
  | CreateSecret _ _ _ => fun r => match r with inl err => Some err | inr _ => None end
  | ComponentExists _ => fun r => snd r
  | DynamicCreate _ _ _ => fun r => r
  | PodsCreate _ _ => fun r => match r with inl err => Some err | inr _ => None end
  | WaitAndGetPodOnInitContainerStarted _ _ _ _ => fun r => match r with inl err => Some err | inr _ => None end
  | WaitAndGetPod _ _ _ _ => fun r => match r with inl err => Some err | inr _ => None end
  | ExtractProjectToComponent _ _ _ => fun r => r
  | ExecCMDInContainer _ _ => fun r => snd r
  | UpdateDeployment _ => fun r => match r with inl err => Some err | inr _ => None end
  | CreateDeployment _ => fun r => match r with inl err => Some err | inr _ => None end
  | ServicesGet _ _ => fun r => match r with inl err => Some err | inr _ => None end
  | CreateService _ _ => fun r => r
  | UpdateService _ _ => fun r => r
  | ServicesDelete _ _ => fun r => r
  | WaitForDeploymentRollout _ => fun r => r
  | DeleteDeployment _ => fun r => r
  | GeneratePVCNameFromDevfileVol _ _ => fun r => match r with inl err => Some err | inr _ => None end
  | GetExistingPVC _ _ => fun r => match r with inl err => Some err | inr _ => None end
  | StorageCreate _ => fun r => r
  | ApplyConfig _ _ => fun r => r
  | ExecuteCompositeDevfileAction _ _ _ _ => fun r => r
  | ExecuteDevfileCommandSynchronously _ _ _ _ _ => fun r => r
  | ExecuteDevfileRunAction _ _ _ _ => fun r => r
  | ExecuteDevfileRunActionWithoutRestart _ _ _ _ => fun r => r
  | ExecuteDevfileDebugAction _ _ _ _ => fun r => r
  | ExecuteDevfileDebugActionWithoutRestart _ _ _ _ => fun r => r
  | ExecuteCommand _ _ _ => fun r => r
  end.

Definition ev_error (e : event) : option error :=
  match e with Ev c r => resp_error c r end.

(** Kinds of calls. *)
Definition is_CreateBuildConfig (c : call) : bool :=
  match c with
  | CreateDockerBuildConfigWithBinaryInput _ _ _ _ _ _ => true
  | _ => false
  end.

Definition is_DeleteBuildConfig (c : call) : bool :=
  match c with DeleteBuildConfig _ => true | _ => false end.

(** The two build strategies, and the call by which each one starts its
    work on the cluster: the creation of the BuildConfig, and the creation
    of the builder pod. *)
Inductive Strategy := BuildConfigStrategy | KanikoStrategy.

Definition strategy_of_call (c : call) : option Strategy :=
  match c with
  | CreateDockerBuildConfigWithBinaryInput _ _ _ _ _ _ => Some BuildConfigStrategy
  | PodsCreate _ _ => Some KanikoStrategy
  | _ => None
  end.

(** The strategies that a run started, in order. *)
Definition strategies (tr : list event) : list Strategy :=
  omap strategy_of_call (calls tr).

(** The pod has a volume named [volume] that is the secret [secret], and a
    container that mounts it. *)
Definition mounts_secret (volume secret : string) (pod : Pod.t) : Prop :=
  (exists vol src,
     vol ∈ PodSpec.Volumes (Pod.Spec pod)
     /\ Volume.Name vol = volume
     /\ VolumeSource.Secret (Volume.VolumeSource vol) = Some src
     /\ SecretVolumeSource.SecretName src = secret)
  /\ (exists c m,
        c ∈ PodSpec.Containers (Pod.Spec pod)
        /\ m ∈ Container.VolumeMounts c
        /\ VolumeMount.Name m = volume).

(** What is asked of the calls of a build: a pod that is created mounts the
    registry secret, and a secret is created only if [secrets] holds. *)
Definition build_call_ok (secrets : Prop) (c : call) : Prop :=
  match c with
  | PodsCreate _ pod => mounts_secret kanikoSecret regcredName pod
  | DynamicCreate _ _ _ => secrets
  | _ => True
  end.

(** The Service that a lookup found. *)
Definition ev_service (e : event) : option Service.t :=
  match e with
  | Ev c r =>
      match c as c0 return resp c0 -> option Service.t with
      | ServicesGet _ _ => fun r => match r with inr svc => Some svc | inl _ => None end
      | _ => fun _ => None
      end r
  end.

(** The calls of the loop over the volumes. *)
Definition is_volume_call (c : call) : bool :=
  match c with
  | GeneratePVCNameFromDevfileVol _ _ | GetExistingPVC _ _ => true
  | _ => false
  end.

(** The requests about the Service of a component. *)
Definition is_service_request (c : call) : bool :=
  match c with
  | CreateService _ _ | UpdateService _ _ | ServicesDelete _ _ => true
  | _ => false
  end.

(** The actions of the supervisor that start the command of a component
    again, and those that hand it the command without a restart. *)
Definition is_restart_action (c : call) : bool :=
  match c with
  | ExecuteDevfileRunAction _ _ _ _ | ExecuteDevfileDebugAction _ _ _ _ => true
  | _ => false
  end.

Definition is_without_restart_action (c : call) : bool :=
  match c with
  | ExecuteDevfileRunActionWithoutRestart _ _ _ _
  | ExecuteDevfileDebugActionWithoutRestart _ _ _ _ => true
  | _ => false
  end.

(** The dispatch of a Run or Debug command to the supervisor. *)
Definition is_dispatch (c : call) : bool :=
  is_restart_action c || is_without_restart_action c.

(** The execution of a command or of a composite command in the container. *)
Definition is_command_execution (c : call) : bool :=
  match c with
  | ExecuteCompositeDevfileAction _ _ _ _
  | ExecuteDevfileCommandSynchronously _ _ _ _ _ => true
  | _ => false
  end.

(** The calls of the reconciliation of a component. *)
Definition is_deployment_request (c : call) : bool :=
  match c with
  | UpdateDeployment _ | CreateDeployment _ => true
  | _ => false
  end.

Definition is_reconcile_call (c : call) : bool :=
  match c with
  | GeneratePVCNameFromDevfileVol _ _ | GetExistingPVC _ _
  | UpdateDeployment _ | CreateDeployment _
  | ServicesGet _ _ | CreateService _ _ | UpdateService _ _ | ServicesDelete _ _
  | StorageCreate _ => true
  | _ => false
  end.

(** The calls of [execDevfile] and of [execDevfileEvent]: to the package
    [exec], and to the logger of machine events. *)
Definition is_exec_call (c : call) : bool :=
  match c with
  | ExecuteCompositeDevfileAction _ _ _ _
  | ExecuteDevfileCommandSynchronously _ _ _ _ _
  | ExecuteDevfileRunAction _ _ _ _
  | ExecuteDevfileRunActionWithoutRestart _ _ _ _
  | ExecuteDevfileDebugAction _ _ _ _
  | ExecuteDevfileDebugActionWithoutRestart _ _ _ _
  | ExecuteCommand _ _ _
  | ReportError _ => true
  | _ => false
  end.

(** What the synchronisation of the files answered. *)
Definition ev_execRequired (e : event) : option bool :=
  match e with
  | Ev c r =>
      match c as c0 return resp c0 -> option bool with
      | SyncFiles _ => fun r => match r with inr b => Some b | inl _ => None end
      | _ => fun _ => None
      end r
  end.

(** The calls of the execution of the events of the devfile: the executions
    of their commands, and the line that is logged before. *)
Definition is_event_call (c : call) : bool :=
  match c with
  | Logf _ _
  | ExecuteCompositeDevfileAction _ _ _ _
  | ExecuteDevfileCommandSynchronously _ _ _ _ _ => true
  | _ => false
  end.

(** Every call that a program can make, whatever the responses, satisfies
    [P]. *)
Fixpoint all_calls {A : Type} (P : call -> Prop) (p : prog A) : Prop :=
  match p with
  | Ret _ => True
  | Crash _ => True
  | Do c k => P c /\ forall r, all_calls P (k r)
  end.

(** The response of a call that fails with [err]; a call that gives no error
    back keeps its response. *)
Definition resp_fail (c : call) (err : error) : resp c -> resp c :=
  match c as c0 return resp c0 -> resp c0 with
  | Logf _ _ => fun r => r
  | SignalNotify => fun r => r
  | SignalStop => fun r => r
  | ReportError _ => fun r => r
  | OcclientNew => fun _ => Some err
  | IsBuildConfigSupported => fun _ => inl err
  | CreateDockerBuildConfigWithBinaryInput _ _ _ _ _ _ => fun _ => Some err
  | DeleteBuildConfig _ => fun _ => Some err
  | RunBuildConfigWithBinaryInput _ _ => fun _ => inl err
  | WaitForBuildToFinish _ _ => fun _ => Some err
  | SyncFilesBuild _ _ => fun _ => inl err
  | SyncFiles _ => fun _ => inl err
  | CreateDockerConfigDataFromFilepath _ => fun _ => inl err
  | CreateSecret _ _ _ => fun _ => inl err
  | ComponentExists _ => fun r => (fst r, Some err)
  | DynamicCreate _ _ _ => fun _ => Some err
  | PodsCreate _ _ => fun _ => inl err
  | WaitAndGetPodOnInitContainerStarted _ _ _ _ => fun _ => inl err
  | WaitAndGetPod _ _ _ _ => fun _ => inl err
  | ExtractProjectToComponent _ _ _ => fun _ => Some err
  | ExecCMDInContainer _ _ => fun r => (fst r, Some err)
  | UpdateDeployment _ => fun _ => inl err
  | CreateDeployment _ => fun _ => inl err
  | ServicesGet _ _ => fun _ => inl err
  | CreateService _ _ => fun _ => Some err
  | UpdateService _ _ => fun _ => Some err
  | ServicesDelete _ _ => fun _ => Some err
  | WaitForDeploymentRollout _ => fun _ => Some err
  | DeleteDeployment _ => fun _ => Some err
  | GeneratePVCNameFromDevfileVol _ _ => fun _ => inl err
  | GetExistingPVC _ _ => fun _ => inl err
  | StorageCreate _ => fun _ => Some err
  | ApplyConfig _ _ => fun _ => Some err
  | ExecuteCompositeDevfileAction _ _ _ _ => fun _ => Some err
  | ExecuteDevfileCommandSynchronously _ _ _ _ _ => fun _ => Some err
  | ExecuteDevfileRunAction _ _ _ _ => fun _ => Some err
  | ExecuteDevfileRunActionWithoutRestart _ _ _ _ => fun _ => Some err
  | ExecuteDevfileDebugAction _ _ _ _ => fun _ => Some err
  | ExecuteDevfileDebugActionWithoutRestart _ _ _ _ => fun _ => Some err
  | ExecuteCommand _ _ _ => fun _ => Some err
  end.

(** ** What the adapter takes from other packages

    The devfile behind the interface [data.DevfileData], [strings.ToLower],
    and the functions and constants of [common], [componentlabels], [utils]
    and [kclient] that compute without touching the cluster. Their code is
    outside this package; the adapter is verified for every implementation
    of them. *)

Class Helpers := {
  (* strings *)
  ToLower : string -> string;
  (* parser.DevfileObj and its data *)
  DevfileObj : Type;
  GetMetadataName : DevfileObj -> string;
  GetCommands : DevfileObj -> list DevfileCommand.t;
  GetEventsPostStart : DevfileObj -> list string;
  (* common and versionsCommon *)
  SupervisordBinaryPath : string;
  SupervisordConfFile : string;
  InitCommandGroupType : string;
  BuildCommandGroupType : string;
  RunCommandGroupType : string;
  DebugCommandGroupType : string;
  GetCommandsMap : list DevfileCommand.t -> gmap string DevfileCommand.t;
  GetVolumes : DevfileObj -> ContainerVolumes;
  IsRestartRequired : DevfileCommand.t -> bool;
  ValidateAndGetPushDevfileCommands :
    DevfileObj -> string -> string -> string -> error + PushCommandsMap;
  ValidateAndGetDebugDevfileCommands :
    DevfileObj -> string -> error + DevfileCommand.t;
  (* componentlabels *)
  ComponentTypeLabel : string;
  GetLabels : string -> string -> bool -> gmap string string;
  (* utils *)
  GetContainers : DevfileObj -> error + list Container.t;
  UpdateContainersWithSupervisord :
    DevfileObj -> list Container.t -> string -> string -> Z ->
    error + list Container.t;
  UpdateContainerWithEnvFrom :
    list Container.t -> DevfileObj -> string -> EnvSpecificInfo.t ->
    error + list Container.t;
  (* kclient *)
  OdoSourceVolume : string;
  CreateObjectMeta :
    string -> string -> gmap string string -> gmap string string -> ObjectMeta.t;
  GeneratePodTemplateSpec : ObjectMeta.t -> list Container.t -> PodTemplateSpec.t;
  AddBootstrapSupervisordInitContainer : PodTemplateSpec.t -> PodTemplateSpec.t;
  AddPVCAndVolumeMount :
    PodTemplateSpec.t -> gmap string string -> ContainerVolumes ->
    error + PodTemplateSpec.t;
  GenerateDeploymentSpec :
    PodTemplateSpec.t -> gmap string string -> DeploymentSpec.t;
  GenerateServiceSpec : string -> list ContainerPort.t -> ServiceSpec.t;
  GenerateOwnerReference : Deployment.t -> OwnerReference.t;
}.

(** [strings.Join]. *)
Fixpoint Join (elems : list string) (sep : string) : string :=
  match elems with
  | [] => ""
  | [e] => e
  | e :: rest => e ++ sep ++ Join rest sep
  end.

(** ** The kaniko builder pod *)

Definition PullAlways : string := "Always".

Definition buildContextVolumeMount : VolumeMount.t :=
  {| VolumeMount.Name := buildContext;
     VolumeMount.MountPath := buildContextMountPath |}.

Definition kanikoSecretVolumeMount : VolumeMount.t :=
  {| VolumeMount.Name := kanikoSecret;
     VolumeMount.MountPath := kanikoSecretMountPath |}.

Definition secretGroupVersionResource : GroupVersionResource.t :=
  {| GroupVersionResource.Group := "";
     GroupVersionResource.Version := "v1";
     GroupVersionResource.Resource := "secrets" |}.

Definition defaultId : Z := 0.

Definition builderContainer (name imageTag : string) : Container.t :=
  let commandArgs :=
    [ "--dockerfile=" ++ buildContextMountPath ++ "/Dockerfile";
      "--context=dir://" ++ buildContextMountPath;
      "--destination=" ++ imageTag ] in
  let envVars :=
    [ {| EnvVar.Name := "DOCKER_CONFIG"; EnvVar.Value := kanikoSecretMountPath |};
      {| EnvVar.Name := "AWS_ACCESS_KEY_ID"; EnvVar.Value := "NOT_SET" |};
      {| EnvVar.Name := "AWS_SECRET_KEY"; EnvVar.Value := "NOT_SET" |} ] in
  {| Container.Name := name;
     Container.Image := "gcr.io/kaniko-project/executor:latest";
     Container.ImagePullPolicy := PullAlways;
     Container.Env := envVars;
     Container.Command := [];
     Container.Args := commandArgs;
     Container.Ports := [];
     Container.VolumeMounts := [buildContextVolumeMount; kanikoSecretVolumeMount] |}.

Definition initContainer (name : string) : Container.t :=
  {| Container.Name := name;
     Container.Image := "busybox";
     Container.ImagePullPolicy := PullAlways;
     Container.Env := [];
     Container.Command := ["/bin/sh"; "-c"];
     Container.Args :=
       ["while true; do sleep 1; if [ -f " ++ completionFile
        ++ " ]; then break; fi done"];
     Container.Ports := [];
     Container.VolumeMounts := [buildContextVolumeMount] |}.

Section Adapter.
Context `{Helpers}.

(** The adapter: the fields of [common.AdapterContext] and of the client
    that the functions read, and the fields [Push] sets. *)
Record Adapter := {
  ComponentName : string;
  AppName : string;
  Context_ : string;
  Client_Namespace : string;
  Devfile : DevfileObj;
  devfileInitCmd : string;
  devfileBuildCmd : string;
  devfileRunCmd : string;
  devfileDebugCmd : string;
  devfileDebugPort : Z;
}.

Definition set_devfileCmds (init build run debug : string) (port : Z)
    (a : Adapter) : Adapter :=
  {| ComponentName := ComponentName a; AppName := AppName a;
     Context_ := Context_ a; Client_Namespace := Client_Namespace a;
     Devfile := Devfile a;
     devfileInitCmd := init; devfileBuildCmd := build; devfileRunCmd := run;
     devfileDebugCmd := debug; devfileDebugPort := port |}.

Definition createKanikoBuilderPod (a : Adapter) (labels : gmap string string)
    (init builder : Container.t) : prog (option error) :=
  let objectMeta :=
    CreateObjectMeta (ComponentName a) (Client_Namespace a) labels ∅ in
  let pod :=
    {| Pod.ObjectMeta := objectMeta;
       Pod.Spec :=
         {| PodSpec.RestartPolicy := Some RestartPolicyNever;
            PodSpec.SecurityContext :=
              Some {| PodSecurityContext.RunAsUser := Some defaultId |};
            PodSpec.InitContainers := [init];
            PodSpec.Containers := [builder];
            PodSpec.Volumes :=
              [ {| Volume.Name := kanikoSecret;
                   Volume.VolumeSource :=
                     {| VolumeSource.Secret :=
                          Some {| SecretVolumeSource.SecretName := regcredName;
                                  SecretVolumeSource.Items :=
                                    [ {| KeyToPath.Key := ".dockerconfigjson";
                                         KeyToPath.Path := "config.json" |} ] |};
                        VolumeSource.EmptyDir := None;
                        VolumeSource.PersistentVolumeClaim := None |} |};
                {| Volume.Name := buildContext;
                   Volume.VolumeSource :=
                     {| VolumeSource.Secret := None;
                        VolumeSource.EmptyDir := Some ();
                        VolumeSource.PersistentVolumeClaim := None |} |} ] |} |} in
  r <- perform (PodsCreate (Client_Namespace a) pod) ;;
  match r with
  | inl err => Ret (Some err)
  | inr _ => Ret None
  end.

Definition runKaniko (a : Adapter) (parameters : BuildParameters.t)
    (isImageRegistryInternal : bool) : prog (option error) :=
  let containerName := "build" in
  let initContainerName := "init" in
  let labels : gmap string string := {[ "component" := ComponentName a ]} in
  err <- createKanikoBuilderPod a labels (initContainer initContainerName)
           (builderContainer containerName (BuildParameters.Tag parameters)) ;;
  match err with
  | Some err => Ret (Some (Wrap err "error while creating kaniko builder pod"))
  | None =>
  let podSelector := "component=" ++ ComponentName a in
  r <- perform (WaitAndGetPodOnInitContainerStarted podSelector
                  initContainerName "Waiting for component to start" false) ;;
  match r with
  | inl err => Ret (Some (Wrap err ("error while waiting for pod " ++ podSelector)))
  | inr pod =>
  _ <- perform (Logf LogInfo ("
Syncing to component " ++ ComponentName a)) ;;
  let compInfo :=
    {| ComponentInfo.ContainerName := initContainerName;
       ComponentInfo.PodName := Pod.GetName pod;
       ComponentInfo.SourceMount := "" |} in
  r <- perform (SyncFilesBuild parameters dockerfilePath) ;;
  match r with
  | inl err =>
      Ret (Some (Wrap err ("failed to sync to component with name "
                           ++ ComponentName a)))
  | inr syncFolder =>
  err <- perform (ExtractProjectToComponent compInfo buildContextMountPath
                    syncFolder) ;;
  match err with
  | Some err =>
      Ret (Some (Wrap err "failed to stream tarball into file transfer container"))
  | None =>
  let cmd := ["touch"; completionFile] in
  '(stdout, stderr, err) <- perform (ExecCMDInContainer compInfo cmd) ;;
  match err with
  | Some err =>
      _ <- perform (Logf LogError ("Command '" ++ Join cmd " "
                                   ++ "' in container failed.
")) ;;
      _ <- perform (Logf LogError ("stdout: " ++ stdout ++ "
")) ;;
      _ <- perform (Logf LogError ("stderr: " ++ stderr ++ "
")) ;;
      _ <- perform (Logf LogError ("err: " ++ Error_ err ++ "
")) ;;
      Ret (Some err)
  | None =>
  _ <- perform (Logf LogSuccess ("Started builder pod " ++ Pod.GetName pod
                                 ++ " using Kaniko Build strategy")) ;;
  let cmdOutput := "" in
  r <- perform (WaitAndGetPod podSelector PodSucceeded
                  "Waiting for builder pod to complete" false) ;;
  match r with
  | inl err =>
      Ret (Some (Wrap err ("unable to build image using Kaniko, error: "
                           ++ cmdOutput)))
  | inr _ =>
  _ <- perform SignalStop ;;
  _ <- perform (Logf LogSuccess ("Successfully built container image: "
                                 ++ BuildParameters.Tag parameters)) ;;
  Ret None
  end end end end end end.

(** ** The build with a BuildConfig *)

Definition runBuildConfig (a : Adapter) (parameters : BuildParameters.t)
    (isImageRegistryInternal : bool) : prog (option error) :=
  let buildName := ComponentName a in
  let commonObjectMeta :=
    {| ObjectMeta.Name := buildName; ObjectMeta.Namespace := "";
       ObjectMeta.Labels := ∅; ObjectMeta.Annotations := ∅;
       ObjectMeta.OwnerReferences := []; ObjectMeta.ResourceVersion := "" |} in
  let '(parameters, buildOutput) :=
    if bool_decide (BuildParameters.Tag parameters = "")
    then (BuildParameters.set_Tag (buildName ++ ":latest") parameters,
          "ImageStreamTag")
    else (parameters, "DockerImage") in
  _ <- perform SignalNotify ;;
  let secretName := if negb isImageRegistryInternal then regcredName else "" in
  err <- perform (CreateDockerBuildConfigWithBinaryInput commonObjectMeta
                    dockerfilePath (BuildParameters.Tag parameters) []
                    buildOutput secretName) ;;
  match err with
  | Some err => Ret (Some err)
  | None =>
  defer_ None
    (r <- perform (SyncFilesBuild parameters dockerfilePath) ;;
     match r with
     | inl err => Ret (Some err)
     | inr reader =>
     r <- perform (RunBuildConfigWithBinaryInput buildName reader) ;;
     match r with
     | inl err => Ret (Some err)
     | inr bcName =>
     _ <- perform (Logf LogSuccess ("Started build " ++ bcName
                                    ++ " using BuildConfig")) ;;
     let cmdOutput := "" in
     err <- perform (WaitForBuildToFinish bcName BuildTimeout) ;;
     match err with
     | Some err =>
         Ret (Some (Wrap err ("unable to build image using BuildConfig "
                              ++ buildName ++ ", error: " ++ cmdOutput)))
     | None =>
     _ <- perform SignalStop ;;
     _ <- perform (Logf LogSuccess ("Successfully built container image: "
                                    ++ BuildParameters.Tag parameters)) ;;
     Ret None
     end end end)
    (fun err =>
       (* This will delete both the BuildConfig and any builds using it *)
       derr <- perform (DeleteBuildConfig commonObjectMeta) ;;
       if bool_decide (err = None) then Ret derr else Ret err)
  end.

(** [terminateBuild], once the signal has arrived. *)
Definition terminateBuild (commonObjectMeta : ObjectMeta.t) : prog unit :=
  _ <- perform (Logf LogInfo "
Build process interrupted, terminating build, this might take a few seconds") ;;
  err <- perform (DeleteBuildConfig commonObjectMeta) ;;
  _ <- match err with
       | Some err => perform (Logf LogInfo ("
" ++ Error_ err))
       | None => Ret ()
       end ;;
  Crash (OsExit 0).

(** ** Build *)

Definition createDockerConfigSecret (a : Adapter)
    (parameters : BuildParameters.t) : prog (option error) :=
  let ns := EnvSpecificInfo.GetNamespace (BuildParameters.EnvSpecificInfo parameters) in
  r <- perform (CreateDockerConfigDataFromFilepath
                  (BuildParameters.DockerConfigJSONFilename parameters)) ;;
  match r with
  | inl err => Ret (Some err)
  | inr data =>
  r <- perform (CreateSecret regcredName ns data) ;;
  match r with
  | inl err => Ret (Some err)
  | inr secretUnstructured =>
  err <- perform (DynamicCreate secretGroupVersionResource ns secretUnstructured) ;;
  match err with
  | Some err => Ret (Some err)
  | None => Ret None
  end end end.

Definition Build (a : Adapter) (parameters : BuildParameters.t)
    : prog (option error) :=
  err <- perform OcclientNew ;;
  match err with
  | Some err => Ret (Some err)
  | None =>
  r <- perform IsBuildConfigSupported ;;
  match r with
  | inl err => Ret (Some err)
  | inr isBuildConfigSupported =>
  match isInternalRegistry (BuildParameters.Tag parameters) with
  | (_, Some err) => Ret (Some err)
  | (isImageRegistryInternal, None) =>
  err <- (if negb isImageRegistryInternal
          then createDockerConfigSecret a parameters
          else Ret None) ;;
  match err with
  | Some err => Ret (Some err)
  | None =>
  if isBuildConfigSupported && negb (BuildParameters.Rootless parameters)
  then runBuildConfig a parameters isImageRegistryInternal
  else runKaniko a parameters isImageRegistryInternal
  end end end end.

(** ** Reconciliation of the Deployment, the Service and the volumes *)

(** The state of the loop over the volumes of the containers. *)
Record VolumeLoop := {
  uniqueStorages : list Storage.t;
  volumeNameToPVCName : gmap string string;
  processedVolumes : gmap string bool;
}.

Definition VolumeLoop_init : VolumeLoop :=
  {| uniqueStorages := []; volumeNameToPVCName := ∅; processedVolumes := ∅ |}.

(** The inner loop of [createOrUpdateComponent]: [for _, vol := range volumes]. *)
Fixpoint rangeVolumes (componentName : string) (volumes : list DevfileVolume.t)
    (st : VolumeLoop) : prog (error + VolumeLoop) :=
  match volumes with
  | [] => Ret (inr st)
  | vol :: volumes =>
      match processedVolumes st !! DevfileVolume.Name vol with
      | Some _ => rangeVolumes componentName volumes st
      | None =>
          let processed := <[DevfileVolume.Name vol := true]> (processedVolumes st) in
          (* Generate the PVC Names *)
          r <- perform (GeneratePVCNameFromDevfileVol (DevfileVolume.Name vol)
                          componentName) ;;
          match r with
          | inl err => Ret (inl err)
          | inr generatedPVCName =>
          (* Check if we have an existing PVC with the labels, overwrite the
             generated name with the existing name if present *)
          r <- perform (GetExistingPVC (DevfileVolume.Name vol) componentName) ;;
          match r with
          | inl err => Ret (inl err)
          | inr existingPVCName =>
          let generatedPVCName :=
            if (0 <? String.length existingPVCName)%nat
            then existingPVCName else generatedPVCName in
          let pvc :=
            {| Storage.Name := generatedPVCName; Storage.Volume := vol |} in
          rangeVolumes componentName volumes
            {| uniqueStorages := (uniqueStorages st ++ [pvc])%list;
               volumeNameToPVCName :=
                 <[DevfileVolume.Name vol := generatedPVCName]>
                   (volumeNameToPVCName st);
               processedVolumes := processed |}
          end end
      end
  end.

(** The outer loop: [for _, volumes := range containerNameToVolumes]. *)
Fixpoint rangeContainerVolumes (componentName : string)
    (containerNameToVolumes : ContainerVolumes) (st : VolumeLoop)
    : prog (error + VolumeLoop) :=
  match containerNameToVolumes with
  | [] => Ret (inr st)
  | (_, volumes) :: rest =>
      r <- rangeVolumes componentName volumes st ;;
      match r with
      | inl err => Ret (inl err)
      | inr st => rangeContainerVolumes componentName rest st
      end
  end.

(** The names of the volumes of a list of storages, and the names of the
    volumes that the containers refer to. *)
Definition storage_volume_names (storages : list Storage.t) : list string :=
  (fun s => DevfileVolume.Name (Storage.Volume s)) <$> storages.

Definition referenced_volume_names (containerNameToVolumes : ContainerVolumes)
    : list string :=
  concat ((fun entry : string * list DevfileVolume.t =>
             DevfileVolume.Name <$> snd entry)
          <$> (containerNameToVolumes : list (string * list DevfileVolume.t))).

(** The name of a storage was chosen in the run [tr]: a name was generated
    for its volume, the cluster was asked for a claim that exists for the
    volume, and the storage has the name of that claim if there is one, and
    the generated name otherwise. *)
Definition pvc_name_chosen (tr : list event) (componentName : string)
    (s : Storage.t) : Prop :=
  exists generated existing : string,
    Ev (GeneratePVCNameFromDevfileVol (DevfileVolume.Name (Storage.Volume s))
          componentName) (inr generated) ∈ tr
    /\ Ev (GetExistingPVC (DevfileVolume.Name (Storage.Volume s)) componentName)
          (inr existing) ∈ tr
    /\ Storage.Name s
       = if (0 <? String.length existing)%nat then existing else generated.

(** The invariant of the loop over the volumes, when the volumes named
    [seen] have been met in the run [tr]. *)
Definition VolumeLoop_inv (componentName : string) (seen : gset string)
    (tr : list event) (st : VolumeLoop) : Prop :=
  NoDup (storage_volume_names (uniqueStorages st))
  /\ (forall n, n ∈ storage_volume_names (uniqueStorages st) <-> n ∈ seen)
  /\ (forall n, is_Some (processedVolumes st !! n) <-> n ∈ seen)
  /\ (forall n, is_Some (volumeNameToPVCName st !! n) <-> n ∈ seen)
  /\ (forall s, s ∈ uniqueStorages st ->
        pvc_name_chosen tr componentName s
        /\ volumeNameToPVCName st !! DevfileVolume.Name (Storage.Volume s)
           = Some (Storage.Name s)).

(** The ports of all the containers. *)
Definition collectContainerPorts (containers : list Container.t)
    : list ContainerPort.t :=
  fold_left
    (fun containerPorts c =>
       if (List.length containerPorts =? 0)%nat then Container.Ports c
       else (containerPorts ++ Container.Ports c)%list)
    containers [].

(** The two branches of [if componentExists] in [createOrUpdateComponent]. *)
Definition applyDeploymentAndService (a : Adapter) (componentExists : bool)
    (objectMeta : ObjectMeta.t) (deploymentSpec : DeploymentSpec.t)
    (serviceSpec : ServiceSpec.t) : prog (option error) :=
  let componentName := ComponentName a in
  if componentExists then
    (* If the component already exists, get the resource version of the
       deploy before updating *)
    r <- perform (UpdateDeployment deploymentSpec) ;;
    match r with
    | inl err => Ret (Some err)
    | inr deployment =>
    oldSvc <- perform (ServicesGet (Client_Namespace a) componentName) ;;
    let ownerReference := GenerateOwnerReference deployment in
    let objectMetaTemp :=
      ObjectMeta.set_OwnerReferences
        (ObjectMeta.OwnerReferences objectMeta ++ [ownerReference])%list objectMeta in
    match oldSvc with
    | inl _ =>
        (* no old service was found, create a new one *)
        if (0 <? List.length (ServiceSpec.Ports serviceSpec))%nat then
          err <- perform (CreateService objectMetaTemp serviceSpec) ;;
          match err with
          | Some err => Ret (Some err)
          | None => Ret None
          end
        else Ret None
    | inr oldSvc =>
        if (0 <? List.length (ServiceSpec.Ports serviceSpec))%nat then
          let serviceSpec :=
            ServiceSpec.set_ClusterIP
              (ServiceSpec.ClusterIP (Service.Spec oldSvc)) serviceSpec in
          let objectMetaTemp :=
            ObjectMeta.set_ResourceVersion (Service.GetResourceVersion oldSvc)
              objectMetaTemp in
          err <- perform (UpdateService objectMetaTemp serviceSpec) ;;
          match err with
          | Some err => Ret (Some err)
          | None => Ret None
          end
        else
          err <- perform (ServicesDelete (Client_Namespace a) componentName) ;;
          match err with
          | Some err => Ret (Some err)
          | None => Ret None
          end
    end
    end
  else
    r <- perform (CreateDeployment deploymentSpec) ;;
    match r with
    | inl err => Ret (Some err)
    | inr deployment =>
    let ownerReference := GenerateOwnerReference deployment in
    let objectMetaTemp :=
      ObjectMeta.set_OwnerReferences
        (ObjectMeta.OwnerReferences objectMeta ++ [ownerReference])%list objectMeta in
    if (0 <? List.length (ServiceSpec.Ports serviceSpec))%nat then
      err <- perform (CreateService objectMetaTemp serviceSpec) ;;
      match err with
      | Some err => Ret (Some err)
      | None => Ret None
      end
    else Ret None
    end.

(** The labels and the object meta that [createOrUpdateComponent] gives to
    the objects of the component. *)
Definition componentLabels (a : Adapter) : gmap string string :=
  let componentName := ComponentName a in
  let componentType := TrimSuffix (GetMetadataName (Devfile a)) "-" in
  let labels := GetLabels componentName (AppName a) true in
  let labels := <["component" := componentName]> labels in
  let labels := <[ComponentTypeLabel := componentType]> labels in
  labels.

Definition componentObjectMeta (a : Adapter) : ObjectMeta.t :=
  CreateObjectMeta (ComponentName a) (Client_Namespace a) (componentLabels a) ∅.

Definition createOrUpdateComponent (a : Adapter) (componentExists : bool)
    (ei : EnvSpecificInfo.t) : prog (option error) :=
  let componentName := ComponentName a in
  let labels := componentLabels a in
  match GetContainers (Devfile a) with
  | inl err => Ret (Some err)
  | inr containers =>
  if (List.length containers =? 0)%nat then
    Ret (Some (ErrorString "No valid components found in the devfile"))
  else
  match UpdateContainersWithSupervisord (Devfile a) containers
          (devfileRunCmd a) (devfileDebugCmd a) (devfileDebugPort a) with
  | inl err => Ret (Some err)
  | inr containers =>
  (* set EnvFrom to the container that's supposed to have link to the
     Operator backed service *)
  match UpdateContainerWithEnvFrom containers (Devfile a) (devfileRunCmd a) ei with
  | inl err => Ret (Some err)
  | inr containers =>
  let objectMeta := componentObjectMeta a in
  let podTemplateSpec := GeneratePodTemplateSpec objectMeta containers in
  let podTemplateSpec := AddBootstrapSupervisordInitContainer podTemplateSpec in
  let containerNameToVolumes := GetVolumes (Devfile a) in
  (* Get a list of all the unique volume names and generate their PVC names *)
  r <- rangeContainerVolumes componentName containerNameToVolumes
         VolumeLoop_init ;;
  match r with
  | inl err => Ret (Some err)
  | inr st =>
  (* Add PVC and Volume Mounts to the podTemplateSpec *)
  match AddPVCAndVolumeMount podTemplateSpec (volumeNameToPVCName st)
          containerNameToVolumes with
  | inl err => Ret (Some err)
  | inr podTemplateSpec =>
  let deploymentSpec :=
    GenerateDeploymentSpec podTemplateSpec {[ "component" := componentName ]} in
  let containerPorts :=
    collectContainerPorts
      (PodSpec.Containers
         (PodTemplateSpec.Spec (DeploymentSpec.Template deploymentSpec))) in
  let serviceSpec :=
    GenerateServiceSpec (ObjectMeta.Name objectMeta) containerPorts in
  err <- applyDeploymentAndService a componentExists objectMeta deploymentSpec
           serviceSpec ;;
  match err with
  | Some err => Ret (Some err)
  | None =>
  (* Get the storage adapter and create the volumes if it does not exist *)
  err <- perform (StorageCreate (uniqueStorages st)) ;;
  match err with
  | Some err => Ret (Some err)
  | None => Ret None
  end end end end end end end.

Definition waitAndGetComponentPod (a : Adapter) (hideSpinner : bool)
    : prog (error + Pod.t) :=
  let podSelector := "component=" ++ ComponentName a in
  (* Wait for Pod to be in running state otherwise we can't sync data to it. *)
  r <- perform (WaitAndGetPod podSelector PodRunning
                  "Waiting for component to start" hideSpinner) ;;
  match r with
  | inl err => Ret (inl (Wrap err ("error while waiting for pod " ++ podSelector)))
  | inr pod => Ret (inr pod)
  end.

(** ** Execution of the devfile commands *)

(** [InitRunContainerSupervisord]: the loop over the containers keeps the
    error of the last command it ran. *)
Fixpoint rangeContainersSupervisord (containerName podName : string)
    (containers : list Container.t) (err : option error) : prog (option error) :=
  match containers with
  | [] => Ret err
  | container :: containers =>
      if bool_decide (Container.Name container = containerName)
         && negb (bool_decide (Container.Command container = [SupervisordBinaryPath]))
      then
        let command := [SupervisordBinaryPath; "-c"; SupervisordConfFile; "-d"] in
        let compInfo :=
          {| ComponentInfo.ContainerName := containerName;
             ComponentInfo.PodName := podName;
             ComponentInfo.SourceMount := "" |} in
        err <- perform (ExecuteCommand compInfo command true) ;;
        rangeContainersSupervisord containerName podName containers err
      else rangeContainersSupervisord containerName podName containers err
  end.

Definition InitRunContainerSupervisord (a : Adapter)
    (containerName podName : string) (containers : list Container.t)
    : prog (option error) :=
  rangeContainersSupervisord containerName podName containers None.

(** The block that [execDevfile] has for the Init command and again for the
    Build command. It gives the error and the component info, whose container
    name an exec command sets. *)
Definition execInitOrBuild (a : Adapter) (command : DevfileCommand.t)
    (devfileCommandMap : gmap string DevfileCommand.t)
    (compInfo : ComponentInfo.t) (show : bool)
    : prog (option error * ComponentInfo.t) :=
  match DevfileCommand.Composite command with
  | Some composite =>
      err <- perform (ExecuteCompositeDevfileAction composite devfileCommandMap
                        compInfo show) ;;
      Ret (err : option error, compInfo)
  | None =>
      exec <- deref (DevfileCommand.Exec command) ;;
      let compInfo := ComponentInfo.set_ContainerName (Exec.Component exec) compInfo in
      err <- perform (ExecuteDevfileCommandSynchronously exec (Exec.Id exec)
                        compInfo show false) ;;
      Ret (err : option error, compInfo)
  end.

(** Executes all the commands from the devfile in order: init and build -
    which are both optional, and a compulsary run. Init only runs once when
    the component is created. *)
Definition execDevfile (a : Adapter) (commandsMap : PushCommandsMap)
    (componentExists show : bool) (podName : string)
    (containers : list Container.t) (isDebug : bool) : prog (option error) :=
  let devfileCommandMap := GetCommandsMap (GetCommands (Devfile a)) in
  (* If nothing has been passed, then the devfile is missing the required
     run command *)
  if (size commandsMap =? 0)%nat then
    Ret (Some (ErrorString
      "error executing devfile commands - there should be at least 1 command"))
  else
  let compInfo :=
    {| ComponentInfo.ContainerName := ""; ComponentInfo.PodName := podName;
       ComponentInfo.SourceMount := "" |} in
  (* only execute Init command, if it is first run of container. *)
  '(err, compInfo) <-
    (if negb componentExists then
       match commandsMap !! InitCommandGroupType with
       | Some command => execInitOrBuild a command devfileCommandMap compInfo show
       | None => Ret (None, compInfo)
       end
     else Ret (None, compInfo)) ;;
  match err with
  | Some err => Ret (Some err)
  | None =>
  (* Get Build Command *)
  '(err, compInfo) <-
    match commandsMap !! BuildCommandGroupType with
    | Some command => execInitOrBuild a command devfileCommandMap compInfo show
    | None => Ret (None, compInfo)
    end ;;
  match err with
  | Some err => Ret (Some err)
  | None =>
  (* Get Run or Debug Command *)
  match (if isDebug then commandsMap !! DebugCommandGroupType
         else commandsMap !! RunCommandGroupType) with
  | Some command =>
      (* Check if the devfile debug component containers have supervisord as
         the entrypoint. Start the supervisord if the odo component does not
         exist *)
      err <-
        match DevfileCommand.Exec command with
        | Some exec =>
            if negb componentExists
            then InitRunContainerSupervisord a (Exec.Component exec) podName
                   containers
            else Ret None
        | None => Ret None
        end ;;
      match err with
      | Some err =>
          _ <- perform (ReportError err) ;;
          Ret (Some err)
      | None =>
      exec <- deref (DevfileCommand.Exec command) ;;
      let compInfo := ComponentInfo.set_ContainerName (Exec.Component exec) compInfo in
      if componentExists && negb (IsRestartRequired command) then
        if isDebug then
          perform (ExecuteDevfileDebugActionWithoutRestart exec (Exec.Id exec)
                     compInfo show)
        else
          perform (ExecuteDevfileRunActionWithoutRestart exec (Exec.Id exec)
                     compInfo show)
      else
      if isDebug then
        perform (ExecuteDevfileDebugAction exec (Exec.Id exec) compInfo show)
      else
        perform (ExecuteDevfileRunAction exec (Exec.Id exec) compInfo show)
      end
  | None => Ret None
  end end end.

(** [execDevfileEvent] receives a Devfile Event (PostStart, PreStop etc.) and
    loops through them. Each Devfile Command associated with the given event
    is retrieved, and executed in the container specified in the command. *)
Fixpoint rangeEvents (commandMap : gmap string DevfileCommand.t)
    (events : list string) (podName : string) : prog (option error) :=
  match events with
  | [] => Ret None
  | commandName :: events =>
      (* Convert commandName to lower because GetCommands converts
         Command.Exec.Id's to lower *)
      let command := default DevfileCommand.zero (commandMap !! ToLower commandName) in
      let compInfo :=
        {| ComponentInfo.ContainerName := ""; ComponentInfo.PodName := podName;
           ComponentInfo.SourceMount := "" |} in
      match DevfileCommand.Composite command with
      | Some composite =>
          err <- perform (ExecuteCompositeDevfileAction composite commandMap
                            compInfo false) ;;
          match err with
          | Some err =>
              Ret (Some (Wrap err ("unable to execute devfile composite command "
                                   ++ commandName)))
          | None => rangeEvents commandMap events podName
          end
      | None =>
          exec <- deref (DevfileCommand.Exec command) ;;
          let compInfo :=
            ComponentInfo.set_ContainerName (Exec.Component exec) compInfo in
          (* Execute command in pod *)
          err <- perform (ExecuteDevfileCommandSynchronously exec (Exec.Id exec)
                            compInfo false false) ;;
          match err with
          | Some err =>
              Ret (Some (Wrap err ("unable to execute devfile command "
                                   ++ commandName)))
          | None => rangeEvents commandMap events podName
          end
      end
  end.

Definition execDevfileEvent (a : Adapter) (events : list string)
    (podName : string) : prog (option error) :=
  let commandMap := GetCommandsMap (GetCommands (Devfile a)) in
  rangeEvents commandMap events podName.

(** [getFirstContainerWithSourceVolume] returns the first container that set
    mountSources: true as well as the path to the source volume inside the
    container. *)
Fixpoint rangeVolumeMounts (mounts : list VolumeMount.t) : option string :=
  match mounts with
  | [] => None
  | vol :: mounts =>
      if bool_decide (VolumeMount.Name vol = OdoSourceVolume)
      then Some (VolumeMount.MountPath vol)
      else rangeVolumeMounts mounts
  end.

Fixpoint getFirstContainerWithSourceVolume (containers : list Container.t)
    : string * string * option error :=
  match containers with
  | [] =>
      ("", "", Some (ErrorString
         "In order to sync files, odo requires at least one component in a devfile to set 'mountSources: true'"))
  | c :: containers =>
      match rangeVolumeMounts (Container.VolumeMounts c) with
      | Some mountPath => (Container.Name c, mountPath, None)
      | None => getFirstContainerWithSourceVolume containers
      end
  end.

(** ** Push *)

(** [Push] updates the component if a matching component exists or creates
    one if it doesn't exist. Once the component has started, it will sync the
    source code to it. *)
Definition Push (a : Adapter) (parameters : PushParameters.t)
    : prog (option error) :=
  '(componentExists, err) <- perform (ComponentExists (ComponentName a)) ;;
  match err with
  | Some err =>
      Ret (Some (Wrap err ("unable to determine if component "
                           ++ ComponentName a ++ " exists")))
  | None =>
  let a :=
    set_devfileCmds (PushParameters.DevfileInitCmd parameters)
      (PushParameters.DevfileBuildCmd parameters)
      (PushParameters.DevfileRunCmd parameters)
      (PushParameters.DevfileDebugCmd parameters)
      (PushParameters.DebugPort parameters) a in
  (* If the component already exists, retrieve the pod's name before it's
     potentially updated *)
  r <- (if componentExists then
          r <- waitAndGetComponentPod a true ;;
          match r with
          | inl err =>
              Ret (inl (Wrap err ("unable to get pod for component "
                                  ++ ComponentName a)))
          | inr pod => Ret (inr (Pod.GetName pod))
          end
        else Ret (inr "")) ;;
  match r with
  | inl err => Ret (Some err)
  | inr podName =>
  (* Validate the devfile build and run commands *)
  _ <- perform (Logf LogInfo "
Validation") ;;
  match ValidateAndGetPushDevfileCommands (Devfile a) (devfileInitCmd a)
          (devfileBuildCmd a) (devfileRunCmd a) with
  | inl err =>
      Ret (Some (Wrap err "failed to validate devfile build and run commands"))
  | inr pushDevfileCommands =>
  _ <- perform (Logf LogInfo ("
Creating Kubernetes resources for component " ++ ComponentName a)) ;;
  match (if PushParameters.Debug parameters then
           match ValidateAndGetDebugDevfileCommands (Devfile a)
                   (devfileDebugCmd a) with
           | inl _ => inl (ErrorString "debug command is not valid")
           | inr pushDevfileDebugCommands =>
               inr (<[DebugCommandGroupType := pushDevfileDebugCommands]>
                      pushDevfileCommands,
                    PushParameters.set_ForceBuild true parameters)
           end
         else inr (pushDevfileCommands, parameters)) with
  | inl err => Ret (Some err)
  | inr (pushDevfileCommands, parameters) =>
  err <- createOrUpdateComponent a componentExists
           (PushParameters.EnvSpecificInfo parameters) ;;
  match err with
  | Some err => Ret (Some (Wrap err "unable to create or update component"))
  | None =>
  err <- perform (WaitForDeploymentRollout (ComponentName a)) ;;
  match err with
  | Some err => Ret (Some (Wrap err "error while waiting for deployment rollout"))
  | None =>
  (* Wait for Pod to be in running state otherwise we can't sync data or exec
     commands to it. *)
  r <- waitAndGetComponentPod a true ;;
  match r with
  | inl err =>
      Ret (Some (Wrap err ("unable to get pod for component " ++ ComponentName a)))
  | inr pod =>
  err <- perform (ApplyConfig (PushParameters.EnvSpecificInfo parameters)
                    componentExists) ;;
  _ <- match err with
       | Some err =>
           (* odoutil.LogErrorAndExit *)
           _ <- perform (Logf LogError
                           ("Failed to update config to component deployed.: "
                            ++ Error_ err)) ;;
           Crash (OsExit 1)
       | None => Ret ()
       end ;;
  (* Compare the name of the pod with the one before the rollout. If they
     differ, it means there's a new pod and a force push is required *)
  let podChanged :=
    componentExists && negb (bool_decide (podName = Pod.GetName pod)) in
  (* Find at least one pod with the source volume mounted, error out if none
     can be found *)
  match getFirstContainerWithSourceVolume (PodSpec.Containers (Pod.Spec pod)) with
  | (_, _, Some err) =>
      Ret (Some (Wrap err ("error while retrieving container from pod "
                           ++ podName ++ " with a mounted project volume")))
  | (containerName, sourceMount, None) =>
  _ <- perform (Logf LogInfo ("
Syncing to component " ++ ComponentName a)) ;;
  (* Get a sync adapter. Check if project files have changed and sync
     accordingly *)
  let compInfo :=
    {| ComponentInfo.ContainerName := containerName;
       ComponentInfo.PodName := Pod.GetName pod;
       ComponentInfo.SourceMount := sourceMount |} in
  let syncParams :=
    {| SyncParameters.PushParams := parameters;
       SyncParameters.CompInfo := compInfo;
       SyncParameters.ComponentExists := componentExists;
       SyncParameters.PodChanged := podChanged |} in
  r <- perform (SyncFiles syncParams) ;;
  match r with
  | inl err =>
      Ret (Some (Wrap err ("Failed to sync to component with name "
                           ++ ComponentName a)))
  | inr execRequired =>
  (* PostStart events from the devfile will only be executed when the
     component didn't previously exist *)
  let postStartEvents := GetEventsPostStart (Devfile a) in
  err <- (if negb componentExists && (0 <? List.length postStartEvents)%nat then
            (* log only when there are post start events present in devfile *)
            _ <- perform (Logf LogInfo ("
Executing postStart event commands for component " ++ ComponentName a)) ;;
            execDevfileEvent a postStartEvents (Pod.GetName pod)
          else Ret None) ;;
  match err with
  | Some err => Ret (Some err)
  | None =>
  if execRequired then
    _ <- perform (Logf LogInfo ("
Executing devfile commands for component " ++ ComponentName a)) ;;
    err <- execDevfile a pushDevfileCommands componentExists
             (PushParameters.Show parameters) (Pod.GetName pod)
             (PodSpec.Containers (Pod.Spec pod))
             (PushParameters.Debug parameters) ;;
    match err with
    | Some err => Ret (Some err)
    | None => Ret None
    end
  else Ret None
  end end end end end end end end end end.

(** ** Delete *)

(** [Delete] deletes the component. *)
Definition Delete (a : Adapter) (labels : gmap string string)
    : prog (option error) :=
  '(componentExists, err) <- perform (ComponentExists (ComponentName a)) ;;
  if IsForbidden err then
    (* log the error if it failed to determine if the component exists due
       to insufficient RBACs *)
    _ <- perform (Logf LogWarning
                    (match err with Some e => Error_ e | None => "<nil>" end)) ;;
    Ret None
  else
  match err with
  | Some err =>
      Ret (Some (Wrap err ("unable to determine if component "
                           ++ ComponentName a ++ " exists")))
  | None =>
  if negb componentExists then
    _ <- perform (Logf LogWarning ("Component " ++ ComponentName a
                                   ++ " does not exist")) ;;
    Ret None
  else
  err <- perform (DeleteDeployment labels) ;;
  match err with
  | Some err => Ret (Some err)
  | None =>
  _ <- perform (Logf LogSuccess "Successfully deleted component") ;;
  Ret None
  end end.

(** ** The execution of the command of an event *)


End Adapter.

(** ** A sample devfile and a sample cluster

    Concrete implementations of the helpers and of the outside, on which the
    functions above can be run. *)

Module Sample.

Record SampleDevfile := {
  sd_name : string;
  sd_containers : list Container.t;
  sd_volumes : ContainerVolumes;
  sd_commands : list DevfileCommand.t;
  sd_postStart : list string;
  sd_push : PushCommandsMap;
  sd_debug : option DevfileCommand.t;
}.

Definition GetID (command : DevfileCommand.t) : string :=
  match DevfileCommand.Composite command, DevfileCommand.Exec command with
  | Some composite, _ => Composite.Id composite
  | None, Some exec => Exec.Id exec
  | None, None => ""
  end.

#[export] Instance helpers : Helpers := {|
  ToLower := lower_string;
  DevfileObj := SampleDevfile;
  GetMetadataName := sd_name;
  GetCommands := sd_commands;
  GetEventsPostStart := sd_postStart;
  SupervisordBinaryPath := "/opt/odo/bin/supervisord";
  SupervisordConfFile := "/opt/odo/conf/devfile-supervisor.conf";
  InitCommandGroupType := "init";
  BuildCommandGroupType := "build";
  RunCommandGroupType := "run";
  DebugCommandGroupType := "debug";
  GetCommandsMap := fun commands =>
    list_to_map (map (fun c => (lower_string (GetID c), c)) commands);
  GetVolumes := sd_volumes;
  IsRestartRequired := fun command =>
    match DevfileCommand.Exec command with
    | Some exec =>
        negb (bool_decide (Exec.Attributes exec !! "restart" = Some "false"))
    | None => true
    end;
  ValidateAndGetPushDevfileCommands := fun d _ _ _ => inr (sd_push d);
  ValidateAndGetDebugDevfileCommands := fun d _ =>
    match sd_debug d with
    | Some c => inr c
    | None => inl (ErrorString "no debug command")
    end;
  ComponentTypeLabel := "app.kubernetes.io/name";
  GetLabels := fun componentName applicationName _ =>
    {[ "app.kubernetes.io/instance" := componentName;
       "app.kubernetes.io/part-of" := applicationName ]};
  GetContainers := fun d => inr (sd_containers d);
  UpdateContainersWithSupervisord := fun _ containers _ _ _ => inr containers;
  UpdateContainerWithEnvFrom := fun containers _ _ _ => inr containers;
  OdoSourceVolume := "odo-projects";
  CreateObjectMeta := fun name namespace labels annotations =>
    {| ObjectMeta.Name := name; ObjectMeta.Namespace := namespace;
       ObjectMeta.Labels := labels; ObjectMeta.Annotations := annotations;
       ObjectMeta.OwnerReferences := []; ObjectMeta.ResourceVersion := "" |};
  GeneratePodTemplateSpec := fun objectMeta containers =>
    {| PodTemplateSpec.ObjectMeta := objectMeta;
       PodTemplateSpec.Spec :=
         {| PodSpec.RestartPolicy := None; PodSpec.SecurityContext := None;
            PodSpec.InitContainers := []; PodSpec.Containers := containers;
            PodSpec.Volumes := [] |} |};
  AddBootstrapSupervisordInitContainer := fun p => p;
  AddPVCAndVolumeMount := fun p _ _ => inr p;
  GenerateDeploymentSpec := fun p selector =>
    {| DeploymentSpec.Template := p; DeploymentSpec.Selector := selector |};
  GenerateServiceSpec := fun name containerPorts =>
    {| ServiceSpec.Ports :=
         map (fun p =>
                {| ServicePort.Name := ContainerPort.Name p;
                   ServicePort.Port := ContainerPort.ContainerPort p;
                   ServicePort.TargetPort := ContainerPort.ContainerPort p |})
             containerPorts;
       ServiceSpec.ClusterIP := "";
       ServiceSpec.Selector := {[ "component" := name ]} |};
  GenerateOwnerReference := fun d =>
    {| OwnerReference.APIVersion := "apps/v1";
       OwnerReference.Kind := "Deployment";
       OwnerReference.Name := ObjectMeta.Name (Deployment.ObjectMeta d);
       OwnerReference.UID := "uid-1" |};
|}.

(** A cluster: whether the component is deployed, its Service if it has one,
    its pod, the volume claims it has, and the calls that fail. *)
Record Cluster := {
  cl_exists : bool;
  cl_service : option Service.t;
  cl_pod : Pod.t;
  cl_buildConfigSupported : bool;
  cl_execRequired : bool;
  cl_existingPVC : string -> string;
  cl_failing : call -> option error;
}.

Definition answer (cl : Cluster) (c : call) : resp c :=
  match c as c0 return resp c0 with
  | Logf _ _ => ()
  | SignalNotify => ()
  | SignalStop => ()
  | OcclientNew => None
  | IsBuildConfigSupported => inr (cl_buildConfigSupported cl)
  | CreateDockerBuildConfigWithBinaryInput _ _ _ _ _ _ => None
  | DeleteBuildConfig _ => None
  | RunBuildConfigWithBinaryInput name _ => inr (name ++ "-1")
  | WaitForBuildToFinish _ _ => None
  | SyncFilesBuild _ _ => inr "build-context.tar"
  | SyncFiles _ => inr (cl_execRequired cl)
  | CreateDockerConfigDataFromFilepath _ => inr "{}"
  | CreateSecret name namespace data =>
      inr {| Unstructured.Kind := "Secret"; Unstructured.Name := name;
             Unstructured.Namespace := namespace; Unstructured.Content := data |}
  | ComponentExists _ => (cl_exists cl, None)
  | DynamicCreate _ _ _ => None
  | PodsCreate _ pod => inr pod
  | WaitAndGetPodOnInitContainerStarted _ _ _ _ => inr (cl_pod cl)
  | WaitAndGetPod _ _ _ _ => inr (cl_pod cl)
  | ExtractProjectToComponent _ _ _ => None
  | ExecCMDInContainer _ _ => ("", "", None)
  | UpdateDeployment spec =>
      inr {| Deployment.ObjectMeta :=
               PodTemplateSpec.ObjectMeta (DeploymentSpec.Template spec);
             Deployment.Spec := spec |}
  | CreateDeployment spec =>
      inr {| Deployment.ObjectMeta :=
               PodTemplateSpec.ObjectMeta (DeploymentSpec.Template spec);
             Deployment.Spec := spec |}
  | ServicesGet _ _ =>
      match cl_service cl with
      | Some svc => inr svc
      | None => inl (StatusError StatusReasonNotFound "services not found")
      end
  | CreateService _ _ => None
  | UpdateService _ _ => None
  | ServicesDelete _ _ => None
  | WaitForDeploymentRollout _ => None
  | DeleteDeployment _ => None
  | GeneratePVCNameFromDevfileVol volName componentName =>
      inr (volName ++ "-" ++ componentName ++ "-abcd")
  | GetExistingPVC volName _ => inr (cl_existingPVC cl volName)
  | StorageCreate _ => None
  | ApplyConfig _ _ => None
  | ExecuteCompositeDevfileAction _ _ _ _ => None
  | ExecuteDevfileCommandSynchronously _ _ _ _ _ => None
  | ExecuteDevfileRunAction _ _ _ _ => None
  | ExecuteDevfileRunActionWithoutRestart _ _ _ _ => None
  | ExecuteDevfileDebugAction _ _ _ _ => None
  | ExecuteDevfileDebugActionWithoutRestart _ _ _ _ => None
  | ExecuteCommand _ _ _ => None
  | ReportError _ => ()
  end.

(** The handler of a cluster; its state counts the calls. *)
Definition handle (cl : Cluster) : handler nat :=
  fun c n =>
    (match cl_failing cl c with
     | Some err => resp_fail c err (answer cl c)
     | None => answer cl c
     end, S n).

Definition nothing_fails : call -> option error := fun _ => None.

Definition pod : Pod.t :=
  {| Pod.ObjectMeta :=
       {| ObjectMeta.Name := "myapp-5d8f7c"; ObjectMeta.Namespace := "dev";
          ObjectMeta.Labels := {[ "component" := "myapp" ]};
          ObjectMeta.Annotations := ∅; ObjectMeta.OwnerReferences := [];
          ObjectMeta.ResourceVersion := "41" |};
     Pod.Spec :=
       {| PodSpec.RestartPolicy := None; PodSpec.SecurityContext := None;
          PodSpec.InitContainers := [];
          PodSpec.Containers :=
            [ {| Container.Name := "runtime";
                 Container.Image := "registry.access.redhat.com/ubi8/nodejs-12:1-36";
                 Container.ImagePullPolicy := "";
                 Container.Env := []; Container.Command := [];
                 Container.Args := []; Container.Ports := [];
                 Container.VolumeMounts :=
                   [ {| VolumeMount.Name := "odo-projects";
                        VolumeMount.MountPath := "/projects" |} ] |} ];
          PodSpec.Volumes := [] |} |}.

Definition service : Service.t :=
  {| Service.ObjectMeta :=
       {| ObjectMeta.Name := "myapp"; ObjectMeta.Namespace := "dev";
          ObjectMeta.Labels := ∅; ObjectMeta.Annotations := ∅;
          ObjectMeta.OwnerReferences := []; ObjectMeta.ResourceVersion := "1207" |};
     Service.Spec :=
       {| ServiceSpec.Ports :=
            [ {| ServicePort.Name := "3000-tcp"; ServicePort.Port := 3000;
                 ServicePort.TargetPort := 3000 |} ];
          ServiceSpec.ClusterIP := "10.0.0.5";
          ServiceSpec.Selector := {[ "component" := "myapp" ]} |} |}.

Definition cluster (componentExists : bool) : Cluster :=
  {| cl_exists := componentExists;
     cl_service := if componentExists then Some service else None;
     cl_pod := pod;
     cl_buildConfigSupported := true;
     cl_execRequired := true;
     cl_existingPVC := fun _ => "";
     cl_failing := nothing_fails |}.

Definition failing (fails : call -> option error) (cl : Cluster) : Cluster :=
  {| cl_exists := cl_exists cl; cl_service := cl_service cl; cl_pod := cl_pod cl;
     cl_buildConfigSupported := cl_buildConfigSupported cl;
     cl_execRequired := cl_execRequired cl;
     cl_existingPVC := cl_existingPVC cl; cl_failing := fails |}.

Definition runtime : Container.t :=
  {| Container.Name := "runtime";
     Container.Image := "registry.access.redhat.com/ubi8/nodejs-12:1-36";
     Container.ImagePullPolicy := "";
     Container.Env := [ {| EnvVar.Name := "FOO"; EnvVar.Value := "bar" |} ];
     Container.Command := []; Container.Args := [];
     Container.Ports :=
       [ {| ContainerPort.Name := "3000-tcp"; ContainerPort.ContainerPort := 3000;
            ContainerPort.Protocol := "TCP" |} ];
     Container.VolumeMounts :=
       [ {| VolumeMount.Name := "odo-projects";
            VolumeMount.MountPath := "/projects" |} ] |}.

Definition devrun (attributes : gmap string string) : DevfileCommand.t :=
  {| DevfileCommand.Exec :=
       Some {| Exec.Id := "devrun"; Exec.Component := "runtime";
               Exec.CommandLine := "npm install && npm start";
               Exec.WorkingDir := "/projects/nodejs-starter";
               Exec.Attributes := attributes |};
     DevfileCommand.Composite := None |}.

Definition devfile (run : DevfileCommand.t) (postStart : list string)
    (volumes : ContainerVolumes) : SampleDevfile :=
  {| sd_name := "test-devfile";
     sd_containers := [runtime];
     sd_volumes := volumes;
     sd_commands := [run];
     sd_postStart := postStart;
     sd_push := {[ "run" := run ]};
     sd_debug := None |}.

Definition adapter (d : SampleDevfile) : Adapter :=
  {| ComponentName := "myapp"; AppName := "app"; Context_ := ".";
     Client_Namespace := "dev"; Devfile := d;
     devfileInitCmd := ""; devfileBuildCmd := ""; devfileRunCmd := "";
     devfileDebugCmd := ""; devfileDebugPort := 5858 |}.

Definition buildParameters (tag : string) (rootless : bool) : BuildParameters.t :=
  {| BuildParameters.Path := "."; BuildParameters.Tag := tag;
     BuildParameters.Rootless := rootless;
     BuildParameters.DockerConfigJSONFilename := "/home/dev/.docker/config.json";
     BuildParameters.EnvSpecificInfo :=
       {| EnvSpecificInfo.Namespace := "dev"; EnvSpecificInfo.Name := "myapp" |} |}.

Definition pushParameters : PushParameters.t :=
  {| PushParameters.Path := "."; PushParameters.ForceBuild := false;
     PushParameters.Show := false;
     PushParameters.EnvSpecificInfo :=
       {| EnvSpecificInfo.Namespace := "dev"; EnvSpecificInfo.Name := "myapp" |};
     PushParameters.DevfileInitCmd := ""; PushParameters.DevfileBuildCmd := "";
     PushParameters.DevfileRunCmd := ""; PushParameters.DevfileDebugCmd := "";
     PushParameters.Debug := false; PushParameters.DebugPort := 5858 |}.

(** The Deployment that the reconciliation of the sample component asks for. *)
Definition deploymentSpec (d : SampleDevfile) : DeploymentSpec.t :=
  GenerateDeploymentSpec
    (GeneratePodTemplateSpec (componentObjectMeta (adapter d)) (sd_containers d))
    {[ "component" := "myapp" ]}.

(** Two containers that refer to the volume "data", one of them to the
    volume "cache" as well; the cluster has a claim for "cache". *)
Definition data : DevfileVolume.t :=
  {| DevfileVolume.Name := "data"; DevfileVolume.ContainerPath := "/data";
     DevfileVolume.Size := "1Gi" |}.

Definition cache : DevfileVolume.t :=
  {| DevfileVolume.Name := "cache"; DevfileVolume.ContainerPath := "/cache";
     DevfileVolume.Size := "2Gi" |}.




Definition storages : list Storage.t :=
  [ {| Storage.Name := "data-myapp-abcd"; Storage.Volume := data |};
    {| Storage.Name := "cache-myapp-wxyz"; Storage.Volume := cache |} ].

Definition ei : EnvSpecificInfo.t :=
  {| EnvSpecificInfo.Namespace := "dev"; EnvSpecificInfo.Name := "myapp" |}.

(** The wait for the build times out, and the deletion of the BuildConfig
    fails. *)
Definition timeout_and_cleanup_fail (c : call) : option error :=
  match c with
  | WaitForBuildToFinish _ _ => Some (ErrorString "timeout waiting for build")
  | DeleteBuildConfig _ => Some (StatusError StatusReasonUnknown "delete failed")
  | _ => None
  end.

(** What the first push of the sample component asks of the synchroniser. *)
Definition syncParameters : SyncParameters.t :=
  {| SyncParameters.PushParams := pushParameters;
     SyncParameters.CompInfo :=
       {| ComponentInfo.ContainerName := "runtime";
          ComponentInfo.PodName := "myapp-5d8f7c";
          ComponentInfo.SourceMount := "/projects" |};
     SyncParameters.ComponentExists := false;
     SyncParameters.PodChanged := false |}.

(** A toy template engine: a template is its text, the empty text does not
    parse, and the execution writes the text and then the value of
    CONTAINER_IMAGE, or stops with an error after the text when the map has
    no such key. *)
#[export] Instance textTemplate : TextTemplate := {|
  Template := string;
  Parse := fun _ text =>
    if bool_decide (text = "") then inl (ErrorString "template: empty text")
    else inr text;
  Execute := fun tmpl substitutions =>
    match substitutions !! "CONTAINER_IMAGE" with
    | Some image => (tmpl ++ image, None)
    | None =>
        (tmpl, Some (ErrorString "map has no entry for key CONTAINER_IMAGE"))
    end;
|}.

(** The check for the component is forbidden to the user. *)
Definition forbidden : error :=
  StatusError StatusReasonForbidden
    "deployments.apps is forbidden: User cannot list resource in the namespace".

Definition existence_forbidden (c : call) : option error :=
  match c with
  | ComponentExists _ => Some forbidden
  | _ => None
  end.

End Sample.

(** ** More observations of a run *)

(** The Deployment that a request for a Deployment returned. *)
Definition ev_deployment (e : event) : option Deployment.t :=
  match e with
  | Ev c r =>
      match c as c0 return resp c0 -> option Deployment.t with
      | UpdateDeployment _ | CreateDeployment _ =>
          fun r => match r with inr d => Some d | inl _ => None end
      | _ => fun _ => None
      end r
  end.

(** What the synchronisation of the files returned. *)
Definition ev_synced (e : event) : option (error + bool) :=
  match e with
  | Ev c r =>
      match c as c0 return resp c0 -> option (error + bool) with
      | SyncFiles _ => fun r => Some r
      | _ => fun _ => None
      end r
  end.

(** ** More sample devfiles and clusters *)

Module Scenario.

(** The configuration cannot be applied to the component. *)
Definition apply_config_fails (c : call) : option error :=
  match c with
  | ApplyConfig _ _ => Some (ErrorString "unable to apply the configuration")
  | _ => None
  end.

(** A devfile that has a run command and no container. *)
Definition devfile_without_containers : Sample.SampleDevfile :=
  {| Sample.sd_name := "test-devfile";
     Sample.sd_containers := [];
     Sample.sd_volumes := [];
     Sample.sd_commands := [Sample.devrun ∅];
     Sample.sd_postStart := [];
     Sample.sd_push := {[ "run" := Sample.devrun ∅ ]};
     Sample.sd_debug := None |}.

(** What a push of the sample component asks of the synchroniser when the
    component exists. *)
Definition syncParameters_again : SyncParameters.t :=
  {| SyncParameters.PushParams := Sample.pushParameters;
     SyncParameters.CompInfo :=
       {| ComponentInfo.ContainerName := "runtime";
          ComponentInfo.PodName := "myapp-5d8f7c";
          ComponentInfo.SourceMount := "/projects" |};
     SyncParameters.ComponentExists := true;
     SyncParameters.PodChanged := false |}.

End Scenario.

(** * Deploy, test, log and exec

    The functions of the adapter that deploy the manifests of a component,
    delete what was deployed, run the test command, read the logs and execute
    a command in the component. They ask more of the outside than the
    functions above: the status of a pod and its logs, the resources of the
    dynamic client, the image streams, and the local manifest file. *)

(** ** Data *)

Module PodStatus.
Record t := { Phase : PodPhase }.
End PodStatus.

(** [fmt.Sprintf("%v", phase)]: a phase is a string. *)
Definition PodPhase_String (phase : PodPhase) : string :=
  match phase with
  | PodPending => "Pending"
  | PodRunning => "Running"
  | PodSucceeded => "Succeeded"
  | PodFailed => "Failed"
  | PodUnknown => "Unknown"
  end.

#[global] Instance PodPhase_eq_dec : EqDecision PodPhase.
Proof. solve_decision. Defined.

(** A value of type [interface{}] in the content of an object: nil, a string,
    a [map[string]interface{}], or a value of another type (a number, a
    boolean, a list), which the adapter never looks into. *)
#[warnings="-register-all"]
Inductive Value :=
| VNil
| VString (s : string)
| VMap (m : gmap string Value)
| VOther (repr : string).

(** [unstructured.Unstructured], with its content. *)
Module Manifest.
Record t := { Object : gmap string Value }.
Definition UnstructuredContent (u : t) : gmap string Value := Object u.
Definition SetUnstructuredContent (content : gmap string Value) (u : t) : t :=
  {| Object := content |}.
End Manifest.

Module GroupVersionKind.
Record t := { Group : string; Version : string; Kind : string }.
End GroupVersionKind.

Module ImageStream.
Record t := { ObjectMeta : ObjectMeta.t }.
End ImageStream.

Module ImageStreamImage.
Record t := { Image_DockerImageReference : string }.
End ImageStreamImage.

Module DeployParameters.
Record t := {
  Tag : string;
  ManifestSource : string;
  DeploymentPort : Z;
}.
Definition set_Tag (tag : string) (p : t) : t :=
  {| Tag := tag; ManifestSource := ManifestSource p;
     DeploymentPort := DeploymentPort p |}.
End DeployParameters.

(** A file that is open is known by its name, and a stream of logs by what
    it holds. *)
Abbreviation File := string (only parsing).
Abbreviation ReadCloser := string (only parsing).

(** [os.ErrInvalid], which [Close] returns for a nil file. *)
Definition ErrInvalid : error := ErrorString "invalid argument".

(** ** Splitting a manifest *)

(** [bytes.Split(s, sep)] for a separator that is not empty: the parts of
    [s] between the occurrences of [sep], found from the left and without
    overlap. [skip] counts the bytes of a separator that are still to pass. *)
Fixpoint splitFrom (sep s : string) (skip : nat) : string * list string :=
  match s with
  | EmptyString => (EmptyString, [])
  | String c rest =>
      match skip with
      | S n => splitFrom sep rest n
      | O =>
          if String.prefix sep s then
            let '(seg, segs) := splitFrom sep rest (String.length sep - 1) in
            (EmptyString, seg :: segs)
          else
            let '(seg, segs) := splitFrom sep rest 0 in
            (String c seg, segs)
      end
  end.

Definition bytes_Split (s sep : string) : list string :=
  let '(seg, segs) := splitFrom sep s 0 in seg :: segs.

(** ** Calls *)

(** The calls of the functions above, and the calls that only the functions
    of this part make. *)
Inductive xcall :=
| Core (c : call)
(* kclient *)
| GetPodUsingComponentName (componentName : string)
| GetPodLogs (podName containerName : string) (follow : bool)
(* the dynamic client: Resource(gvr).Namespace(namespace) *)
| ResourceGet (gvr : GroupVersionResource.t) (namespace name : string)
| ResourceCreate (gvr : GroupVersionResource.t) (namespace : string)
    (obj : Manifest.t)
| ResourceUpdate (gvr : GroupVersionResource.t) (namespace : string)
    (obj : Manifest.t)
| ResourceDelete (gvr : GroupVersionResource.t) (namespace name : string)
(* occlient *)
| GetImageStream (namespace name tag : string)
| GetImageStreamImage (imageStream : ImageStream.t) (tag : string)
| UpdateImageStream (imageStream : ImageStream.t)
| GetApplicationURL (applicationName labelSelector : string)
(* os, and the encoder of the decoding serializer, which writes to a file *)
| OsCreate (name : string)
| FileClose (file : File)
| FileWriteString (file : File) (s : string)
| Encode (obj : Manifest.t) (file : File)
(* time *)
| Sleep (nanoseconds : Z).

Definition xresp (c : xcall) : Type :=
  match c with
  | Core c => resp c
  | GetPodUsingComponentName _ => (error + Pod.t * PodStatus.t)%type
  | GetPodLogs _ _ _ => (option ReadCloser * option error)%type
  | ResourceGet _ _ _ => (option Manifest.t * option error)%type
  | ResourceCreate _ _ _ | ResourceUpdate _ _ _ => (error + Manifest.t)%type
  | ResourceDelete _ _ _ => option error
  | GetImageStream _ _ _ => (error + ImageStream.t)%type
  | GetImageStreamImage _ _ => (error + ImageStreamImage.t)%type
  | UpdateImageStream _ => option error
  | GetApplicationURL _ _ => (error + string)%type
  | OsCreate _ => (error + File)%type
  | FileClose _ => option error
  | FileWriteString _ _ => option error
  | Encode _ _ => option error
  | Sleep _ => unit
  end.

(** ** Programs *)

(** A panic of these functions is one of the functions above, or the
    assertion of a type that a value does not have. *)
Inductive xcrash :=
| Base (c : crash)
| InterfaceConversion.

Inductive xprog (A : Type) : Type :=
| XRet (a : A)
| XCrash (c : xcrash)
| XDo (c : xcall) (k : xresp c -> xprog A).

Arguments XRet {A} a.
Arguments XCrash {A} c.
Arguments XDo {A} c k.

Fixpoint xbind {A B : Type} (p : xprog A) (f : A -> xprog B) : xprog B :=
  match p with
  | XRet a => f a
  | XCrash c => XCrash c
  | XDo c k => XDo c (fun r => xbind (k r) f)
  end.

Definition xperform (c : xcall) : xprog (xresp c) := XDo c XRet.

Notation "x <~ p ;; q" := (xbind p (fun x => q))
  (at level 20, p at level 99, q at level 200, only parsing).
Notation "' pat <~ p ;; q" := (xbind p (fun x => match x with pat => q end))
  (at level 20, pat pattern, p at level 99, q at level 200, only parsing).

(** A program of the functions above, as a program of this part. *)
Fixpoint lift {A : Type} (p : prog A) : xprog A :=
  match p with
  | Ret a => XRet a
  | Crash c => XCrash (Base c)
  | Do c k => XDo (Core c) (fun r => lift (k r))
  end.

(** [x.(T)] for a map type [T]. *)
Definition assertMap (v : option Value) : xprog (gmap string Value) :=
  match v with
  | Some (VMap m) => XRet m
  | _ => XCrash InterfaceConversion
  end.

Definition xderef {A : Type} (p : option A) : xprog A :=
  match p with
  | Some a => XRet a
  | None => XCrash (Base NilDereference)
  end.

(** [defer], as [defer_] above: the deferred function runs when the body
    returns or panics, and not when the process exits. *)
Fixpoint xdefer {E : Type} (nil : E) (body : xprog E) (deferred : E -> xprog E)
    : xprog E :=
  match body with
  | XRet err => deferred err
  | XCrash (Base (OsExit code)) => XCrash (Base (OsExit code))
  | XCrash c => _ <~ deferred nil ;; XCrash c
  | XDo c k => XDo c (fun r => xdefer nil (k r) deferred)
  end.

Definition xhandler (W : Type) : Type := forall c : xcall, W -> xresp c * W.

Inductive xevent := XEv (c : xcall) (r : xresp c).

Inductive xoutcome (A : Type) : Type :=
| XReturned (a : A)
| XCrashed (c : xcrash).

Arguments XReturned {A} a.
Arguments XCrashed {A} c.

Fixpoint xrun {W A : Type} (h : xhandler W) (p : xprog A) (w : W)
    : list xevent * xoutcome A * W :=
  match p with
  | XRet a => ([], XReturned a, w)
  | XCrash c => ([], XCrashed c, w)
  | XDo c k =>
      let '(r, w1) := h c w in
      let '(tr, out, w2) := xrun h (k r) w1 in
      (XEv c r :: tr, out, w2)
  end.

Definition xtrace {W A : Type} (h : xhandler W) (p : xprog A) (w : W)
    : list xevent :=
  fst (fst (xrun h p w)).

Definition xresult {W A : Type} (h : xhandler W) (p : xprog A) (w : W)
    : xoutcome A :=
  snd (fst (xrun h p w)).

Definition xev_call (e : xevent) : xcall :=
  match e with XEv c _ => c end.

Definition xcalls (tr : list xevent) : list xcall := xev_call <$> tr.

(** The error a call gave back, if it gave one. *)
Definition xresp_error (c : xcall) : xresp c -> option error :=
  match c as c0 return xresp c0 -> option error with
  | Core c => resp_error c
  | GetPodUsingComponentName _ =>
      fun r => match r with inl err => Some err | inr _ => None end
  | GetPodLogs _ _ _ => fun r => snd r
  | ResourceGet _ _ _ => fun r => snd r
  | ResourceCreate _ _ _ =>
      fun r => match r with inl err => Some err | inr _ => None end
  | ResourceUpdate _ _ _ =>
      fun r => match r with inl err => Some err | inr _ => None end
  | ResourceDelete _ _ _ => fun r => r
  | GetImageStream _ _ _ =>
      fun r => match r with inl err => Some err | inr _ => None end
  | GetImageStreamImage _ _ =>
      fun r => match r with inl err => Some err | inr _ => None end
  | UpdateImageStream _ => fun r => r
  | GetApplicationURL _ _ =>
      fun r => match r with inl err => Some err | inr _ => None end
  | OsCreate _ =>
      fun r => match r with inl err => Some err | inr _ => None end
  | FileClose _ => fun r => r
  | FileWriteString _ _ => fun r => r
  | Encode _ _ => fun r => r
  | Sleep _ => fun _ => None
  end.

Definition xev_error (e : xevent) : option error :=
  match e with XEv c r => xresp_error c r end.

(** Kinds of calls. *)
Definition is_execution (c : xcall) : bool :=
  match c with
  | Core c => is_exec_call c
  | _ => false
  end.

Definition is_resource_write (c : xcall) : bool :=
  match c with
  | ResourceCreate _ _ _ | ResourceUpdate _ _ _ | ResourceDelete _ _ _ => true
  | _ => false
  end.

Definition is_resource_call (c : xcall) : bool :=
  match c with
  | ResourceGet _ _ _ | ResourceCreate _ _ _ | ResourceUpdate _ _ _
  | ResourceDelete _ _ _ => true
  | _ => false
  end.

Definition is_FileClose (c : xcall) : bool :=
  match c with FileClose _ => true | _ => false end.

Definition is_file_write (c : xcall) : bool :=
  match c with FileWriteString _ _ | Encode _ _ => true | _ => false end.

Definition is_image_stream_call (c : xcall) : bool :=
  match c with
  | GetImageStream _ _ _ | GetImageStreamImage _ _ | UpdateImageStream _ => true
  | _ => false
  end.

(** ** What these functions take from other packages

    The functions of [common] and [utils] that compute without touching the
    cluster, the accessors of [unstructured.Unstructured], the decoder of
    manifests, and [filepath.Join]. *)
Class Library `{Helpers} := {
  (* common *)
  GetRunCommand : DevfileObj -> string -> error + DevfileCommand.t;
  GetDebugCommand : DevfileObj -> string -> error + DevfileCommand.t;
  ValidateAndGetTestDevfileCommands :
    DevfileObj -> string -> error + DevfileCommand.t;
  (* utils *)
  PluraliseKind : string -> string;
  (* the decoding serializer of yaml *)
  Decode : string -> error + GroupVersionKind.t * Manifest.t;
  (* unstructured.Unstructured; a map that may be nil is an option *)
  GetName : Manifest.t -> string;
  GetKind : Manifest.t -> string;
  GetAPIVersion : Manifest.t -> string;
  GetUID : Manifest.t -> string;
  GetResourceVersion : Manifest.t -> string;
  SetResourceVersion : string -> Manifest.t -> Manifest.t;
  GetManifestLabels : Manifest.t -> option (gmap string string);
  SetManifestLabels : gmap string string -> Manifest.t -> Manifest.t;
  GetAnnotations : Manifest.t -> option (gmap string string);
  SetAnnotations : option (gmap string string) -> Manifest.t -> Manifest.t;
  (* path/filepath *)
  filepath_Join : list string -> string;
}.

#[global] Instance Exec_eq_dec : EqDecision Exec.t.
Proof. solve_decision. Defined.
#[global] Instance Composite_eq_dec : EqDecision Composite.t.
Proof. solve_decision. Defined.
#[global] Instance DevfileCommand_eq_dec : EqDecision DevfileCommand.t.
Proof. solve_decision. Defined.

(** The double quote, for the messages that hold one. *)
Definition quote : string := String (ascii_of_nat 34) EmptyString.

(** [strconv.Itoa]. *)
Fixpoint string_of_uint (d : Decimal.uint) : string :=
  match d with
  | Decimal.Nil => EmptyString
  | Decimal.D0 d => String "0" (string_of_uint d)
  | Decimal.D1 d => String "1" (string_of_uint d)
  | Decimal.D2 d => String "2" (string_of_uint d)
  | Decimal.D3 d => String "3" (string_of_uint d)
  | Decimal.D4 d => String "4" (string_of_uint d)
  | Decimal.D5 d => String "5" (string_of_uint d)
  | Decimal.D6 d => String "6" (string_of_uint d)
  | Decimal.D7 d => String "7" (string_of_uint d)
  | Decimal.D8 d => String "8" (string_of_uint d)
  | Decimal.D9 d => String "9" (string_of_uint d)
  end.

Definition Itoa (i : Z) : string :=
  match Z.to_int i with
  | Decimal.Pos d => string_of_uint d
  | Decimal.Neg d => String "-" (string_of_uint d)
  end.

(** [2 * time.Second], in nanoseconds. *)
Definition twoSeconds : Z := 2 * 1000000000.

(** What the loop of [Deploy] changes: the image stream, which gets an owner
    for each resource, and whether the local manifest file has been written
    to. *)
Module DeployLoop.
Record t := {
  imageStream : option ImageStream.t;
  writtenToManifest : bool;
}.
End DeployLoop.

Section Commands.
Context `{Library} `{TextTemplate}.

(** ** Test *)

(** Executes the test command in the pod. *)
Definition execTestCmd (a : Adapter) (testCmd : DevfileCommand.t)
    (podName : string) (show : bool) : prog (option error) :=
  let compInfo :=
    {| ComponentInfo.ContainerName := ""; ComponentInfo.PodName := podName;
       ComponentInfo.SourceMount := "" |} in
  match DevfileCommand.Composite testCmd with
  | Some composite =>
      (* Need to get mapping of all commands in the devfile since the
         composite command may reference any exec or composite command in the
         devfile *)
      let devfileCommandMap := GetCommandsMap (GetCommands (Devfile a)) in
      perform (ExecuteCompositeDevfileAction composite devfileCommandMap
                 compInfo show)
  | None =>
      exec <- deref (DevfileCommand.Exec testCmd) ;;
      let compInfo :=
        ComponentInfo.set_ContainerName (Exec.Component exec) compInfo in
      perform (ExecuteDevfileCommandSynchronously exec (Exec.Id exec) compInfo
                 show false)
  end.

(** [Test] runs the devfile test command. *)
Definition Test (a : Adapter) (testCmd : string) (show : bool)
    : xprog (option error) :=
  r <~ xperform (GetPodUsingComponentName (ComponentName a)) ;;
  match r with
  | inl err => XRet (Some (Wrap err "error occurred while getting the pod"))
  | inr (pod, status) =>
  if negb (bool_decide (PodStatus.Phase status = PodRunning)) then
    XRet (Some (ErrorString ("pod for component " ++ ComponentName a
                             ++ " is not running")))
  else
  _ <~ xperform (Core (Logf LogInfo ("
Executing devfile test command for component " ++ ComponentName a))) ;;
  match ValidateAndGetTestDevfileCommands (Devfile a) testCmd with
  | inl err => XRet (Some (Wrap err "failed to validate devfile test command"))
  | inr testCommand =>
  err <~ lift (execTestCmd a testCommand (Pod.GetName pod) show) ;;
  match err with
  | Some err =>
      XRet (Some (Wrap err ("failed to execute devfile commands for component "
                            ++ ComponentName a)))
  | None => XRet None
  end end end.

(** [DoesComponentExist] returns true if a component with the specified name
    exists, false otherwise. *)
Definition DoesComponentExist (a : Adapter) (cmpName : string)
    : prog (bool * option error) :=
  perform (ComponentExists cmpName).

(** ** Log *)

(** [Log] returns log from component. *)
Definition Log (a : Adapter) (follow debug : bool)
    : xprog (option ReadCloser * option error) :=
  r <~ xperform (GetPodUsingComponentName (ComponentName a)) ;;
  match r with
  | inl _ =>
      XRet (None, Some (ErrorString ("the component " ++ ComponentName a
                                     ++ " doesn't exist on the cluster")))
  | inr (pod, status) =>
  if negb (bool_decide (PodStatus.Phase status = PodRunning)) then
    XRet (None,
          Some (ErrorString
                  ("unable to show logs, component is not in running state. current status="
                   ++ PodPhase_String (PodStatus.Phase status))))
  else
  match (if debug then
           match GetDebugCommand (Devfile a) "" with
           | inl err => inl err
           | inr command =>
               if bool_decide (DevfileCommand.zero = command) then
                 inl (ErrorString
                        ("no debug command found in devfile, please run "
                         ++ quote ++ "odo log" ++ quote
                         ++ " for run command logs"))
               else inr command
           end
         else GetRunCommand (Devfile a) "") with
  | inl err => XRet (None, Some err)
  | inr command =>
  exec <~ xderef (DevfileCommand.Exec command) ;;
  let containerName := Exec.Component exec in
  xperform (GetPodLogs (Pod.GetName pod) containerName follow)
  end end.

(** ** Exec *)

(** [Exec] executes a command in the component. *)
Definition Exec_ (a : Adapter) (command : list string) : xprog (option error) :=
  '(exists_, err) <~ xperform (Core (ComponentExists (ComponentName a))) ;;
  match err with
  | Some err => XRet (Some err)
  | None =>
  if negb exists_ then
    XRet (Some (ErrorString ("the component " ++ ComponentName a
                             ++ " doesn't exist on the cluster")))
  else
  match GetRunCommand (Devfile a) "" with
  | inl err => XRet (Some err)
  | inr runCommand =>
  exec <~ xderef (DevfileCommand.Exec runCommand) ;;
  let containerName := Exec.Component exec in
  (* get the pod *)
  r <~ xperform (GetPodUsingComponentName (ComponentName a)) ;;
  match r with
  | inl err =>
      XRet (Some (Wrap err ("unable to get pod for component "
                            ++ ComponentName a)))
  | inr (pod, status) =>
  if negb (bool_decide (PodStatus.Phase status = PodRunning)) then
    XRet (Some (ErrorString
                  ("unable to exec as the component is not running. Current status="
                   ++ PodPhase_String (PodStatus.Phase status))))
  else
  let componentInfo :=
    {| ComponentInfo.ContainerName := containerName;
       ComponentInfo.PodName := Pod.GetName pod;
       ComponentInfo.SourceMount := "" |} in
  xperform (Core (ExecuteCommand componentInfo command true))
  end end end.

(** ** Deletion of what was deployed *)

(** The loop of [DeployDelete]; [manifest] is the whole manifest, whose
    length the loop tests for each of its parts. *)
Fixpoint rangeDeleteManifests (a : Adapter) (manifest : string)
    (manifests : list string) : xprog (option error) :=
  match manifests with
  | [] => XRet None
  | splitManifest :: manifests =>
      if (0 <? String.length manifest)%nat then
        match Decode splitManifest with
        | inl err => XRet (Some err)
        | inr (gvk, deploymentManifest) =>
        let kind := PluraliseKind (GroupVersionKind.Kind gvk) in
        let gvr :=
          {| GroupVersionResource.Group := GroupVersionKind.Group gvk;
             GroupVersionResource.Version := GroupVersionKind.Version gvk;
             GroupVersionResource.Resource := kind |} in
        '(_, err) <~ xperform (ResourceGet gvr (Client_Namespace a)
                                 (GetName deploymentManifest)) ;;
        match err with
        | Some _ =>
            let errorMessage :=
              "Could not delete component " ++ GetName deploymentManifest
              ++ " as component was not found" in
            XRet (Some (ErrorString errorMessage))
        | None =>
        err <~ xperform (ResourceDelete gvr (Client_Namespace a)
                           (GetName deploymentManifest)) ;;
        match err with
        | Some err => XRet (Some err)
        | None => rangeDeleteManifests a manifest manifests
        end end end
      else rangeDeleteManifests a manifest manifests
  end.

Definition DeployDelete (a : Adapter) (manifest : string)
    : xprog (option error) :=
  let manifests := bytes_Split manifest "---" in
  rangeDeleteManifests a manifest manifests.

(** ** Deploy *)

(** The block of [Deploy] for a resource that the cluster has: the manifest
    takes its resource version and its annotations, and the cluster IP of a
    Service. *)
Definition adoptInstance (item deploymentManifest : Manifest.t)
    : xprog Manifest.t :=
  let deploymentManifest :=
    SetResourceVersion (GetResourceVersion item) deploymentManifest in
  let deploymentManifest :=
    SetAnnotations (GetAnnotations item) deploymentManifest in
  (* If deployment is a `Service` of type `ClusterIP` then the service in the
     manifest will probably not have a ClusterIP defined, as this is
     determined when the manifest is applied. When updating the Service the
     manifest cannot have an empty `ClusterIP` defintion, so we need to copy
     this from the existing definition. *)
  if bool_decide (GetKind item = "Service") then
    currentServiceSpec <~ assertMap (Manifest.UnstructuredContent item !! "spec") ;;
    match currentServiceSpec !! "clusterIP" with
    | None | Some VNil | Some (VString EmptyString) => XRet deploymentManifest
    | Some clusterIP =>
        let newService := Manifest.UnstructuredContent deploymentManifest in
        spec <~ assertMap (newService !! "spec") ;;
        let newService :=
          <["spec" := VMap (<["clusterIP" := clusterIP]> spec)]> newService in
        XRet (Manifest.SetUnstructuredContent newService deploymentManifest)
    end
  else XRet deploymentManifest.

(** The loop of [Deploy] over the manifests. It gives the error to return,
    if a manifest stopped it, and the image stream. *)
Fixpoint rangeManifests (a : Adapter) (namespace applicationName : string)
    (yamlSubstitutions : gmap string string) (manifestFile : File)
    (manifests : list string) (st : DeployLoop.t)
    : xprog (option error * DeployLoop.t) :=
  match manifests with
  | [] => XRet (None, st)
  | manifest :: manifests =>
      if (0 <? String.length manifest)%nat then
        (* Substitute the values in the manifest file *)
        match substitueYamlVariables manifest yamlSubstitutions with
        | (_, Some err) =>
            XRet (Some (Wrap err "unable to substitute variables in manifest"), st)
        | (deployYaml, None) =>
        match Decode deployYaml with
        | inl _ => XRet (Some (ErrorString "Failed to decode the manifest yaml"), st)
        | inr (gvk, deploymentManifest) =>
        let kind := PluraliseKind (GroupVersionKind.Kind gvk) in
        let gvr :=
          {| GroupVersionResource.Group := GroupVersionKind.Group gvk;
             GroupVersionResource.Version := GroupVersionKind.Version gvk;
             GroupVersionResource.Resource := kind |} in
        let labels : gmap string string := {[ "component" := applicationName ]} in
        let deploymentManifest :=
          match GetManifestLabels deploymentManifest with
          | Some manifestLabels =>
              SetManifestLabels (labels ∪ manifestLabels) deploymentManifest
          | None => SetManifestLabels labels deploymentManifest
          end in
        (* Check to see whether deployed resource already exists. If not,
           create else update *)
        '(item, err) <~ xperform (ResourceGet gvr namespace
                                    (GetName deploymentManifest)) ;;
        '(instanceFound, deploymentManifest) <~
           match item, err with
           | Some item, None =>
               deploymentManifest <~ adoptInstance item deploymentManifest ;;
               XRet (true, deploymentManifest)
           | _, _ => XRet (false, deploymentManifest)
           end ;;
        let actionType := if instanceFound then "Updating" else "Creating" in
        r <~ (if negb instanceFound
              then xperform (ResourceCreate gvr namespace deploymentManifest)
              else xperform (ResourceUpdate gvr namespace deploymentManifest)) ;;
        match r with
        | inl err =>
            XRet (Some (Wrap err ("Failed when " ++ actionType ++ " manifest "
                                  ++ GroupVersionKind.Kind gvk)), st)
        | inr result =>
        let imageStream :=
          match DeployLoop.imageStream st with
          | Some imageStream =>
              let ownerReference :=
                {| OwnerReference.APIVersion := GetAPIVersion result;
                   OwnerReference.Kind := GetKind result;
                   OwnerReference.Name := GetName result;
                   OwnerReference.UID := GetUID result |} in
              Some {| ImageStream.ObjectMeta :=
                        ObjectMeta.set_OwnerReferences
                          (ObjectMeta.OwnerReferences
                             (ImageStream.ObjectMeta imageStream)
                           ++ [ownerReference])%list
                          (ImageStream.ObjectMeta imageStream) |}
          | None => None
          end in
        let st :=
          {| DeployLoop.imageStream := imageStream;
             DeployLoop.writtenToManifest := DeployLoop.writtenToManifest st |} in
        (* Write the returned manifest to the local manifest file *)
        err <~ (if DeployLoop.writtenToManifest st
                then xperform (FileWriteString manifestFile "---
")
                else XRet None) ;;
        match err with
        | Some err =>
            XRet (Some (Wrap err "Unable to write to local manifest file"), st)
        | None =>
        err <~ xperform (Encode result manifestFile) ;;
        match err with
        | Some err =>
            XRet (Some (Wrap err "Unable to write to local manifest file"), st)
        | None =>
        rangeManifests a namespace applicationName yamlSubstitutions manifestFile
          manifests
          {| DeployLoop.imageStream := imageStream;
             DeployLoop.writtenToManifest := true |}
        end end end end end
      else
        rangeManifests a namespace applicationName yamlSubstitutions manifestFile
          manifests st
  end.

(** The part of [Deploy] between the creation of the local manifest file
    and its deferred closing: the loop over the manifests, the update of the
    image stream and the application URL. *)
Definition deployManifests (a : Adapter) (namespace applicationName : string)
    (yamlSubstitutions : gmap string string) (manifestFile : File)
    (parameters : DeployParameters.t) (imageStream : option ImageStream.t)
    : xprog (option error) :=
  let manifests :=
    bytes_Split (DeployParameters.ManifestSource parameters) "---" in
  '(err, st) <~ rangeManifests a namespace applicationName yamlSubstitutions
                  manifestFile manifests
                  {| DeployLoop.imageStream := imageStream;
                     DeployLoop.writtenToManifest := false |} ;;
  match err with
  | Some err => XRet (Some err)
  | None =>
  err <~ match DeployLoop.imageStream st with
         | Some imageStream => xperform (UpdateImageStream imageStream)
         | None => XRet None
         end ;;
  match err with
  | Some err => XRet (Some err)
  | None =>
  (* Need to wait for a second to give the server time to create the
     artifacts *)
  _ <~ xperform (Sleep twoSeconds) ;;
  let labelSelector := "component" ++ "=" ++ applicationName in
  r <~ xperform (GetApplicationURL applicationName labelSelector) ;;
  _ <~ match r with
       | inl err =>
           xperform (Core (Logf LogWarning
             ("Unable to determine the application URL for component "
              ++ ComponentName a ++ ": " ++ Error_ err)))
       | inr fullURL =>
           xperform (Core (Logf LogSuccess
             ("Successfully deployed component: " ++ fullURL)))
       end ;;
  XRet None
  end end.

(** The deferred function of [Deploy]. *)
Definition closeManifestFile (manifestFile : File) (err : option error)
    : xprog (option error) :=
  merr <~ xperform (FileClose manifestFile) ;;
  if bool_decide (err = None) then XRet merr else XRet err.

(** [Deploy] applies the manifests of the component to the cluster. *)
Definition Deploy (a : Adapter) (parameters : DeployParameters.t)
    : xprog (option error) :=
  err <~ xperform (Core OcclientNew) ;;
  match err with
  | Some err => XRet (Some err)
  | None =>
  let namespace := Client_Namespace a in
  let applicationName := ComponentName a ++ DeployComponentSuffix in
  r <~ (if bool_decide (DeployParameters.Tag parameters = "") then
          r <~ xperform (GetImageStream namespace (ComponentName a) "latest") ;;
          match r with
          | inl err => XRet (inl err)
          | inr imageStream =>
          r <~ xperform (GetImageStreamImage imageStream "latest") ;;
          match r with
          | inl err => XRet (inl err)
          | inr imageStreamImage =>
              XRet (inr (Some imageStream,
                         DeployParameters.set_Tag
                           (ImageStreamImage.Image_DockerImageReference
                              imageStreamImage) parameters))
          end end
        else XRet (inr (None, parameters))) ;;
  match r with
  | inl err => XRet (Some err)
  | inr (imageStream, parameters) =>
  (* Specify the substitution keys and values *)
  let yamlSubstitutions : gmap string string :=
    {[ "CONTAINER_IMAGE" := DeployParameters.Tag parameters;
       "COMPONENT_NAME" := applicationName;
       "PORT" := Itoa (DeployParameters.DeploymentPort parameters) ]} in
  (* This will override if manifest.yaml is present *)
  r <~ xperform (OsCreate (filepath_Join [Context_ a; ".odo"; "manifest.yaml"])) ;;
  match r with
  | inl _ =>
      (* err = manifestFile.Close(), of a file that is nil *)
      XRet (Some (Wrap ErrInvalid "Unable to create the local manifest file"))
  | inr manifestFile =>
  xdefer None
    (deployManifests a namespace applicationName yamlSubstitutions manifestFile
       parameters imageStream)
    (closeManifestFile manifestFile)
  end end end.

(** The owner that [Deploy] adds to the image stream for a resource that
    the cluster returned, and the image stream with the owners of a list of
    resources added. *)
Definition ownerReferenceOf (result : Manifest.t) : OwnerReference.t :=
  {| OwnerReference.APIVersion := GetAPIVersion result;
     OwnerReference.Kind := GetKind result;
     OwnerReference.Name := GetName result;
     OwnerReference.UID := GetUID result |}.

Definition withOwners (results : list Manifest.t) (imageStream : ImageStream.t)
    : ImageStream.t :=
  {| ImageStream.ObjectMeta :=
       ObjectMeta.set_OwnerReferences
         (ObjectMeta.OwnerReferences (ImageStream.ObjectMeta imageStream)
          ++ (ownerReferenceOf <$> results))%list
         (ImageStream.ObjectMeta imageStream) |}.

(** The manifest that [Deploy] looks up and applies for a part of the
    manifest source: the part after the substitution of the variables,
    decoded, with the label of the component. *)
Definition labelledManifest (applicationName : string)
    (yamlSubstitutions : gmap string string) (manifest : string)
    : option (GroupVersionResource.t * Manifest.t) :=
  match substitueYamlVariables manifest yamlSubstitutions with
  | (_, Some _) => None
  | (deployYaml, None) =>
      match Decode deployYaml with
      | inl _ => None
      | inr (gvk, deploymentManifest) =>
          let labels : gmap string string := {[ "component" := applicationName ]} in
          Some ({| GroupVersionResource.Group := GroupVersionKind.Group gvk;
                   GroupVersionResource.Version := GroupVersionKind.Version gvk;
                   GroupVersionResource.Resource :=
                     PluraliseKind (GroupVersionKind.Kind gvk) |},
                match GetManifestLabels deploymentManifest with
                | Some manifestLabels =>
                    SetManifestLabels (labels ∪ manifestLabels) deploymentManifest
                | None => SetManifestLabels labels deploymentManifest
                end)
      end
  end.

End Commands.

(** A run of the functions above, seen as a run of a program of this part. *)
Definition core_event (e : event) : xevent :=
  match e with Ev c r => XEv (Core c) r end.

Definition lift_outcome {A : Type} (out : outcome A) : xoutcome A :=
  match out with
  | Returned a => XReturned a
  | Crashed c => XCrashed (Base c)
  end.

(** The handler of the calls of the functions above, in a handler of the
    calls of this part. *)
Definition core_handler {W : Type} (h : xhandler W) : handler W :=
  fun c w => h (Core c) w.

(** The resource that a creation or an update returned. *)
Definition xev_result (e : xevent) : option Manifest.t :=
  match e with
  | XEv c r =>
      match c as c0 return xresp c0 -> option Manifest.t with
      | ResourceCreate _ _ _ | ResourceUpdate _ _ _ =>
          fun r => match r with inr result => Some result | inl _ => None end
      | _ => fun _ => None
      end r
  end.

(** The calls of the loop of [Deploy], for a namespace and a local manifest
    file. *)
Definition loop_call (namespace manifestFile : string) (c : xcall) : Prop :=
  match c with
  | ResourceGet _ ns _ | ResourceCreate _ ns _ | ResourceUpdate _ ns _ =>
      ns = namespace
  | FileWriteString file s => file = manifestFile /\ s = "---
"
  | Encode _ file => file = manifestFile
  | _ => False
  end.

(** The error of a call of [Deploy] is returned, as it is or wrapped, unless
    the call is a lookup of a resource, the request for the application URL
    or the closing of the file. *)
Definition stops_with (out : xoutcome (option error)) (ev : xevent) : Prop :=
  match xev_call ev with
  | ResourceGet _ _ _ | GetApplicationURL _ _ | FileClose _ => True
  | _ =>
      forall err, xev_error ev = Some err ->
                  out = XReturned (Some err)
                  \/ exists msg, out = XReturned (Some (Wrapped err msg))
  end.

Definition is_OsCreate (c : xcall) : bool :=
  match c with OsCreate _ => true | _ => false end.

(** The file that a creation returned. *)
Definition xev_created (e : xevent) : option File :=
  match e with
  | XEv c r =>
      match c as c0 return xresp c0 -> option File with
      | OsCreate _ => fun r => match r with inr f => Some f | inl _ => None end
      | _ => fun _ => None
      end r
  end.

(** How the loop of [Deploy] ended, without the state of the loop. *)
Definition loop_outcome (out : xoutcome (option error * DeployLoop.t))
    : xoutcome (option error) :=
  match out with
  | XReturned (err, _) => XReturned err
  | XCrashed c => XCrashed c
  end.

(** The object that a call writes to a file, and the resource that a call
    looks up. *)
Definition encoded_object (c : xcall) : option Manifest.t :=
  match c with Encode obj _ => Some obj | _ => None end.

Definition is_ResourceGet (c : xcall) : bool :=
  match c with ResourceGet _ _ _ => true | _ => false end.

(** What [Deploy] writes to the local manifest file for the resources that
    the cluster returned: the documents, with the separator of documents
    between two of them. *)
Definition separated (manifestFile : File) (results : list Manifest.t)
    : list xcall :=
  flat_map (fun result => [FileWriteString manifestFile "---
"; Encode result manifestFile]) results.

Definition expected_writes (manifestFile : File) (results : list Manifest.t)
    : list xcall :=
  match results with
  | [] => []
  | result :: results =>
      Encode result manifestFile :: separated manifestFile results
  end.

(** A lookup of a resource and what it returned. *)
Module Lookup.
Record t := {
  gvr : GroupVersionResource.t;
  namespace : string;
  name : string;
  item : option Manifest.t;
  err : option error;
}.
Definition found (l : t) : Prop := is_Some (item l) /\ err l = None.
End Lookup.

Definition xev_lookup (e : xevent) : option Lookup.t :=
  match e with
  | XEv c r =>
      match c as c0 return xresp c0 -> option Lookup.t with
      | ResourceGet gvr ns name =>
          fun r => Some {| Lookup.gvr := gvr; Lookup.namespace := ns;
                           Lookup.name := name;
                           Lookup.item := fst r; Lookup.err := snd r |}
      | _ => fun _ => None
      end r
  end.

(** The request that follows a lookup: an update of the resource that was
    found, the creation of the one that was not. *)
Definition applies `{Library} (l : Lookup.t) (c : xcall) : Prop :=
  match c with
  | ResourceUpdate gvr ns _ =>
      gvr = Lookup.gvr l /\ ns = Lookup.namespace l /\ Lookup.found l
  | ResourceCreate gvr ns deploymentManifest =>
      gvr = Lookup.gvr l /\ ns = Lookup.namespace l /\ ~ Lookup.found l
      /\ GetName deploymentManifest = Lookup.name l
  | _ => False
  end.

Definition is_apply (c : xcall) : bool :=
  match c with
  | ResourceCreate _ _ _ | ResourceUpdate _ _ _ => true
  | _ => false
  end.

(** ** A sample cluster for the deployment *)

Module SampleDeploy.

(** The string under a key of a content, and the metadata of an object. *)
Definition field (content : gmap string Value) (key : string) : string :=
  match content !! key with
  | Some (VString s) => s
  | _ => ""
  end.

Definition metadata (u : Manifest.t) : gmap string Value :=
  match Manifest.Object u !! "metadata" with
  | Some (VMap m) => m
  | _ => ∅
  end.

Definition set_metadata (key : string) (v : Value) (u : Manifest.t)
    : Manifest.t :=
  {| Manifest.Object :=
       <["metadata" := VMap (<[key := v]> (metadata u))]> (Manifest.Object u) |}.

Definition strings_of (v : option Value) : option (gmap string string) :=
  match v with
  | Some (VMap m) =>
      Some (omap (fun v => match v with VString s => Some s | _ => None end) m)
  | _ => None
  end.

Definition value_of (m : option (gmap string string)) : Value :=
  match m with
  | Some m => VMap (VString <$> m)
  | None => VNil
  end.

(** A toy decoder: a document is a line "Kind name image", which gives an
    object of that kind and name; a document with fewer fields is refused. *)
Definition decode (text : string) : error + GroupVersionKind.t * Manifest.t :=
  match Split text " " with
  | kind :: name :: _ =>
      inr ({| GroupVersionKind.Group := "apps";
              GroupVersionKind.Version := "v1";
              GroupVersionKind.Kind := kind |},
           {| Manifest.Object :=
                {[ "kind" := VString kind;
                   "apiVersion" := VString "apps/v1";
                   "metadata" := VMap {[ "name" := VString name ]} ]} |})
  | _ => inl (ErrorString "Object 'Kind' is missing")
  end.

Definition command_of (d : Sample.SampleDevfile) (group : string)
    : error + DevfileCommand.t :=
  match Sample.sd_push d !! group with
  | Some command => inr command
  | None => inl (ErrorString ("no " ++ group ++ " command"))
  end.

Definition debug_command_of (d : Sample.SampleDevfile)
    : error + DevfileCommand.t :=
  match Sample.sd_debug d with
  | Some command => inr command
  | None => inl (ErrorString "no debug command")
  end.

#[export] Instance library : @Library Sample.helpers :=
  @Build_Library Sample.helpers
    (* GetRunCommand, GetDebugCommand, ValidateAndGetTestDevfileCommands *)
    (fun d _ => command_of d "run")
    (fun d _ => debug_command_of d)
    (fun d _ => command_of d "test")
    (* PluraliseKind *)
    (fun kind => lower_string kind ++ "s")
    (* Decode *)
    decode
    (* GetName, GetKind, GetAPIVersion, GetUID *)
    (fun u => field (metadata u) "name")
    (fun u => field (Manifest.Object u) "kind")
    (fun u => field (Manifest.Object u) "apiVersion")
    (fun u => field (metadata u) "uid")
    (* GetResourceVersion, SetResourceVersion *)
    (fun u => field (metadata u) "resourceVersion")
    (fun v => set_metadata "resourceVersion" (VString v))
    (* GetManifestLabels, SetManifestLabels *)
    (fun u => strings_of (metadata u !! "labels"))
    (fun labels => set_metadata "labels" (value_of (Some labels)))
    (* GetAnnotations, SetAnnotations *)
    (fun u => strings_of (metadata u !! "annotations"))
    (fun annotations => set_metadata "annotations" (value_of annotations))
    (* filepath.Join *)
    (fun elems => Join elems "/").

(** The response to a call that fails with an error. *)
Definition xresp_fail (c : xcall) (err : error) : xresp c -> xresp c :=
  match c as c0 return xresp c0 -> xresp c0 with
  | Core c => resp_fail c err
  | GetPodUsingComponentName _ => fun _ => inl err
  | GetPodLogs _ _ _ => fun _ => (None, Some err)
  | ResourceGet _ _ _ => fun _ => (None, Some err)
  | ResourceCreate _ _ _ => fun _ => inl err
  | ResourceUpdate _ _ _ => fun _ => inl err
  | ResourceDelete _ _ _ => fun _ => Some err
  | GetImageStream _ _ _ => fun _ => inl err
  | GetImageStreamImage _ _ => fun _ => inl err
  | UpdateImageStream _ => fun _ => Some err
  | GetApplicationURL _ _ => fun _ => inl err
  | OsCreate _ => fun _ => inl err
  | FileClose _ => fun _ => Some err
  | FileWriteString _ _ => fun _ => Some err
  | Encode _ _ => fun _ => Some err
  | Sleep _ => fun r => r
  end.

(** A cluster that has the resources [found], by name; it gives a creation
    or an update the uid "uid-" and the name of the resource. *)
Definition answer (found : string -> option Manifest.t) (c : xcall) : xresp c :=
  match c as c0 return xresp c0 with
  | Core c => Sample.answer (Sample.cluster true) c
  | GetPodUsingComponentName _ =>
      inr (Sample.pod, {| PodStatus.Phase := PodRunning |})
  | GetPodLogs _ _ _ => (Some "listening on port 3000", None)
  | ResourceGet _ _ name =>
      match found name with
      | Some item => (Some item, None)
      | None => (None, Some (StatusError StatusReasonNotFound "not found"))
      end
  | ResourceCreate _ _ obj =>
      inr (set_metadata "uid"
             (VString ("uid-" ++ field (metadata obj) "name")) obj)
  | ResourceUpdate _ _ obj =>
      inr (set_metadata "uid"
             (VString ("uid-" ++ field (metadata obj) "name")) obj)
  | ResourceDelete _ _ _ => None
  | GetImageStream namespace name _ =>
      inr {| ImageStream.ObjectMeta :=
               {| ObjectMeta.Name := name; ObjectMeta.Namespace := namespace;
                  ObjectMeta.Labels := ∅; ObjectMeta.Annotations := ∅;
                  ObjectMeta.OwnerReferences := [];
                  ObjectMeta.ResourceVersion := "77" |} |}
  | GetImageStreamImage _ _ =>
      inr {| ImageStreamImage.Image_DockerImageReference :=
               "image-registry.openshift-image-registry.svc:5000/dev/myapp@sha256:1f3c" |}
  | UpdateImageStream _ => None
  | GetApplicationURL applicationName _ =>
      inr ("http://" ++ applicationName ++ "-dev.apps.example.com")
  | OsCreate name => inr name
  | FileClose _ => None
  | FileWriteString _ _ => None
  | Encode _ _ => None
  | Sleep _ => tt
  end.

Definition handle (found : string -> option Manifest.t)
    (failing : xcall -> option error) : xhandler nat :=
  fun c n =>
    (match failing c with
     | Some err => xresp_fail c err (answer found c)
     | None => answer found c
     end, S n).

Definition nothing_found : string -> option Manifest.t := fun _ => None.
Definition nothing_fails : xcall -> option error := fun _ => None.

(** The Service "web" that the cluster has, with its cluster IP. *)
Definition web : Manifest.t :=
  {| Manifest.Object :=
       {[ "kind" := VString "Service";
          "apiVersion" := VString "v1";
          "metadata" := VMap {[ "name" := VString "web";
                                "resourceVersion" := VString "1207" ]};
          "spec" := VMap {[ "clusterIP" := VString "10.0.0.5" ]} ]} |}.

(** A manifest of two documents, and the parameters of a deployment of it
    with the image of the image stream and with an image that is given. *)
Definition manifest : string := "Deployment web ---ConfigMap settings ".

Definition parameters (tag : string) : DeployParameters.t :=
  {| DeployParameters.Tag := tag;
     DeployParameters.ManifestSource := manifest;
     DeployParameters.DeploymentPort := 8080 |}.

Definition adapter : Adapter :=
  Sample.adapter (Sample.devfile (Sample.devrun ∅) [] []).

Definition url_fails (c : xcall) : option error :=
  match c with
  | GetApplicationURL _ _ => Some (ErrorString "no route found")
  | _ => None
  end.

Definition creation_fails (c : xcall) : option error :=
  match c with
  | OsCreate _ => Some (ErrorString "open .odo/manifest.yaml: permission denied")
  | _ => None
  end.

(** The deployment of the sample component, and the deletion of what a
    manifest deployed. *)
Definition deploy (parameters : DeployParameters.t) : xprog (option error) :=
  @Deploy Sample.helpers library Sample.textTemplate adapter parameters.

Definition deployDelete (manifest : string) : xprog (option error) :=
  @DeployDelete Sample.helpers library adapter manifest.

End SampleDeploy.

(** * Properties *)

(** ** Splitting an image tag *)

(** [Split] gives one substring more than there are separators, as
    [strings.Split] does. *)
Lemma Split_length (s : string) (sep : ascii) :
  List.length (Split s sep) = S (Count s sep).
Proof.
  induction s as [|c s IH]; simpl; [reflexivity|].
  destruct (Ascii.eqb c sep); simpl.
  - now rewrite IH.
  - destruct (Split s sep) eqn:E; simpl in *; [discriminate|assumption].
Qed.

(** C4: the detection of the internal registry fails exactly for the tags
    that do not split into three segments at the slashes, and a tag of three
    segments is internal exactly when its first segment is the host of the
    internal registry; "myrepo/foo" is refused, and
    "image-registry.openshift-image-registry.svc:5000/ns/app:latest" is
    internal. *)
Theorem isInternalRegistry_three_segments (imageTag : string) :
  (is_Some (snd (isInternalRegistry imageTag))
     <-> List.length (Split imageTag slash) <> 3%nat)
  /\ (fst (isInternalRegistry imageTag) = true
     <-> List.length (Split imageTag slash) = 3%nat
         /\ Split imageTag slash !! 0%nat = Some internalRegistryHost)
  /\ isInternalRegistry "myrepo/foo"
     = (false, Some (ErrorString
                       "Invalid image tag 'myrepo/foo', must contain 3 components"))
  /\ isInternalRegistry
       "image-registry.openshift-image-registry.svc:5000/ns/app:latest"
     = (true, None).
Proof.
  unfold isInternalRegistry.
  repeat split; try reflexivity.
  - destruct (Nat.eqb_spec (List.length (Split imageTag slash)) 3) as [E|E];
      simpl; [|auto].
    case_bool_decide; simpl; intros [x Hx]; discriminate.
  - destruct (Nat.eqb_spec (List.length (Split imageTag slash)) 3) as [E|E];
      simpl; [contradiction|eauto].
  - destruct (Nat.eqb_spec (List.length (Split imageTag slash)) 3) as [E|E];
      simpl in *; [assumption|discriminate].
  - destruct (Nat.eqb_spec (List.length (Split imageTag slash)) 3) as [E|E];
      simpl in *; [|discriminate].
    case_bool_decide; simpl in *; [assumption|discriminate].
  - intros [E Hhost].
    destruct (Nat.eqb_spec (List.length (Split imageTag slash)) 3) as [E'|E'];
      simpl; [|contradiction].
    case_bool_decide; simpl; [reflexivity|contradiction].
Qed.

(** ** Substitution of variables *)

(** C9: when the text of a manifest parses as a template, the substitution
    returns no error, whatever the execution of the template returns: the
    error of the execution is dropped, and what the execution wrote to the
    buffer before it stopped is returned. *)
Theorem substitueYamlVariables_drops_execution_error `{TextTemplate}
    (baseYaml : string) (yamlSubstitutions : gmap string string)
    (tmpl : Template) (buf : string) (execErr : option error) :
  Parse "deploy" baseYaml = inr tmpl ->
  Execute tmpl yamlSubstitutions = (buf, execErr) ->
  substitueYamlVariables baseYaml yamlSubstitutions = (buf, None).
Proof.
  intros HP HE. unfold substitueYamlVariables. now rewrite HP, HE.
Qed.

(** The manifest parses, and its execution fails for want of a key: the text
    written so far comes back, without an error. *)
Lemma substitueYamlVariables_drops_execution_error_witness :
  (@Parse Sample.textTemplate "deploy" "image: " = inr "image: "
   /\ @Execute Sample.textTemplate "image: " ∅
      = ("image: ", Some (ErrorString "map has no entry for key CONTAINER_IMAGE")))
  /\ @substitueYamlVariables Sample.textTemplate "image: " ∅ = ("image: ", None).
Proof.
  assert (HP : @Parse Sample.textTemplate "deploy" "image: " = inr "image: ")
    by reflexivity.
  assert (HE : @Execute Sample.textTemplate "image: " ∅
               = ("image: ",
                  Some (ErrorString "map has no entry for key CONTAINER_IMAGE")))
    by reflexivity.
  split; [split; assumption|].
  exact (@substitueYamlVariables_drops_execution_error Sample.textTemplate
           "image: " ∅ "image: " "image: " _ HP HE).
Defined.

(** ** Running programs *)

Lemma run_bind {W A B : Type} (h : handler W) (p : prog A) (f : A -> prog B)
    (w : W) :
  run h (bind p f) w =
  match run h p w with
  | (t1, Returned a, w1) =>
      let '(t2, out, w2) := run h (f a) w1 in ((t1 ++ t2)%list, out, w2)
  | (t1, Crashed c, w1) => (t1, Crashed c, w1)
  end.
Proof.
  revert w. induction p as [a|c|c k IH]; intros w; simpl.
  - now destruct (run h (f a) w) as [[t2 out] w2].
  - reflexivity.
  - destruct (h c w) as [r w1]. rewrite IH.
    destruct (run h (k r) w1) as [[t1 [a|cr]] w2]; [|reflexivity].
    now destruct (run h (f a) w2) as [[t2 out] w3].
Qed.

(** One step of a run: the response of the handler to the next call is
    named, and the run goes on. *)
Ltac run_step h :=
  match goal with
  | |- context [h ?c ?w] =>
      let r := fresh "r" in
      let w1 := fresh "w" in
      destruct (h c w) as [r w1] eqn:?; cbn [resp] in r
  end.

Ltac run_case :=
  match goal with
  | |- context [match ?r with _ => _ end] => is_var r; destruct r
  end.

Ltac run_all h := cbn; repeat (first [run_step h | run_case]; cbn).

(** ** The build with a BuildConfig *)

(** C8: once the BuildConfig has been created, every way out of the build
    (the synchronisation of the sources fails, the start of the build fails,
    the wait for the build fails or times out, or the build succeeds) ends
    with the deletion of that BuildConfig, which happens once; when a step of
    the build failed, its error is returned, as it is or wrapped, whatever
    the deletion returns; only when no step failed is the result of the
    deletion returned. *)
Theorem runBuildConfig_deletes_build_config `{Helpers} {W : Type}
    (h : handler W) (w : W) (a : Adapter) (parameters : BuildParameters.t)
    (isImageRegistryInternal : bool) :
  let tr := trace h (runBuildConfig a parameters isImageRegistryInternal) w in
  (exists ev, ev ∈ tr /\ is_CreateBuildConfig (ev_call ev) = true
              /\ ev_error ev = None) ->
  exists meta derr res,
    (exists dockerfile tag env output secret,
       tr !! 1%nat
       = Some (Ev (CreateDockerBuildConfigWithBinaryInput meta dockerfile tag
                     env output secret) None))
    /\ last tr = Some (Ev (DeleteBuildConfig meta) derr)
    /\ List.length (filter (fun ev => is_DeleteBuildConfig (ev_call ev) = true) tr)
       = 1%nat
    /\ result h (runBuildConfig a parameters isImageRegistryInternal) w
       = Returned res
    /\ (Forall (fun ev => is_DeleteBuildConfig (ev_call ev) = false ->
                          ev_error ev = None) tr ->
        res = derr)
    /\ Forall (fun ev => forall err,
                  is_DeleteBuildConfig (ev_call ev) = false ->
                  ev_error ev = Some err ->
                  res = Some err \/ exists msg, res = Some (Wrapped err msg)) tr.
Proof.
  unfold trace, result, runBuildConfig.
  destruct (bool_decide (BuildParameters.Tag parameters = "")).
  all: run_all h.
  all: intros (ev & Hin & Hc & He).
  all: repeat (apply elem_of_cons in Hin as [->|Hin]); try discriminate.
  all: try (apply elem_of_nil in Hin; contradiction).
  all: eexists _, _, _.
  all: split; [eexists _, _, _, _, _; reflexivity|].
  all: split; [reflexivity|].
  all: split; [reflexivity|].
  all: split; [reflexivity|].
  all: split.
  all: rewrite ?Forall_cons, ?Forall_nil; cbn.
  all: try (intros Hall; decompose [and] Hall; clear Hall).
  all: repeat split; intros; try discriminate; try reflexivity.
  all: try match goal with
           | Hf : ?P -> Some _ = None |- _ =>
               assert (Some_None : P) by reflexivity; specialize (Hf Some_None);
               discriminate
           end.
  all: simplify_eq; first [left; reflexivity | right; eexists; reflexivity].
Qed.

(** A build whose wait times out, on a cluster where the deletion of the
    BuildConfig fails as well: the BuildConfig is deleted at the end. *)
Lemma runBuildConfig_deletes_build_config_witness :
  let h := Sample.handle (Sample.failing Sample.timeout_and_cleanup_fail (Sample.cluster false)) in
  let a := Sample.adapter (Sample.devfile (Sample.devrun ∅) [] []) in
  let p := Sample.buildParameters "" false in
  let tr := trace h (runBuildConfig a p true) 0%nat in
  (exists ev, ev ∈ tr /\ is_CreateBuildConfig (ev_call ev) = true
              /\ ev_error ev = None)
  /\ exists meta derr,
       last tr = Some (Ev (DeleteBuildConfig meta) derr).
Proof.
  intros h a p tr.
  assert (Hcreated : exists ev, ev ∈ tr /\ is_CreateBuildConfig (ev_call ev) = true
                                /\ ev_error ev = None).
  { eexists. split; [|split].
    - apply (list_elem_of_lookup_2 _ 1%nat). vm_compute. reflexivity.
    - reflexivity.
    - reflexivity. }
  split; [exact Hcreated|].
  destruct (runBuildConfig_deletes_build_config h 0%nat a p true Hcreated)
    as (meta & derr & res & _ & Hlast & _).
  exists meta, derr. exact Hlast.
Defined.

(** ** The choice of the build strategy *)

Lemma runBuildConfig_strategies `{Helpers} {W : Type} (h : handler W) (w : W)
    (a : Adapter) (parameters : BuildParameters.t) (isImageRegistryInternal : bool) :
  strategies (trace h (runBuildConfig a parameters isImageRegistryInternal) w)
  = [BuildConfigStrategy].
Proof.
  unfold trace, runBuildConfig.
  destruct (bool_decide (BuildParameters.Tag parameters = "")).
  all: run_all h; reflexivity.
Qed.

Lemma runKaniko_strategies `{Helpers} {W : Type} (h : handler W) (w : W)
    (a : Adapter) (parameters : BuildParameters.t) (isImageRegistryInternal : bool) :
  strategies (trace h (runKaniko a parameters isImageRegistryInternal) w)
  = [KanikoStrategy].
Proof.
  unfold trace, runKaniko, createKanikoBuilderPod.
  run_all h; reflexivity.
Qed.

Lemma strategies_app (t1 t2 : list event) :
  strategies (t1 ++ t2) = (strategies t1 ++ strategies t2)%list.
Proof. unfold strategies, calls. now rewrite fmap_app, omap_app. Qed.

(** C3: a build that gets as far as the choice of a strategy runs exactly
    one strategy: the BuildConfig strategy if and only if the cluster supports
    BuildConfig and the rootless flag is not set, and the kaniko strategy in
    every other case. A build runs no strategy only when a step before the
    choice failed (the creation of the client, the probe for BuildConfig, the
    check of the tag or the creation of the registry secret), and it then
    returns the error of that step. *)
Theorem Build_chooses_strategy `{Helpers} {W : Type} (h : handler W) (w : W)
    (a : Adapter) (parameters : BuildParameters.t) :
  let tr := trace h (Build a parameters) w in
  match strategies tr with
  | [] =>
      exists err,
        result h (Build a parameters) w = Returned (Some err)
        /\ (Exists (fun ev => ev_error ev = Some err) tr
            \/ snd (isInternalRegistry (BuildParameters.Tag parameters)) = Some err)
  | [s] =>
      exists isBuildConfigSupported,
        Ev IsBuildConfigSupported (inr isBuildConfigSupported) ∈ tr
        /\ (s = BuildConfigStrategy
            <-> isBuildConfigSupported = true
                /\ BuildParameters.Rootless parameters = false)
        /\ (s = KanikoStrategy
            <-> ~ (isBuildConfigSupported = true
                   /\ BuildParameters.Rootless parameters = false))
  | _ => False
  end.
Proof.
  unfold trace, result, Build, createDockerConfigSecret.
  cbn -[runBuildConfig runKaniko].
  destruct (isInternalRegistry (BuildParameters.Tag parameters)) as [internal [tagErr|]].
  all: destruct internal.
  all: repeat (first [run_step h | run_case]; cbn -[runBuildConfig runKaniko]).
  all: try (eexists; split; [reflexivity|]).
  all: try (right; reflexivity).
  all: try (left; rewrite ?Exists_cons; cbn; tauto).
  all: destruct (_ && negb _) eqn:Hsel.
  all: match goal with
       | |- context [run ?h (runBuildConfig ?a ?p ?i) ?w] =>
           pose proof (runBuildConfig_strategies h w a p i) as Hs;
           unfold trace in Hs;
           destruct (run h (runBuildConfig a p i) w) as [[tr' out'] w'']
       | |- context [run ?h (runKaniko ?a ?p ?i) ?w] =>
           pose proof (runKaniko_strategies h w a p i) as Hs;
           unfold trace in Hs;
           destruct (run h (runKaniko a p i) w) as [[tr' out'] w'']
       end.
  all: unfold strategies, calls in *; cbn in *; rewrite Hs.
  all: match goal with
       | _ : _ IsBuildConfigSupported _ = (inr ?b, _) |- _ => exists b
       end.
  all: split; [set_solver|].
  all: destruct (BuildParameters.Rootless parameters);
       match goal with
       | _ : _ IsBuildConfigSupported _ = (inr ?b, _) |- _ => destruct b
       end; cbn in Hsel; try discriminate.
  all: repeat split; try discriminate; try tauto.
  all: try (intros [? ?]; discriminate).
  all: intros _ [? ?]; discriminate.
Qed.

(** ** The builder pod and the registry secret *)

Lemma build_call_ok_mono (P Q : Prop) (c : call) :
  (P -> Q) -> build_call_ok P c -> build_call_ok Q c.
Proof. destruct c; simpl; auto. Qed.

Lemma kaniko_pod_mounts_secret (meta : ObjectMeta.t) (policy : option RestartPolicy)
    (ctx : option PodSecurityContext.t) (init builder : Container.t)
    (items : list KeyToPath.t) (other : Volume.t) :
  kanikoSecretVolumeMount ∈ Container.VolumeMounts builder ->
  mounts_secret kanikoSecret regcredName
    {| Pod.ObjectMeta := meta;
       Pod.Spec :=
         {| PodSpec.RestartPolicy := policy; PodSpec.SecurityContext := ctx;
            PodSpec.InitContainers := [init]; PodSpec.Containers := [builder];
            PodSpec.Volumes :=
              [ {| Volume.Name := kanikoSecret;
                   Volume.VolumeSource :=
                     {| VolumeSource.Secret :=
                          Some {| SecretVolumeSource.SecretName := regcredName;
                                  SecretVolumeSource.Items := items |};
                        VolumeSource.EmptyDir := None;
                        VolumeSource.PersistentVolumeClaim := None |} |};
                other ] |} |}.
Proof.
  intros Hm. split.
  - eexists _, _. split; [apply list_elem_of_here|]. repeat split; reflexivity.
  - eexists _, _. split; [apply list_elem_of_here|]. split; [exact Hm|reflexivity].
Qed.

Lemma runKaniko_calls `{Helpers} {W : Type} (h : handler W) (w : W)
    (a : Adapter) (parameters : BuildParameters.t) (isImageRegistryInternal : bool) :
  Forall (build_call_ok False)
    (calls (trace h (runKaniko a parameters isImageRegistryInternal) w))
  /\ exists pod,
       head (calls (trace h (runKaniko a parameters isImageRegistryInternal) w))
       = Some (PodsCreate (Client_Namespace a) pod).
Proof.
  unfold trace, runKaniko, createKanikoBuilderPod.
  run_all h.
  all: split; [|eexists; reflexivity].
  all: repeat apply Forall_cons_2; try apply Forall_nil_2; try exact I.
  all: apply kaniko_pod_mounts_secret; cbn; set_solver.
Qed.

Lemma runBuildConfig_calls `{Helpers} {W : Type} (h : handler W) (w : W)
    (a : Adapter) (parameters : BuildParameters.t) (isImageRegistryInternal : bool) :
  Forall (build_call_ok False)
    (calls (trace h (runBuildConfig a parameters isImageRegistryInternal) w)).
Proof.
  unfold trace, runBuildConfig.
  destruct (bool_decide (BuildParameters.Tag parameters = "")).
  all: run_all h.
  all: repeat apply Forall_cons_2; try apply Forall_nil_2; exact I.
Qed.

Lemma Build_calls `{Helpers} {W : Type} (h : handler W) (w : W)
    (a : Adapter) (parameters : BuildParameters.t) :
  Forall (build_call_ok
            (isInternalRegistry (BuildParameters.Tag parameters) = (false, None)))
    (calls (trace h (Build a parameters) w)).
Proof.
  unfold trace, Build, createDockerConfigSecret.
  cbn -[runBuildConfig runKaniko].
  destruct (isInternalRegistry (BuildParameters.Tag parameters)) as [internal [tagErr|]].
  all: destruct internal.
  all: repeat (first [run_step h | run_case]; cbn -[runBuildConfig runKaniko]).
  all: try (repeat apply Forall_cons_2; try apply Forall_nil_2; first [exact I|reflexivity]).
  all: destruct (_ && negb _).
  all: match goal with
       | |- context [run ?h (runBuildConfig ?a ?p ?i) ?w] =>
           pose proof (runBuildConfig_calls h w a p i) as Hs;
           unfold trace in Hs;
           destruct (run h (runBuildConfig a p i) w) as [[tr' out'] w'']
       | |- context [run ?h (runKaniko ?a ?p ?i) ?w] =>
           pose proof (runKaniko_calls h w a p i) as [Hs _];
           unfold trace in Hs;
           destruct (run h (runKaniko a p i) w) as [[tr' out'] w'']
       end.
  all: cbn in *.
  all: repeat apply Forall_cons_2; try first [exact I|reflexivity].
  all: eapply Forall_impl; [exact Hs|].
  all: intros c; apply build_call_ok_mono; contradiction.
Qed.

(** C10: the pod that the kaniko strategy creates has the volume
    "kaniko-secret" taken from the secret "regcred", mounted by the builder
    container, whether the registry of the tag is internal or not; the
    creation of the pod is the first thing the strategy asks of the cluster;
    and a build creates the secret only when the registry of the tag is not
    internal. *)
Theorem kaniko_pod_mounts_regcred `{Helpers} {W : Type} (h : handler W) (w : W)
    (a : Adapter) (parameters : BuildParameters.t) :
  (forall isImageRegistryInternal : bool,
     exists pod,
       head (calls (trace h (runKaniko a parameters isImageRegistryInternal) w))
       = Some (PodsCreate (Client_Namespace a) pod)
       /\ mounts_secret "kaniko-secret" "regcred" pod)
  /\ (forall namespace pod,
        PodsCreate namespace pod ∈ calls (trace h (Build a parameters) w) ->
        mounts_secret "kaniko-secret" "regcred" pod)
  /\ (forall gvr namespace obj,
        DynamicCreate gvr namespace obj ∈ calls (trace h (Build a parameters) w) ->
        isInternalRegistry (BuildParameters.Tag parameters) = (false, None)).
Proof.
  split; [|split].
  - intros internal.
    destruct (runKaniko_calls h w a parameters internal) as [Hall [pod Hhead]].
    exists pod. split; [exact Hhead|].
    destruct (calls (trace h (runKaniko a parameters internal) w)) as [|c cs];
      [discriminate|].
    injection Hhead as ->. apply Forall_cons_1 in Hall as [Hpod _]. exact Hpod.
  - intros ns pod Hin.
    pose proof (Build_calls h w a parameters) as Hall.
    rewrite Forall_forall in Hall. exact (Hall _ Hin).
  - intros gvr ns obj Hin.
    pose proof (Build_calls h w a parameters) as Hall.
    rewrite Forall_forall in Hall. exact (Hall _ Hin).
Qed.

(** A rootless build to the internal registry: the builder pod is created
    with the volume of the secret "regcred", and no secret is created. *)
Example Build_rootless_internal_registry :
  let tag := "image-registry.openshift-image-registry.svc:5000/dev/myapp:latest" in
  let tr := trace (Sample.handle (Sample.cluster false))
              (Build (Sample.adapter (Sample.devfile (Sample.devrun ∅) [] []))
                 (Sample.buildParameters tag true)) 0%nat in
  strategies tr = [KanikoStrategy]
  /\ filter (fun c => match c with DynamicCreate _ _ _ => true | _ => false end = true)
       (calls tr) = [].
Proof. vm_compute. split; reflexivity. Qed.

(** ** The loop over the volumes *)

Lemma pvc_name_chosen_mono (tr tr' : list event) (componentName : string)
    (s : Storage.t) :
  (forall ev, ev ∈ tr -> ev ∈ tr') ->
  pvc_name_chosen tr componentName s -> pvc_name_chosen tr' componentName s.
Proof.
  intros Hsub (generated & existing & Hg & He & Hn).
  exists generated, existing. auto.
Qed.

Lemma VolumeLoop_inv_init (componentName : string) :
  VolumeLoop_inv componentName ∅ [] VolumeLoop_init.
Proof.
  unfold VolumeLoop_inv, VolumeLoop_init, storage_volume_names; simpl.
  split; [constructor|].
  split; [intros n; rewrite elem_of_nil, elem_of_empty; reflexivity|].
  split; [intros n; rewrite lookup_empty, elem_of_empty;
          split; [apply is_Some_None|contradiction]|].
  split; [intros n; rewrite lookup_empty, elem_of_empty;
          split; [apply is_Some_None|contradiction]|].
  intros s Hs. apply elem_of_nil in Hs. contradiction.
Qed.

Lemma union_seen_again (seen rest : gset string) (x : string) :
  x ∈ seen -> seen ∪ ({[x]} ∪ rest) = seen ∪ rest.
Proof.
  intros Hx. apply set_eq. intros n.
  rewrite !elem_of_union, elem_of_singleton.
  split; [intros [Hn|[->|Hn]]; auto|intros [Hn|Hn]; auto].
Qed.

Lemma elem_of_seen_and_new (seen : gset string) (x n : string) :
  n ∈ seen ∪ {[x]} <-> n ∈ seen \/ n = x.
Proof. now rewrite elem_of_union, elem_of_singleton. Qed.

Section VolumeLoop.
Context `{Helpers} {W : Type} (h : handler W) (componentName : string).

Lemma rangeVolumes_inv (volumes : list DevfileVolume.t) :
  forall (st : VolumeLoop) (w : W) (seen : gset string) (tr0 tr : list event)
         (st' : VolumeLoop) (w' : W),
    VolumeLoop_inv componentName seen tr0 st ->
    run h (rangeVolumes componentName volumes st) w = (tr, Returned (inr st'), w') ->
    VolumeLoop_inv componentName
      (seen ∪ list_to_set (DevfileVolume.Name <$> volumes)) (tr0 ++ tr) st'.
Proof.
  induction volumes as [|vol volumes IH]; intros st w seen tr0 tr st' w' Hinv Hrun.
  - simpl in Hrun. injection Hrun as <- <- <-.
    rewrite app_nil_r. simpl.
    rewrite union_empty_r_L. exact Hinv.
  - simpl in Hrun.
    destruct Hinv as (Hnd & Hnames & Hproc & Hmap & Hst).
    destruct (processedVolumes st !! DevfileVolume.Name vol) as [b|] eqn:Eproc.
    + (* the volume has been processed *)
      assert (Hseen : DevfileVolume.Name vol ∈ seen)
        by (apply Hproc; rewrite Eproc; eauto).
      rewrite fmap_cons, list_to_set_cons.
      rewrite (union_seen_again _ _ _ Hseen).
      eapply IH; [|exact Hrun]. repeat split; try apply Hnames; try apply Hproc;
        try apply Hmap; try apply Hst; auto.
    + (* a new volume *)
      assert (Hnew : DevfileVolume.Name vol ∉ seen).
      { intros Hin. apply Hproc in Hin. rewrite Eproc in Hin.
        destruct Hin as [? ?]; discriminate. }
      cbn in Hrun.
      destruct (h (GeneratePVCNameFromDevfileVol (DevfileVolume.Name vol)
                     componentName) w) as [[gerr|generated] w1] eqn:Hg;
        cbn in Hrun; [discriminate|].
      destruct (h (GetExistingPVC (DevfileVolume.Name vol) componentName) w1)
        as [[eerr|existing] w2] eqn:He; cbn in Hrun; [discriminate|].
      match type of Hrun with
      | context [run h (rangeVolumes _ _ ?st1) _] => set (st1' := st1) in *
      end.
      destruct (run h (rangeVolumes componentName volumes st1') w2)
        as [[tr2 out2] w3] eqn:Hrest.
      injection Hrun as <- -> <-.
      rewrite fmap_cons, list_to_set_cons.
      rewrite union_assoc_L.
      replace (tr0 ++ Ev (GeneratePVCNameFromDevfileVol (DevfileVolume.Name vol)
                            componentName) (inr generated)
                   :: Ev (GetExistingPVC (DevfileVolume.Name vol) componentName)
                        (inr existing) :: tr2)%list
        with ((tr0 ++ [Ev (GeneratePVCNameFromDevfileVol (DevfileVolume.Name vol)
                             componentName) (inr generated);
                       Ev (GetExistingPVC (DevfileVolume.Name vol) componentName)
                         (inr existing)]) ++ tr2)%list
        by (rewrite <- app_assoc; reflexivity).
      eapply IH; [|exact Hrest].
      subst st1'. unfold VolumeLoop_inv, storage_volume_names in *. simpl.
      rewrite fmap_app. simpl.
      split; [|split; [|split; [|split]]].
      * apply NoDup_app. split; [exact Hnd|]. split; [|apply NoDup_singleton].
        intros n Hn Hn'. apply list_elem_of_singleton in Hn' as ->.
        apply Hnew, Hnames, Hn.
      * intros n.
        rewrite elem_of_app, list_elem_of_singleton, Hnames, elem_of_seen_and_new.
        reflexivity.
      * intros n. rewrite lookup_insert, elem_of_seen_and_new. case_decide as Hd.
        -- subst n. split; [now right|eauto].
        -- rewrite Hproc. split; [now left|]. intros [Hn|Hn]; [exact Hn|].
           now subst n.
      * intros n. rewrite lookup_insert, elem_of_seen_and_new. case_decide as Hd.
        -- subst n. split; [now right|eauto].
        -- rewrite Hmap. split; [now left|]. intros [Hn|Hn]; [exact Hn|].
           now subst n.
      * intros s Hs. apply elem_of_app in Hs as [Hs|Hs].
        -- destruct (Hst s Hs) as [Hchosen Hbind]. split.
           ++ eapply pvc_name_chosen_mono; [|exact Hchosen].
              intros ev Hev. apply elem_of_app. now left.
           ++ rewrite lookup_insert_ne; [exact Hbind|].
              intros Heq. apply Hnew, Hnames. rewrite Heq.
              apply list_elem_of_fmap. exists s. split; [reflexivity|exact Hs].
        -- apply list_elem_of_singleton in Hs as ->. simpl. split.
           ++ exists generated, existing. simpl.
              split; [|split; [|reflexivity]]; apply elem_of_app; right;
                [apply list_elem_of_here
                |apply list_elem_of_further, list_elem_of_here].
           ++ apply lookup_insert_eq.
Qed.

Lemma rangeContainerVolumes_inv (containerNameToVolumes : ContainerVolumes) :
  forall (st : VolumeLoop) (w : W) (seen : gset string) (tr0 tr : list event)
         (st' : VolumeLoop) (w' : W),
    VolumeLoop_inv componentName seen tr0 st ->
    run h (rangeContainerVolumes componentName containerNameToVolumes st) w
    = (tr, Returned (inr st'), w') ->
    VolumeLoop_inv componentName
      (seen ∪ list_to_set (referenced_volume_names containerNameToVolumes))
      (tr0 ++ tr) st'.
Proof.
  induction containerNameToVolumes as [|[name volumes] rest IH];
    intros st w seen tr0 tr st' w' Hinv Hrun.
  - simpl in Hrun. injection Hrun as <- <- <-.
    rewrite app_nil_r. unfold referenced_volume_names. simpl.
    rewrite union_empty_r_L. exact Hinv.
  - simpl in Hrun. rewrite run_bind in Hrun.
    destruct (run h (rangeVolumes componentName volumes st) w)
      as [[t1 [[err|st1]|c]] w1] eqn:Hinner; simpl in Hrun; try discriminate.
    destruct (run h (rangeContainerVolumes componentName rest st1) w1)
      as [[t2 out2] w2] eqn:Houter.
    injection Hrun as <- -> <-.
    pose proof (rangeVolumes_inv volumes st w seen tr0 t1 st1 w1 Hinv Hinner) as Hinv1.
    pose proof (IH st1 w1 _ _ t2 st' w2 Hinv1 Houter) as Hinv2.
    unfold referenced_volume_names in *. simpl.
    rewrite list_to_set_app_L, app_assoc, union_assoc_L. exact Hinv2.
Qed.

Lemma rangeVolumes_calls (volumes : list DevfileVolume.t) :
  forall (st : VolumeLoop) (w : W),
    Forall (fun c => is_volume_call c = true)
      (calls (trace h (rangeVolumes componentName volumes st) w)).
Proof.
  unfold trace, calls.
  induction volumes as [|vol volumes IH]; intros st w; simpl; [constructor|].
  destruct (processedVolumes st !! DevfileVolume.Name vol); [apply IH|].
  cbn.
  destruct (h (GeneratePVCNameFromDevfileVol (DevfileVolume.Name vol)
                 componentName) w) as [[gerr|generated] w1];
    cbn; [repeat constructor|].
  destruct (h (GetExistingPVC (DevfileVolume.Name vol) componentName) w1)
    as [[eerr|existing] w2]; cbn; [repeat constructor|].
  match goal with
  | |- context [run h (rangeVolumes _ _ ?st1) ?w1] =>
      specialize (IH st1 w1);
      destruct (run h (rangeVolumes componentName volumes st1) w1) as [[tr2 out2] w3]
  end.
  cbn in *. repeat constructor. exact IH.
Qed.

Lemma rangeContainerVolumes_calls (containerNameToVolumes : ContainerVolumes) :
  forall (st : VolumeLoop) (w : W),
    Forall (fun c => is_volume_call c = true)
      (calls (trace h (rangeContainerVolumes componentName
                         containerNameToVolumes st) w)).
Proof.
  unfold trace, calls.
  induction containerNameToVolumes as [|[name volumes] rest IH];
    intros st w; simpl; [constructor|].
  rewrite run_bind.
  pose proof (rangeVolumes_calls volumes st w) as Hinner.
  unfold trace, calls in Hinner.
  destruct (run h (rangeVolumes componentName volumes st) w)
    as [[t1 [[err|st1]|c]] w1]; simpl in *;
    try (rewrite app_nil_r; exact Hinner); try exact Hinner.
  specialize (IH st1 w1).
  destruct (run h (rangeContainerVolumes componentName rest st1) w1)
    as [[t2 out2] w2]; simpl in *.
  rewrite fmap_app. apply Forall_app. split; assumption.
Qed.

End VolumeLoop.

(** ** Reconciliation *)

(** A run of [createOrUpdateComponent] is a run of the loop over the
    volumes, followed, if the loop and the steps around it succeed, by the
    requests for the Deployment, the Service and the storages. *)
Lemma createOrUpdateComponent_shape `{Helpers} {W : Type} (h : handler W) (w : W)
    (a : Adapter) (componentExists : bool) (ei : EnvSpecificInfo.t) :
  exists t_loop t_rest,
    trace h (createOrUpdateComponent a componentExists ei) w = (t_loop ++ t_rest)%list
    /\ Forall (fun c => is_volume_call c = true) (calls t_loop)
    /\ ((t_rest = []
         /\ result h (createOrUpdateComponent a componentExists ei) w
            <> Returned None)
        \/ exists st w1 deploymentSpec,
             let rest :=
               err <- applyDeploymentAndService a componentExists
                        (componentObjectMeta a) deploymentSpec
                        (GenerateServiceSpec
                           (ObjectMeta.Name (componentObjectMeta a))
                           (collectContainerPorts
                              (PodSpec.Containers
                                 (PodTemplateSpec.Spec
                                    (DeploymentSpec.Template deploymentSpec))))) ;;
               match err with
               | Some err => Ret (Some err)
               | None =>
                   err <- perform (StorageCreate (uniqueStorages st)) ;;
                   match err with
                   | Some err => Ret (Some err)
                   | None => Ret None
                   end
               end in
             VolumeLoop_inv (ComponentName a)
               (list_to_set (referenced_volume_names (GetVolumes (Devfile a))))
               t_loop st
             /\ t_rest = trace h rest w1
             /\ result h (createOrUpdateComponent a componentExists ei) w
                = result h rest w1).
Proof.
  unfold trace, result, createOrUpdateComponent.
  destruct (GetContainers (Devfile a)) as [err|containers];
    [exists [], []; repeat split; [constructor|left; split; [reflexivity|discriminate]]|].
  destruct (List.length containers =? 0)%nat;
    [exists [], []; repeat split; [constructor|left; split; [reflexivity|discriminate]]|].
  destruct (UpdateContainersWithSupervisord _ _ _ _ _) as [err|containers1];
    [exists [], []; repeat split; [constructor|left; split; [reflexivity|discriminate]]|].
  destruct (UpdateContainerWithEnvFrom _ _ _ _) as [err|containers2];
    [exists [], []; repeat split; [constructor|left; split; [reflexivity|discriminate]]|].
  cbv zeta. rewrite run_bind.
  pose proof (rangeContainerVolumes_calls h (ComponentName a)
                (GetVolumes (Devfile a)) VolumeLoop_init w) as Hcalls.
  pose proof (rangeContainerVolumes_inv h (ComponentName a)
                (GetVolumes (Devfile a)) VolumeLoop_init w ∅ []) as Hinv.
  unfold trace in Hcalls.
  destruct (run h (rangeContainerVolumes (ComponentName a)
                     (GetVolumes (Devfile a)) VolumeLoop_init) w)
    as [[t1 [[err|st]|c]] w1]; simpl in Hcalls.
  - exists t1, []. cbn. rewrite app_nil_r.
    repeat split; [exact Hcalls|left; split; [reflexivity|discriminate]].
  - specialize (Hinv t1 st w1 (VolumeLoop_inv_init _) eq_refl).
    rewrite union_empty_l_L in Hinv. simpl in Hinv.
    destruct (AddPVCAndVolumeMount _ _ _) as [err|podTemplateSpec] eqn:Hadd.
    + exists t1, []. cbn. rewrite app_nil_r.
      repeat split; [exact Hcalls|left; split; [reflexivity|discriminate]].
    + match goal with
      | |- context [run h ?p w1] => set (tail := p)
      end.
      exists t1, (run h tail w1).1.1. split; [|split; [exact Hcalls|]].
      * destruct (run h tail w1) as [[t2 out2] w2]. reflexivity.
      * right. exists st, w1.
        exists (GenerateDeploymentSpec podTemplateSpec
                  {[ "component" := ComponentName a ]}).
        split; [exact Hinv|]. split; [reflexivity|].
        fold tail. destruct (run h tail w1) as [[t2 out2] w2]. reflexivity.
  - exists t1, []. cbn. rewrite app_nil_r.
    repeat split; [exact Hcalls|left; split; [reflexivity|discriminate]].
Qed.

(** Membership in the calls of a trace that has been computed. *)
Ltac calls_mem Hin :=
  unfold calls in Hin; rewrite ?fmap_app in Hin; cbn in Hin;
  repeat (apply elem_of_cons in Hin as [Hin|Hin]; [try discriminate Hin|]);
  try (apply elem_of_nil in Hin; contradiction).


Lemma ports_nonempty (ports : list ServicePort.t) :
  ports <> [] -> (0 <? List.length ports)%nat = true.
Proof. destruct ports; [contradiction|reflexivity]. Qed.

(** C2: a reconciliation that updates the Deployment to [deploymentSpec],
    finds a live Service [oldSvc], and wants a Service with at least one port,
    sends one request about the Service: the update of the desired Service
    with the cluster IP of the live Service, under an object meta that has the
    resource version of the live Service. *)
Theorem createOrUpdateComponent_update_keeps_clusterIP `{Helpers} {W : Type}
    (h : handler W) (w : W) (a : Adapter) (componentExists : bool)
    (ei : EnvSpecificInfo.t) (deploymentSpec : DeploymentSpec.t)
    (namespace name : string) (oldSvc : Service.t) :
  let tr := trace h (createOrUpdateComponent a componentExists ei) w in
  let desired :=
    GenerateServiceSpec (ObjectMeta.Name (componentObjectMeta a))
      (collectContainerPorts
         (PodSpec.Containers
            (PodTemplateSpec.Spec (DeploymentSpec.Template deploymentSpec)))) in
  UpdateDeployment deploymentSpec ∈ calls tr ->
  Ev (ServicesGet namespace name) (inr oldSvc) ∈ tr ->
  ServiceSpec.Ports desired <> [] ->
  exists objectMeta,
    UpdateService objectMeta
      (ServiceSpec.set_ClusterIP (ServiceSpec.ClusterIP (Service.Spec oldSvc))
         desired) ∈ calls tr
    /\ ObjectMeta.ResourceVersion objectMeta = Service.GetResourceVersion oldSvc
    /\ ObjectMeta.Name objectMeta = ObjectMeta.Name (componentObjectMeta a)
    /\ (forall c, c ∈ calls tr -> is_service_request c = true ->
        c = UpdateService objectMeta
              (ServiceSpec.set_ClusterIP
                 (ServiceSpec.ClusterIP (Service.Spec oldSvc)) desired)).
Proof.
  intros tr desired Hdep Hget Hports. subst tr.
  destruct (createOrUpdateComponent_shape h w a componentExists ei)
    as (t_loop & t_rest & Heq & Hloop & Hrest).
  rewrite Heq in *. clear Heq.
  rewrite Forall_forall in Hloop.
  assert (Hloop_ev : forall ev, ev ∈ t_loop -> is_volume_call (ev_call ev) = true).
  { intros ev Hev. apply Hloop. unfold calls. now apply list_elem_of_fmap_2. }
  unfold calls in Hdep. rewrite fmap_app in Hdep.
  apply elem_of_app in Hdep as [Hdep|Hdep]; [apply Hloop in Hdep; discriminate|].
  apply elem_of_app in Hget as [Hget|Hget]; [apply Hloop_ev in Hget; discriminate|].
  destruct Hrest as [[-> _]|(st & w1 & deploymentSpec' & _ & -> & _)];
    [apply elem_of_nil in Hget; contradiction|].
  apply ports_nonempty in Hports.
  revert Hdep Hget. unfold trace, applyDeploymentAndService.
  destruct componentExists; cbn.
  all: destruct (match List.length (ServiceSpec.Ports _) with
                 | 0%nat => false
                 | S _ => true
                 end) eqn:Hp.
  all: run_all h.
  all: intros Hdep Hget; calls_mem Hdep.
  all: injection Hdep as <-.
  all: fold desired in Hp; cbn in Hports; rewrite Hports in Hp; try discriminate Hp.
  all: repeat (apply elem_of_cons in Hget as [Hget|Hget]; [try discriminate Hget|]);
       try (apply elem_of_nil in Hget; contradiction).
  all: apply (f_equal ev_service) in Hget; cbn in Hget; try discriminate Hget.
  all: injection Hget as <-.
  all: eexists; split;
       [unfold calls; rewrite fmap_app; apply elem_of_app; right; cbn;
        apply list_elem_of_further, list_elem_of_further, list_elem_of_here|].
  all: split; [reflexivity|]. all: split; [reflexivity|].
  all: intros c Hc Hreq; unfold calls in Hc; rewrite fmap_app in Hc;
       apply elem_of_app in Hc as [Hc|Hc];
       [apply Hloop in Hc; destruct c; discriminate|].
  all: cbn in Hc;
       repeat (apply elem_of_cons in Hc as [->|Hc]; [try discriminate Hreq|]);
       try (apply elem_of_nil in Hc; contradiction).
  all: reflexivity.
Qed.

(** The component has a live Service with the cluster IP 10.0.0.5 and the
    resource version 1207, and one port is wanted: the update carries them. *)
Lemma createOrUpdateComponent_update_keeps_clusterIP_witness :
  let d := Sample.devfile (Sample.devrun ∅) [] [] in
  let tr := trace (Sample.handle (Sample.cluster true))
              (createOrUpdateComponent (Sample.adapter d) true Sample.ei) 0%nat in
  (UpdateDeployment (Sample.deploymentSpec d) ∈ calls tr
   /\ Ev (ServicesGet "dev" "myapp") (inr Sample.service) ∈ tr)
  /\ exists objectMeta spec,
       UpdateService objectMeta spec ∈ calls tr
       /\ ServiceSpec.ClusterIP spec = "10.0.0.5"
       /\ ObjectMeta.ResourceVersion objectMeta = "1207".
Proof.
  intros d tr.
  assert (Hdep : UpdateDeployment (Sample.deploymentSpec d) ∈ calls tr).
  { apply (list_elem_of_lookup_2 _ 0%nat). vm_compute. reflexivity. }
  assert (Hget : Ev (ServicesGet "dev" "myapp") (inr Sample.service) ∈ tr).
  { apply (list_elem_of_lookup_2 _ 1%nat). vm_compute. reflexivity. }
  split; [split; assumption|].
  destruct (createOrUpdateComponent_update_keeps_clusterIP
              (Sample.handle (Sample.cluster true)) 0%nat (Sample.adapter d)
              true Sample.ei (Sample.deploymentSpec d) "dev" "myapp"
              Sample.service Hdep Hget)
    as (objectMeta & Hupd & Hrv & _).
  { vm_compute. discriminate. }
  eexists objectMeta, _. split; [exact Hupd|]. split; [reflexivity|exact Hrv].
Defined.


(** ** The dispatch of the Run or Debug command *)

Lemma lookup_size_ne_0 (m : gmap string DevfileCommand.t) (k : string)
    (v : DevfileCommand.t) :
  m !! k = Some v -> (size m =? 0)%nat = false.
Proof.
  intros Hk. apply Nat.eqb_neq. intros Hs.
  apply map_size_empty_iff in Hs. subst m. rewrite lookup_empty in Hk. discriminate.
Qed.

(** C1: when the component existed before the push and the selected Run (or
    Debug) command does not require a restart, [execDevfile] never asks the
    supervisor for a restart. It executes the Build command of the push, if
    there is one, and then, if that execution returned no error, it hands the
    selected command to the supervisor without a restart, in the container of
    the command, as its last call, and returns what that call returned. It
    dispatches nothing in two cases only: the execution of the Build command
    failed, and its error is returned; or the Build command has no composite
    and no exec, and the function panics before any call. *)
Theorem execDevfile_dispatches_without_restart `{Helpers} {W : Type}
    (h : handler W) (w : W) (a : Adapter) (commandsMap : PushCommandsMap)
    (show : bool) (podName : string) (containers : list Container.t)
    (isDebug : bool) (command : DevfileCommand.t) (exec : Exec.t) :
  let p := execDevfile a commandsMap true show podName containers isDebug in
  let tr := trace h p w in
  let compInfo (containerName : string) :=
    {| ComponentInfo.ContainerName := containerName;
       ComponentInfo.PodName := podName;
       ComponentInfo.SourceMount := "" |} in
  let dispatch :=
    if isDebug
    then ExecuteDevfileDebugActionWithoutRestart exec (Exec.Id exec)
           (compInfo (Exec.Component exec)) show
    else ExecuteDevfileRunActionWithoutRestart exec (Exec.Id exec)
           (compInfo (Exec.Component exec)) show in
  (* the calls for the Build command, or nothing if it has no composite and
     no exec *)
  let build : option (list call) :=
    match commandsMap !! BuildCommandGroupType with
    | None => Some []
    | Some buildCommand =>
        match DevfileCommand.Composite buildCommand,
              DevfileCommand.Exec buildCommand with
        | Some composite, _ =>
            Some [ExecuteCompositeDevfileAction composite
                    (GetCommandsMap (GetCommands (Devfile a)))
                    (compInfo "") show]
        | None, Some buildExec =>
            Some [ExecuteDevfileCommandSynchronously buildExec
                    (Exec.Id buildExec)
                    (compInfo (Exec.Component buildExec)) show false]
        | None, None => None
        end
    end in
  commandsMap !! (if isDebug then DebugCommandGroupType else RunCommandGroupType)
  = Some command ->
  DevfileCommand.Exec command = Some exec ->
  IsRestartRequired command = false ->
  Forall (fun c => is_restart_action c = false) (calls tr)
  /\ match build with
     | None => tr = [] /\ result h p w = Crashed NilDereference
     | Some build =>
         (exists ev,
            calls tr = (build ++ [dispatch])%list
            /\ Forall (fun ev => ev_error ev = None)
                 (take (List.length build) tr)
            /\ last tr = Some ev
            /\ result h p w = Returned (ev_error ev))
         \/ (exists ev err,
               calls tr = build
               /\ last tr = Some ev
               /\ ev_error ev = Some err
               /\ result h p w = Returned (Some err))
     end.
Proof.
  intros p tr compInfo dispatch build Hsel Hexec Hrestart.
  subst p tr dispatch build compInfo.
  unfold trace, result, execDevfile, execInitOrBuild.
  rewrite (lookup_size_ne_0 _ _ _ Hsel).
  cbn.
  destruct (commandsMap !! BuildCommandGroupType) as [buildCommand|];
    [destruct (DevfileCommand.Composite buildCommand) as [composite|];
     [|destruct (DevfileCommand.Exec buildCommand) as [buildExec|]]|].
  all: destruct isDebug; rewrite ?Hsel; cbn; rewrite ?Hexec; cbn.
  all: rewrite ?Hrestart; cbn.
  all: run_all h.
  all: rewrite ?Hsel; cbn; rewrite ?Hexec; cbn; rewrite ?Hrestart; cbn.
  all: run_all h.
  all: split; [repeat constructor|].
  all: first
    [ solve [split; reflexivity]
    | solve [left; eexists; split; [reflexivity|];
             split; [repeat constructor|]; split; reflexivity]
    | solve [right; eexists _, _; repeat split; reflexivity] ].
Qed.

(** The component exists, the push has a Build command, and the run command
    of the devfile has the attribute restart: false: the Build command is
    executed, and then the run command is handed to the supervisor without a
    restart. *)
Lemma execDevfile_dispatches_without_restart_witness :
  let command := Sample.devrun {[ "restart" := "false" ]} in
  let devbuild :=
    {| Exec.Id := "devbuild"; Exec.Component := "tools";
       Exec.CommandLine := "npm install";
       Exec.WorkingDir := "/projects/nodejs-starter";
       Exec.Attributes := ∅ |} in
  let buildCommand :=
    {| DevfileCommand.Exec := Some devbuild;
       DevfileCommand.Composite := None |} in
  let a := Sample.adapter (Sample.devfile command [] []) in
  let commandsMap : PushCommandsMap :=
    {[ "run" := command; "build" := buildCommand ]} in
  let p := execDevfile a commandsMap true false "myapp-5d8f7c" [Sample.runtime] false in
  let compInfo (containerName : string) :=
    {| ComponentInfo.ContainerName := containerName;
       ComponentInfo.PodName := "myapp-5d8f7c";
       ComponentInfo.SourceMount := "" |} in
  (commandsMap !! "run" = Some command
   /\ @IsRestartRequired Sample.helpers command = false)
  /\ calls (trace (Sample.handle (Sample.cluster true)) p 0%nat)
     = [ ExecuteDevfileCommandSynchronously devbuild "devbuild"
           (compInfo "tools") false false;
         ExecuteDevfileRunActionWithoutRestart
           {| Exec.Id := "devrun"; Exec.Component := "runtime";
              Exec.CommandLine := "npm install && npm start";
              Exec.WorkingDir := "/projects/nodejs-starter";
              Exec.Attributes := {[ "restart" := "false" ]} |}
           "devrun" (compInfo "runtime") false ].
Proof.
  intros command devbuild buildCommand a commandsMap p compInfo.
  assert (Hsel : commandsMap !! "run" = Some command)
    by (vm_compute; reflexivity).
  assert (Hrestart : @IsRestartRequired Sample.helpers command = false)
    by (vm_compute; reflexivity).
  split; [split; assumption|].
  pose proof (execDevfile_dispatches_without_restart
                (Sample.handle (Sample.cluster true)) 0%nat a commandsMap
                false "myapp-5d8f7c" [Sample.runtime] false command _
                Hsel eq_refl Hrestart) as [_ Hrun].
  replace (commandsMap !! @BuildCommandGroupType Sample.helpers)
    with (Some buildCommand) in Hrun by (vm_compute; reflexivity).
  cbv beta iota zeta in Hrun. cbn [DevfileCommand.Composite DevfileCommand.Exec buildCommand] in Hrun.
  destruct Hrun as [(ev & Hcalls & _)|(ev & err & _ & Hlast & Herr & _)].
  - exact Hcalls.
  - exfalso. vm_compute in Hlast. injection Hlast as <-. discriminate Herr.
Defined.


(** ** Push *)

Lemma createOrUpdateComponent_calls `{Helpers} {W : Type} (h : handler W) (w : W)
    (a : Adapter) (componentExists : bool) (ei : EnvSpecificInfo.t) :
  Forall (fun c => is_reconcile_call c = true)
    (calls (trace h (createOrUpdateComponent a componentExists ei) w))
  /\ (result h (createOrUpdateComponent a componentExists ei) w = Returned None ->
      exists ev,
        ev ∈ trace h (createOrUpdateComponent a componentExists ei) w
        /\ is_deployment_request (ev_call ev) = true
        /\ ev_error ev = None).
Proof.
  destruct (createOrUpdateComponent_shape h w a componentExists ei)
    as (t_loop & t_rest & Heq & Hloop & Hrest).
  rewrite Heq. clear Heq.
  assert (Hloop' : Forall (fun c => is_reconcile_call c = true) (calls t_loop)).
  { eapply Forall_impl; [exact Hloop|]. intros c Hc. now destruct c. }
  destruct Hrest as [[-> Hres]|(st & w1 & deploymentSpec & _ & -> & ->)].
  { rewrite app_nil_r. split; [exact Hloop'|]. intros Hr. contradiction. }
  unfold calls. rewrite fmap_app.
  assert (Hrest : Forall (fun c => is_reconcile_call c = true)
                    (ev_call <$> trace h
                       (err <- applyDeploymentAndService a componentExists
                                 (componentObjectMeta a) deploymentSpec
                                 (GenerateServiceSpec
                                    (ObjectMeta.Name (componentObjectMeta a))
                                    (collectContainerPorts
                                       (PodSpec.Containers
                                          (PodTemplateSpec.Spec
                                             (DeploymentSpec.Template deploymentSpec))))) ;;
                        match err with
                        | Some err => Ret (Some err)
                        | None =>
                            err <- perform (StorageCreate (uniqueStorages st)) ;;
                            match err with
                            | Some err => Ret (Some err)
                            | None => Ret None
                            end
                        end) w1)
                  /\ (result h
                        (err <- applyDeploymentAndService a componentExists
                                  (componentObjectMeta a) deploymentSpec
                                  (GenerateServiceSpec
                                     (ObjectMeta.Name (componentObjectMeta a))
                                     (collectContainerPorts
                                        (PodSpec.Containers
                                           (PodTemplateSpec.Spec
                                              (DeploymentSpec.Template deploymentSpec))))) ;;
                         match err with
                         | Some err => Ret (Some err)
                         | None =>
                             err <- perform (StorageCreate (uniqueStorages st)) ;;
                             match err with
                             | Some err => Ret (Some err)
                             | None => Ret None
                             end
                         end) w1 = Returned None ->
                      exists ev,
                        ev ∈ trace h
                          (err <- applyDeploymentAndService a componentExists
                                    (componentObjectMeta a) deploymentSpec
                                    (GenerateServiceSpec
                                       (ObjectMeta.Name (componentObjectMeta a))
                                       (collectContainerPorts
                                          (PodSpec.Containers
                                             (PodTemplateSpec.Spec
                                                (DeploymentSpec.Template deploymentSpec))))) ;;
                           match err with
                           | Some err => Ret (Some err)
                           | None =>
                               err <- perform (StorageCreate (uniqueStorages st)) ;;
                               match err with
                               | Some err => Ret (Some err)
                               | None => Ret None
                               end
                           end) w1
                        /\ is_deployment_request (ev_call ev) = true
                        /\ ev_error ev = None)).
  { unfold trace, result, applyDeploymentAndService.
    destruct componentExists; cbn.
    all: destruct (match List.length (ServiceSpec.Ports _) with
                   | 0%nat => false
                   | S _ => true
                   end).
    all: run_all h.
    all: split; [repeat constructor|].
    all: intros Hr; try discriminate Hr.
    all: eexists; split; [apply list_elem_of_here|]; split; reflexivity. }
  destruct Hrest as [Hcalls Hok].
  split; [apply Forall_app; split; assumption|].
  intros Hr. destruct (Hok Hr) as (ev & Hev & Hd & He).
  exists ev. split; [apply elem_of_app; now right|]. split; assumption.
Qed.

Lemma all_calls_bind {A B : Type} (P : call -> Prop) (p : prog A)
    (f : A -> prog B) :
  all_calls P p -> (forall a, all_calls P (f a)) -> all_calls P (bind p f).
Proof.
  intros Hp Hf. induction p as [a|c|c k IH]; simpl in *; auto.
  destruct Hp as [Hc Hk]. split; [exact Hc|]. intros r. apply IH, Hk.
Qed.

Lemma all_calls_trace {A W : Type} (P : call -> Prop) (p : prog A)
    (h : handler W) :
  all_calls P p -> forall w, Forall P (calls (trace h p w)).
Proof.
  unfold trace, calls.
  induction p as [a|c|c k IH]; intros Hp w; simpl; try constructor.
  destruct Hp as [Hc Hk]. destruct (h c w) as [r w1].
  specialize (IH r (Hk r) w1).
  destruct (run h (k r) w1) as [[t o] w2]. simpl in *.
  constructor; assumption.
Qed.

Lemma all_calls_impl {A : Type} (P Q : call -> Prop) (p : prog A) :
  (forall c, P c -> Q c) -> all_calls P p -> all_calls Q p.
Proof.
  intros HPQ. induction p as [a|c|c k IH]; simpl; auto.
  intros [Hc Hk]. split; [auto|]. intros r. apply IH, Hk.
Qed.

(** The calls of a program are of one kind: the program is taken apart
    along its binds, matches and calls. *)
Ltac all_calls_step :=
  lazymatch goal with
  | |- all_calls _ (bind _ _) => apply all_calls_bind; [|intros]
  | |- all_calls _ (Do _ _) => split; [try reflexivity; try (split; reflexivity)|intros]
  | |- all_calls _ (perform _) =>
      split; [try reflexivity; try (split; reflexivity)|intros; exact I]
  | |- all_calls _ (Ret _) => exact I
  | |- all_calls _ (Crash _) => exact I
  | |- all_calls _ (deref ?x) => destruct x; exact I
  | |- all_calls _ (match ?x with _ => _ end) => destruct x
  | |- all_calls _ (let (_, _) := ?x in _) => destruct x
  end.

Section ExecCalls.
Context `{Helpers}.

Lemma rangeEvents_all_calls (commandMap : gmap string DevfileCommand.t)
    (events : list string) (podName : string) :
  all_calls (fun c => is_command_execution c = true)
    (rangeEvents commandMap events podName).
Proof.
  induction events as [|commandName events IH]; simpl; [exact I|].
  repeat all_calls_step; assumption.
Qed.

Lemma rangeContainersSupervisord_all_calls (containerName podName : string)
    (containers : list Container.t) :
  forall err : option error,
    all_calls (fun c => is_exec_call c = true /\ is_dispatch c = false)
      (rangeContainersSupervisord containerName podName containers err).
Proof.
  induction containers as [|container containers IH]; intros err; simpl;
    [exact I|].
  repeat all_calls_step; apply IH.
Qed.

Lemma execDevfile_all_calls (a : Adapter) (commandsMap : PushCommandsMap)
    (componentExists show : bool) (podName : string)
    (containers : list Container.t) (isDebug : bool) :
  all_calls (fun c => is_exec_call c = true)
    (execDevfile a commandsMap componentExists show podName containers isDebug).
Proof.
  unfold execDevfile, execInitOrBuild, InitRunContainerSupervisord.
  repeat all_calls_step.
  all: try (eapply all_calls_impl;
            [|apply rangeContainersSupervisord_all_calls]; intros c [Hc _]; exact Hc).
Qed.

Lemma execDevfileEvent_all_calls (a : Adapter) (events : list string)
    (podName : string) :
  all_calls (fun c => is_command_execution c = true)
    (execDevfileEvent a events podName).
Proof. apply rangeEvents_all_calls. Qed.

End ExecCalls.

(** ** A forbidden check for the component *)

(** C5: as the code has it, when the check for the component fails with a
    forbidden error, [Delete] logs the error as a warning, deletes nothing
    and returns no error; [Push] does nothing more and returns the error,
    wrapped. *)
Theorem forbidden_existence_check `{Helpers} {W : Type} (h : handler W)
    (w w1 : W) (a : Adapter) (labels : gmap string string)
    (parameters : PushParameters.t) (componentExists : bool) (err : error) :
  h (ComponentExists (ComponentName a)) w = ((componentExists, Some err), w1) ->
  IsForbidden (Some err) = true ->
  (trace h (Delete a labels) w
   = [ Ev (ComponentExists (ComponentName a)) (componentExists, Some err);
       Ev (Logf LogWarning (Error_ err)) () ]
   /\ result h (Delete a labels) w = Returned None)
  /\ (trace h (Push a parameters) w
      = [ Ev (ComponentExists (ComponentName a)) (componentExists, Some err) ]
      /\ result h (Push a parameters) w
         = Returned (Some (Wrap err ("unable to determine if component "
                                     ++ ComponentName a ++ " exists")))).
Proof.
  intros Hcheck Hforbidden.
  unfold trace, result, Delete, Push. cbn. rewrite Hcheck. cbn.
  unfold IsForbidden in Hforbidden.
  destruct err as [msg|[| |] msg|cause msg]; try discriminate Hforbidden.
  cbn. run_step h. destruct r. cbn. repeat split; reflexivity.
Qed.

(** The check for the component "myapp" is forbidden. *)
Lemma forbidden_existence_check_witness :
  let h := Sample.handle (Sample.failing Sample.existence_forbidden
                            (Sample.cluster true)) in
  let a := Sample.adapter (Sample.devfile (Sample.devrun ∅) [] []) in
  (h (ComponentExists "myapp") 0%nat = ((true, Some Sample.forbidden), 1%nat)
   /\ IsForbidden (Some Sample.forbidden) = true)
  /\ result h (Delete a ∅) 0%nat = Returned None.
Proof.
  intros h a.
  assert (Hcheck : h (ComponentExists "myapp") 0%nat
                   = ((true, Some Sample.forbidden), 1%nat)) by reflexivity.
  split; [split; [exact Hcheck|reflexivity]|].
  exact (proj2 (proj1 (forbidden_existence_check h 0%nat 1%nat a ∅
                         Sample.pushParameters true Sample.forbidden
                         Hcheck eq_refl))).
Defined.

(** C5 as it is stated fails for [Push]: with a forbidden check for the
    component, [Push] returns an error, and logs no warning. *)
Lemma Push_forbidden_existence_check_aborts :
  let h := Sample.handle (Sample.failing Sample.existence_forbidden
                            (Sample.cluster true)) in
  let a := Sample.adapter (Sample.devfile (Sample.devrun ∅) [] []) in
  IsForbidden (snd (fst (h (ComponentExists (ComponentName a)) 0%nat))) = true
  /\ result h (Push a Sample.pushParameters) 0%nat
     = Returned (Some (Wrapped Sample.forbidden
                         "unable to determine if component myapp exists"))
  /\ result h (Push a Sample.pushParameters) 0%nat <> Returned None
  /\ calls (trace h (Push a Sample.pushParameters) 0%nat)
     = [ComponentExists "myapp"].
Proof.
  cbv zeta. split; [reflexivity|]. split; [vm_compute; reflexivity|].
  split; [vm_compute; discriminate|]. vm_compute. reflexivity.
Qed.

(** ** The postStart events *)


Lemma split_here {A : Type} (rest : list A) : rest = ([] ++ rest)%list.
Proof. reflexivity. Qed.

Lemma split_cons {A : Type} (x : A) (l before rest : list A) :
  l = (before ++ rest)%list -> x :: l = ((x :: before) ++ rest)%list.
Proof. now intros ->. Qed.

Lemma split_app {A : Type} (t l before rest : list A) :
  l = (before ++ rest)%list -> (t ++ l)%list = ((t ++ before) ++ rest)%list.
Proof. intros ->. now rewrite app_assoc. Qed.



Ltac push_cbn :=
  cbn -[createOrUpdateComponent execDevfileEvent execDevfile
        getFirstContainerWithSourceVolume Nat.ltb] in *.

Ltac absurd_event Hin :=
  match type of Hin with
  | ?ev ∈ ?t =>
      match goal with
      | Hf : Forall _ (ev_call <$> t) |- _ =>
          let Hx := fresh in
          pose proof (list_elem_of_fmap_2 ev_call _ _ Hin) as Hx;
          rewrite Forall_forall in Hf; apply Hf in Hx; cbn in Hx;
          first [discriminate Hx | destruct Hx; discriminate]
      end
  end.

Ltac mem_split Hin :=
  repeat first
    [ apply elem_of_nil in Hin; contradiction
    | apply elem_of_cons in Hin as [Hin|Hin];
      [try discriminate Hin;
       try (apply (f_equal ev_execRequired) in Hin; cbn in Hin; discriminate Hin)|]
    | apply elem_of_app in Hin as [Hin|Hin]; [try absurd_event Hin|]
    | absurd_event Hin ].

Ltac push_step h :=
  first
    [ run_step h
    | run_case
    | match goal with
      | |- context [match ValidateAndGetPushDevfileCommands ?a ?b ?c ?d with _ => _ end] =>
          destruct (ValidateAndGetPushDevfileCommands a b c d)
      | |- context [match ValidateAndGetDebugDevfileCommands ?a ?b with _ => _ end] =>
          destruct (ValidateAndGetDebugDevfileCommands a b)
      | |- context [if PushParameters.Debug ?p then _ else _] =>
          destruct (PushParameters.Debug p) eqn:?
      | |- context [getFirstContainerWithSourceVolume ?c] =>
          destruct (getFirstContainerWithSourceVolume c) as [[? ?] [?|]]
      | |- context [run h (bind (createOrUpdateComponent ?a ?e ?i) ?k) ?w] =>
          rewrite (run_bind h (createOrUpdateComponent a e i) k w);
          let Hc := fresh "Hreconcile" in
          let Hd := fresh "Hdeployed" in
          pose proof (createOrUpdateComponent_calls h w a e i) as [Hc Hd];
          unfold trace, result in Hc, Hd;
          destruct (run h (createOrUpdateComponent a e i) w) as [[? [[?|]|?]] ?]
      | |- context [run h (bind (execDevfile ?a ?m ?e ?s ?p ?c ?d) ?k) ?w] =>
          rewrite (run_bind h (execDevfile a m e s p c d) k w);
          let Hc := fresh "Hexec" in
          pose proof (all_calls_trace _ _ h (execDevfile_all_calls a m e s p c d) w)
            as Hc;
          unfold trace in Hc;
          destruct (run h (execDevfile a m e s p c d) w) as [[? [[?|]|?]] ?]
      | |- context [run h (bind (if (0 <? ?n)%nat then ?p else ?q) ?k) ?w] =>
          rewrite (run_bind h (if (0 <? n)%nat then p else q) k w);
          let Hc := fresh "Hevents" in
          assert (Hc : Forall (fun c => is_event_call c = true)
                         (calls (trace h (if (0 <? n)%nat then p else q) w)))
            by (apply all_calls_trace; destruct (0 <? n)%nat; [|exact I];
                split; [reflexivity|]; intros;
                eapply all_calls_impl; [|apply execDevfileEvent_all_calls];
                let c := fresh "c" in intros c ?; now destruct c);
          unfold trace in Hc;
          let Hp := fresh "Hpost" in
          destruct (run h (if (0 <? n)%nat then p else q) w)
            as [[? [[?|]|?]] ?] eqn:Hp
      end ];
  push_cbn.








(** The first push of the sample component executes the command of the
    postStart event, starts the supervisor and then dispatches the run
    command; a push of the component when it exists executes no event. *)
Example Push_sample_executions :
  let d := Sample.devfile (Sample.devrun ∅) ["DevRun"] [] in
  let first := trace (Sample.handle (Sample.cluster false))
                 (Push (Sample.adapter d) Sample.pushParameters) 0%nat in
  let again := trace (Sample.handle (Sample.cluster true))
                 (Push (Sample.adapter d) Sample.pushParameters) 0%nat in
  is_dispatch <$> filter (fun c => is_exec_call c = true) (calls first)
  = [false; false; true]
  /\ is_dispatch <$> filter (fun c => is_exec_call c = true) (calls again)
     = [true].
Proof. vm_compute. repeat split; reflexivity. Qed.
(** ** The container that receives the sources *)

Lemma rangeVolumeMounts_first `{Helpers} (mounts : list VolumeMount.t) :
  match rangeVolumeMounts mounts with
  | Some path =>
      exists mounts_before vol mounts_after,
        mounts = (mounts_before ++ vol :: mounts_after)%list
        /\ Forall (fun m => VolumeMount.Name m <> OdoSourceVolume) mounts_before
        /\ VolumeMount.Name vol = OdoSourceVolume
        /\ path = VolumeMount.MountPath vol
  | None => Forall (fun m => VolumeMount.Name m <> OdoSourceVolume) mounts
  end.
Proof.
  induction mounts as [|vol mounts IH]; simpl; [constructor|].
  case_bool_decide as Hname.
  - exists [], vol, mounts. repeat split; [constructor|exact Hname].
  - destruct (rangeVolumeMounts mounts) as [path|].
    + destruct IH as (mb & v & ma & -> & Hb & Hv & ->).
      exists (vol :: mb), v, ma. repeat split; [constructor; assumption|exact Hv].
    + constructor; assumption.
Qed.

(** X1: [getFirstContainerWithSourceVolume] gives the name of the first
    container, in the order of the pod, that mounts the source volume, with
    the path of the first such mount of that container; it gives an error,
    with an empty name and an empty path, exactly when no container mounts
    the source volume. *)
Theorem getFirstContainerWithSourceVolume_first `{Helpers}
    (containers : list Container.t) :
  let no_source (c : Container.t) :=
    Forall (fun m => VolumeMount.Name m <> OdoSourceVolume)
      (Container.VolumeMounts c) in
  match getFirstContainerWithSourceVolume containers with
  | (name, path, None) =>
      exists before c after mounts_before vol mounts_after,
        containers = (before ++ c :: after)%list
        /\ Forall no_source before
        /\ Container.VolumeMounts c = (mounts_before ++ vol :: mounts_after)%list
        /\ Forall (fun m => VolumeMount.Name m <> OdoSourceVolume) mounts_before
        /\ VolumeMount.Name vol = OdoSourceVolume
        /\ name = Container.Name c
        /\ path = VolumeMount.MountPath vol
  | (name, path, Some _) =>
      name = "" /\ path = "" /\ Forall no_source containers
  end.
Proof.
  intros no_source.
  induction containers as [|c containers IH]; simpl.
  { repeat split. constructor. }
  pose proof (rangeVolumeMounts_first (Container.VolumeMounts c)) as Hc.
  destruct (rangeVolumeMounts (Container.VolumeMounts c)) as [path|].
  - destruct Hc as (mb & vol & ma & Hm & Hb & Hv & ->).
    exists [], c, containers, mb, vol, ma.
    repeat split; [constructor|exact Hm|exact Hb|exact Hv].
  - destruct (getFirstContainerWithSourceVolume containers) as [[name path] [err|]].
    + destruct IH as (-> & -> & Hall). repeat split. constructor; assumption.
    + destruct IH as (before & c' & after & mb & vol & ma
                      & -> & Hbefore & Hm & Hb & Hv & -> & ->).
      exists (c :: before), c', after, mb, vol, ma.
      repeat split; [constructor; assumption|exact Hm|exact Hb|exact Hv].
Qed.

(** ** The ports of the containers *)

Lemma collectContainerPorts_from (containers : list Container.t)
    (acc : list ContainerPort.t) :
  fold_left
    (fun containerPorts c =>
       if (List.length containerPorts =? 0)%nat then Container.Ports c
       else (containerPorts ++ Container.Ports c)%list)
    containers acc
  = (acc ++ concat (Container.Ports <$> containers))%list.
Proof.
  revert acc. induction containers as [|c containers IH]; intros acc; simpl.
  - now rewrite app_nil_r.
  - rewrite IH. destruct acc as [|p acc]; simpl; [reflexivity|].
    now rewrite <- app_assoc.
Qed.

(** X2: the ports that [createOrUpdateComponent] collects for the Service
    are the ports of all the containers of the Deployment, in the order of
    the containers; the first container with ports is not treated in a way of
    its own. *)
Theorem collectContainerPorts_all (containers : list Container.t) :
  collectContainerPorts containers = concat (Container.Ports <$> containers).
Proof. unfold collectContainerPorts. now rewrite collectContainerPorts_from. Qed.
(** ** Tags of three components *)

Lemma Split_nonempty (s : string) (sep : ascii) : Split s sep <> [].
Proof.
  induction s as [|c s IH]; simpl; [discriminate|].
  destruct (Ascii.eqb c sep); [discriminate|].
  destruct (Split s sep); discriminate.
Qed.

Lemma Split_no_sep (s : string) (sep : ascii) :
  Count s sep = 0%nat -> Split s sep = [s].
Proof.
  induction s as [|c s IH]; simpl; [reflexivity|].
  destruct (Ascii.eqb c sep); [discriminate|]. simpl.
  intros Hs. now rewrite (IH Hs).
Qed.

Lemma Split_app_sep (s rest : string) (sep : ascii) :
  Count s sep = 0%nat ->
  Split (s ++ String sep rest) sep = s :: Split rest sep.
Proof.
  induction s as [|c s IH]; simpl.
  - now rewrite Ascii.eqb_refl.
  - destruct (Ascii.eqb c sep); [discriminate|]. simpl.
    intros Hs. now rewrite (IH Hs).
Qed.

(** X3: a tag [host/namespace/image] whose three parts hold no slash is
    accepted by [isInternalRegistry], and it is a tag of the internal registry
    exactly when the host is the host of the internal registry. *)
Theorem isInternalRegistry_host_namespace_image (host namespace image : string) :
  Count host slash = 0%nat ->
  Count namespace slash = 0%nat ->
  Count image slash = 0%nat ->
  isInternalRegistry (host ++ "/" ++ namespace ++ "/" ++ image)
  = (bool_decide (host = internalRegistryHost), None).
Proof.
  intros Hh Hn Hi. unfold isInternalRegistry.
  change (host ++ "/" ++ namespace ++ "/" ++ image)
    with (host ++ String slash (namespace ++ String slash image)).
  rewrite (Split_app_sep _ _ _ Hh), (Split_app_sep _ _ _ Hn), (Split_no_sep _ _ Hi).
  cbn [List.length Nat.eqb negb lookup list_lookup].
  repeat case_bool_decide; try reflexivity; simplify_eq; congruence.
Qed.

Lemma isInternalRegistry_host_namespace_image_witness :
  (Count internalRegistryHost slash = 0%nat
   /\ Count "myproject" slash = 0%nat
   /\ Count "myapp:latest" slash = 0%nat)
  /\ isInternalRegistry
       (internalRegistryHost ++ "/" ++ "myproject" ++ "/" ++ "myapp:latest")
     = (true, None).
Proof.
  split; [repeat split|].
  exact (isInternalRegistry_host_namespace_image internalRegistryHost "myproject"
           "myapp:latest" eq_refl eq_refl eq_refl).
Defined.
(** ** The start of supervisord *)

Lemma rangeContainersSupervisord_run `{Helpers} {W : Type} (h : handler W)
    (containerName podName : string) (containers : list Container.t)
    (err : option error) (w : W) :
  let p := rangeContainersSupervisord containerName podName containers err in
  let compInfo :=
    {| ComponentInfo.ContainerName := containerName;
       ComponentInfo.PodName := podName; ComponentInfo.SourceMount := "" |} in
  calls (trace h p w)
  = replicate
      (List.length
         (filter (fun c => Container.Name c = containerName
                           /\ Container.Command c <> [SupervisordBinaryPath])
                 containers))
      (ExecuteCommand compInfo
         [SupervisordBinaryPath; "-c"; SupervisordConfFile; "-d"] true)
  /\ result h p w
     = Returned (match last (trace h p w) with
                 | Some ev => ev_error ev
                 | None => err
                 end).
Proof.
  cbv zeta. unfold trace, result.
  revert err w. induction containers as [|c containers IH]; intros err w.
  { split; reflexivity. }
  cbn [rangeContainersSupervisord].
  rewrite filter_cons.
  destruct (decide (Container.Name c = containerName
                    /\ Container.Command c <> [SupervisordBinaryPath]))
    as [[Hn Hc]|Hno].
  - rewrite bool_decide_eq_true_2 by exact Hn.
    rewrite bool_decide_eq_false_2 by exact Hc.
    cbn. destruct (h _ w) as [r w1] eqn:Hr. cbn [resp] in r.
    specialize (IH r w1).
    destruct (run h (rangeContainersSupervisord containerName podName containers r) w1)
      as [[tr out] w2].
    cbn in *. destruct IH as [IHc IHr]. split; [now rewrite IHc|].
    rewrite IHr, (last_cons _ tr). destruct (last tr); reflexivity.
  - assert (Hb : bool_decide (Container.Name c = containerName)
                 && negb (bool_decide (Container.Command c = [SupervisordBinaryPath]))
                 = false).
    { apply andb_false_iff. rewrite negb_false_iff.
      rewrite bool_decide_eq_false, bool_decide_eq_true.
      destruct (decide (Container.Name c = containerName)); [|tauto].
      destruct (decide (Container.Command c = [SupervisordBinaryPath])); tauto. }
    rewrite Hb. apply IH.
Qed.

(** X4: [InitRunContainerSupervisord] starts supervisord once in every
    container of the pod that has the name of the component of the command
    and whose command is not supervisord already, and in no other; it returns
    what the last of these starts returned, so that the failure of a start is
    lost when a later start succeeds, and nil when it starts nothing. *)
Theorem InitRunContainerSupervisord_keeps_last_error `{Helpers} {W : Type}
    (h : handler W) (w : W) (a : Adapter) (containerName podName : string)
    (containers : list Container.t) :
  let p := InitRunContainerSupervisord a containerName podName containers in
  let compInfo :=
    {| ComponentInfo.ContainerName := containerName;
       ComponentInfo.PodName := podName; ComponentInfo.SourceMount := "" |} in
  calls (trace h p w)
  = replicate
      (List.length
         (filter (fun c => Container.Name c = containerName
                           /\ Container.Command c <> [SupervisordBinaryPath])
                 containers))
      (ExecuteCommand compInfo
         [SupervisordBinaryPath; "-c"; SupervisordConfFile; "-d"] true)
  /\ result h p w
     = Returned (match last (trace h p w) with
                 | Some ev => ev_error ev
                 | None => None
                 end).
Proof. apply rangeContainersSupervisord_run. Qed.
(** ** The commands of an event *)

(** ** Errors of a build *)





(** ** A build with a tag that is not valid *)

(** X7: with a tag that does not have three components, among them the empty
    tag, [Build] asks the cluster for nothing but the client and the support
    of BuildConfig: it creates no secret, starts no strategy, and returns an
    error, which is the error about the tag when these two calls succeeded. *)
Theorem Build_invalid_tag_creates_nothing `{Helpers} {W : Type} (h : handler W)
    (w : W) (a : Adapter) (parameters : BuildParameters.t) :
  let tag := BuildParameters.Tag parameters in
  let tr := trace h (Build a parameters) w in
  List.length (Split tag slash) <> 3%nat ->
  (calls tr = [OcclientNew] \/ calls tr = [OcclientNew; IsBuildConfigSupported])
  /\ exists err,
       result h (Build a parameters) w = Returned (Some err)
       /\ (Forall (fun ev => ev_error ev = None) tr ->
           List.length tr = 2%nat
           /\ err = ErrorString ("Invalid image tag '" ++ tag
                                 ++ "', must contain 3 components")).
Proof.
  intros tag tr Htag. subst tr.
  unfold trace, result, Build, isInternalRegistry. fold tag.
  destruct (Nat.eqb_spec (List.length (Split tag slash)) 3) as [E|_];
    [contradiction|].
  run_all h.
  all: split; [auto|].
  all: eexists; split; [reflexivity|].
  all: rewrite ?Forall_cons, ?Forall_nil; cbn.
  all: intros ?; intuition congruence.
Qed.

Lemma Build_invalid_tag_creates_nothing_witness :
  let h := Sample.handle (Sample.cluster false) in
  let a := Sample.adapter (Sample.devfile (Sample.devrun ∅) [] []) in
  let p := Sample.buildParameters "" false in
  List.length (Split "" slash) <> 3%nat
  /\ calls (trace h (Build a p) 0%nat) = [OcclientNew; IsBuildConfigSupported]
  /\ result h (Build a p) 0%nat
     = Returned (Some (ErrorString "Invalid image tag '', must contain 3 components")).
Proof.
  intros h a p.
  assert (Htag : List.length (Split (BuildParameters.Tag p) slash) <> 3%nat)
    by (vm_compute; discriminate).
  split; [exact Htag|].
  destruct (Build_invalid_tag_creates_nothing h 0%nat a p Htag)
    as [_ (err & Hres & Herr)].
  split; [reflexivity|].
  rewrite Hres. f_equal. f_equal.
  apply Herr. vm_compute. repeat constructor.
Defined.

(** ** The BuildConfig that a build creates *)

Lemma runKaniko_no_build_config `{Helpers} {W : Type} (h : handler W) (w : W)
    (a : Adapter) (parameters : BuildParameters.t) (isImageRegistryInternal : bool) :
  Forall (fun c => is_CreateBuildConfig c = false)
    (calls (trace h (runKaniko a parameters isImageRegistryInternal) w)).
Proof.
  unfold trace, runKaniko, createKanikoBuilderPod.
  run_all h.
  all: repeat constructor.
Qed.

Lemma runBuildConfig_build_config `{Helpers} {W : Type} (h : handler W) (w : W)
    (a : Adapter) (parameters : BuildParameters.t) (isImageRegistryInternal : bool)
    (meta : ObjectMeta.t) (dockerfile tag : string) (envVars : list EnvVar.t)
    (buildOutput secretName : string) :
  BuildParameters.Tag parameters <> "" ->
  CreateDockerBuildConfigWithBinaryInput meta dockerfile tag envVars buildOutput
    secretName
  ∈ calls (trace h (runBuildConfig a parameters isImageRegistryInternal) w) ->
  ObjectMeta.Name meta = ComponentName a
  /\ dockerfile = "Dockerfile"
  /\ tag = BuildParameters.Tag parameters
  /\ envVars = []
  /\ buildOutput = "DockerImage"
  /\ secretName = (if isImageRegistryInternal then "" else regcredName).
Proof.
  intros Htag. unfold trace, runBuildConfig.
  rewrite bool_decide_eq_false_2 by exact Htag.
  destruct isImageRegistryInternal.
  all: run_all h.
  all: intros Hin; calls_mem Hin.
  all: injection Hin as -> -> -> -> -> ->; repeat split.
Qed.

(** X8: the BuildConfig that [Build] creates has the name of the component,
    reads the Dockerfile, and pushes to the tag of the parameters as a
    DockerImage (never to an ImageStreamTag); its push secret is regcred
    when the registry of the tag is not the internal one, and it has none
    otherwise; and with the push secret regcred, a secret of that name was
    created before, in the namespace of the environment. *)
Theorem Build_build_config_pushes_to_tag `{Helpers} {W : Type} (h : handler W)
    (w : W) (a : Adapter) (parameters : BuildParameters.t)
    (meta : ObjectMeta.t) (dockerfile tag : string) (envVars : list EnvVar.t)
    (buildOutput secretName : string) :
  let tr := trace h (Build a parameters) w in
  let ns := EnvSpecificInfo.GetNamespace (BuildParameters.EnvSpecificInfo parameters) in
  CreateDockerBuildConfigWithBinaryInput meta dockerfile tag envVars buildOutput
    secretName ∈ calls tr ->
  ObjectMeta.Name meta = ComponentName a
  /\ dockerfile = "Dockerfile"
  /\ tag = BuildParameters.Tag parameters
  /\ envVars = []
  /\ buildOutput = "DockerImage"
  /\ secretName
     = (if fst (isInternalRegistry tag) then "" else regcredName)
  /\ (secretName = regcredName ->
      exists data secret before after,
        tr = (before ++ Ev (CreateSecret regcredName ns data) (inr secret)
                     :: Ev (DynamicCreate secretGroupVersionResource ns secret) None
                     :: after)%list
        /\ CreateDockerBuildConfigWithBinaryInput meta dockerfile tag envVars
             buildOutput secretName ∈ calls after).
Proof.
  intros tr ns. subst tr.
  unfold trace, Build, createDockerConfigSecret.
  cbn -[runBuildConfig runKaniko].
  assert (Hne : snd (isInternalRegistry (BuildParameters.Tag parameters)) = None ->
                BuildParameters.Tag parameters <> "").
  { intros Hok Hempty. rewrite Hempty in Hok. discriminate Hok. }
  destruct (isInternalRegistry (BuildParameters.Tag parameters))
    as [internal [tagErr|]] eqn:Htag; cbn [snd] in Hne.
  all: destruct internal.
  all: repeat (first [run_step h | run_case]; cbn -[runBuildConfig runKaniko]).
  all: try (intros Hin; calls_mem Hin; fail).
  all: destruct (_ && negb _).
  all: match goal with
       | |- context [run ?h (runKaniko ?a ?p ?i) ?w] =>
           pose proof (runKaniko_no_build_config h w a p i) as Hk;
           unfold trace in Hk;
           destruct (run h (runKaniko a p i) w) as [[tr' out'] w'']
       | |- context [run ?h (runBuildConfig ?a ?p ?i) ?w] =>
           pose proof (fun Hin =>
                         runBuildConfig_build_config h w a p i meta dockerfile tag
                           envVars buildOutput secretName (Hne eq_refl) Hin) as Hb;
           unfold trace in Hb;
           destruct (run h (runBuildConfig a p i) w) as [[tr' out'] w'']
       end.
  all: cbn [fst snd] in *.
  all: intros Hin.
  all: assert (Hin' : CreateDockerBuildConfigWithBinaryInput meta dockerfile tag
                        envVars buildOutput secretName ∈ calls tr')
         by (unfold calls in *; cbn in Hin;
             repeat (apply elem_of_cons in Hin as [Hin|Hin];
                     [discriminate Hin|]); exact Hin).
  all: try (rewrite Forall_forall in Hk; apply Hk in Hin'; discriminate Hin').
  all: destruct (Hb Hin') as (Hname & -> & -> & -> & -> & ->).
  all: rewrite Htag; cbn [fst].
  all: repeat (split; [first [exact Hname | reflexivity]|]).
  all: try (intros Hs; discriminate Hs).
  all: intros _.
  all: match goal with
       | |- context [Ev (CreateSecret _ _ ?d) (inr ?s)] =>
           exists d, s
       end.
  all: eexists [_; _; _], tr'.
  all: split; [reflexivity|exact Hin'].
Qed.

Lemma Build_build_config_pushes_to_tag_witness :
  let h := Sample.handle (Sample.cluster false) in
  let a := Sample.adapter (Sample.devfile (Sample.devrun ∅) [] []) in
  let p := Sample.buildParameters "quay.io/dev/myapp:1.0" false in
  let meta :=
    {| ObjectMeta.Name := "myapp"; ObjectMeta.Namespace := "";
       ObjectMeta.Labels := ∅; ObjectMeta.Annotations := ∅;
       ObjectMeta.OwnerReferences := []; ObjectMeta.ResourceVersion := "" |} in
  CreateDockerBuildConfigWithBinaryInput meta "Dockerfile" "quay.io/dev/myapp:1.0"
    [] "DockerImage" "regcred" ∈ calls (trace h (Build a p) 0%nat)
  /\ "regcred"
     = (if fst (isInternalRegistry "quay.io/dev/myapp:1.0") then "" else regcredName).
Proof.
  intros h a p meta.
  assert (Hin : CreateDockerBuildConfigWithBinaryInput meta "Dockerfile"
                  "quay.io/dev/myapp:1.0" [] "DockerImage" "regcred"
                ∈ calls (trace h (Build a p) 0%nat)).
  { apply (list_elem_of_lookup_2 _ 6%nat). vm_compute. reflexivity. }
  split; [exact Hin|].
  apply (Build_build_config_pushes_to_tag h 0%nat a p _ _ _ _ _ _ Hin).
Defined.
(** ** The interruption of a build *)

(** X9: once the signal has arrived, [terminateBuild] asks once for the
    deletion of the BuildConfig it was given, and then ends the process with
    the exit code 0, whether the deletion succeeded or not; the error of a
    deletion that failed is only logged. *)
Theorem terminateBuild_exits `{Helpers} {W : Type} (h : handler W) (w : W)
    (commonObjectMeta : ObjectMeta.t) :
  let tr := trace h (terminateBuild commonObjectMeta) w in
  result h (terminateBuild commonObjectMeta) w = Crashed (OsExit 0)
  /\ filter (fun c => is_DeleteBuildConfig c = true) (calls tr)
     = [DeleteBuildConfig commonObjectMeta]
  /\ exists derr,
       tr !! 1%nat = Some (Ev (DeleteBuildConfig commonObjectMeta) derr)
       /\ match derr with
          | Some err =>
              calls (drop 2 tr) = [Logf LogInfo ("
" ++ Error_ err)]
          | None => drop 2 tr = []
          end.
Proof.
  unfold trace, result, terminateBuild.
  run_all h.
  all: repeat split.
  all: eexists; split; reflexivity.
Qed.

(** ** The deletion of a component *)

(** X10: [Delete] asks for the deletion of the Deployment exactly when the
    check for the component succeeded and said that the component exists,
    once, with the labels it was given, and it then returns what the deletion
    returned, not wrapped; for a component that does not exist it deletes
    nothing and returns nil; and when the check failed with an error that is
    not a forbidden one, it deletes nothing and returns that error, wrapped. *)
Theorem Delete_deletes_existing_component `{Helpers} {W : Type} (h : handler W)
    (w : W) (a : Adapter) (labels : gmap string string) :
  let tr := trace h (Delete a labels) w in
  let out := result h (Delete a labels) w in
  exists (componentExists : bool) (err : option error) (rest : list event),
    tr = Ev (ComponentExists (ComponentName a)) (componentExists, err) :: rest
    /\ match err with
       | Some e =>
           Forall (fun c => exists level msg, c = Logf level msg) (calls rest)
           /\ out = Returned
                      (if IsForbidden err then None
                       else Some (Wrapped e ("unable to determine if component "
                                             ++ ComponentName a ++ " exists")))
       | None =>
           if componentExists then
             exists derr rest',
               rest = Ev (DeleteDeployment labels) derr :: rest'
               /\ Forall (fun c => exists level msg, c = Logf level msg)
                    (calls rest')
               /\ out = Returned derr
           else
             Forall (fun c => exists level msg, c = Logf level msg) (calls rest)
             /\ out = Returned None
       end.
Proof.
  unfold trace, result, Delete.
  cbn. destruct (h _ w) as [[componentExists err] w1] eqn:Hr.
  exists componentExists, err.
  destruct err as [e|]; [destruct (IsForbidden (Some e)) eqn:Hf|].
  all: cbn in *; rewrite ?Hf; try destruct componentExists.
  all: run_all h.
  all: eexists; split; [reflexivity|].
  all: try (split; [repeat constructor; eauto|reflexivity]).
  all: eexists _, _; split; [reflexivity|].
  all: split; [repeat constructor; eauto|reflexivity].
Qed.
(** ** The dispatch of the Run or Debug command *)




(** ** The Init command *)


(** ** The request for the Service *)

Lemma volume_calls_no_service (t : list event) :
  Forall (fun c => is_volume_call c = true) (calls t) ->
  filter (fun c => is_service_request c = true) (calls t) = []
  /\ omap ev_service t = []
  /\ Forall (fun ev => is_deployment_request (ev_call ev) = false) t.
Proof.
  unfold calls. induction t as [|[c r] t IH]; [repeat split; constructor|].
  rewrite fmap_cons, Forall_cons. cbn [ev_call]. intros [Hc Ht].
  destruct (IH Ht) as (IH1 & IH2 & IH3).
  destruct c; try discriminate Hc.
  all: rewrite filter_cons; cbn; rewrite IH1, IH2.
  all: repeat split; constructor; [reflexivity|exact IH3].
Qed.

(** X13: in a run of [createOrUpdateComponent] in which the request for the
    Deployment succeeded, what is asked about the Service depends on the
    ports of the containers and on the Service that the lookup found (none
    is looked up for a component that did not exist): with ports, the Service
    that was found is updated, with its cluster IP and resource version, and
    a Service is created when none was found; without ports, the Service
    that was found is deleted, and nothing is asked when none was found. At
    most one request is made, and a Service that is created or updated has
    the Deployment that the cluster returned as its last owner. *)
Theorem createOrUpdateComponent_service_request `{Helpers} {W : Type}
    (h : handler W) (w : W) (a : Adapter) (componentExists : bool)
    (ei : EnvSpecificInfo.t) (deploymentSpec : DeploymentSpec.t)
    (deployment : Deployment.t) :
  let tr := trace h (createOrUpdateComponent a componentExists ei) w in
  let desired :=
    GenerateServiceSpec (ObjectMeta.Name (componentObjectMeta a))
      (collectContainerPorts
         (PodSpec.Containers
            (PodTemplateSpec.Spec (DeploymentSpec.Template deploymentSpec)))) in
  let owned :=
    ObjectMeta.set_OwnerReferences
      (ObjectMeta.OwnerReferences (componentObjectMeta a)
       ++ [GenerateOwnerReference deployment])%list (componentObjectMeta a) in
  Ev (UpdateDeployment deploymentSpec) (inr deployment) ∈ tr
  \/ Ev (CreateDeployment deploymentSpec) (inr deployment) ∈ tr ->
  filter (fun c => is_service_request c = true) (calls tr)
  = match ServiceSpec.Ports desired, head (omap ev_service tr) with
    | _ :: _, Some oldSvc =>
        [UpdateService
           (ObjectMeta.set_ResourceVersion (Service.GetResourceVersion oldSvc) owned)
           (ServiceSpec.set_ClusterIP (ServiceSpec.ClusterIP (Service.Spec oldSvc))
              desired)]
    | _ :: _, None => [CreateService owned desired]
    | [], Some _ => [ServicesDelete (Client_Namespace a) (ComponentName a)]
    | [], None => []
    end
  /\ (componentExists = false -> omap ev_service tr = []).
Proof.
  intros tr desired owned Hdep. subst tr.
  destruct (createOrUpdateComponent_shape h w a componentExists ei)
    as (t_loop & t_rest & Heq & Hloop & Hrest).
  rewrite Heq in *. clear Heq.
  destruct (volume_calls_no_service t_loop Hloop) as (Hf & Hs & Hd).
  unfold calls. rewrite fmap_app, filter_app, omap_app. fold (calls t_loop).
  rewrite Hf, Hs. cbn [app].
  assert (Hdep' : Ev (UpdateDeployment deploymentSpec) (inr deployment) ∈ t_rest
                  \/ Ev (CreateDeployment deploymentSpec) (inr deployment) ∈ t_rest).
  { rewrite Forall_forall in Hd.
    destruct Hdep as [Hin|Hin]; apply elem_of_app in Hin as [Hin|Hin]; auto.
    all: apply Hd in Hin; discriminate Hin. }
  clear Hdep Hloop Hf Hs Hd.
  destruct Hrest as [[-> _]|(st & w1 & deploymentSpec' & _ & -> & _)].
  { destruct Hdep' as [Hin|Hin]; apply elem_of_nil in Hin; contradiction. }
  revert Hdep'. unfold trace, applyDeploymentAndService.
  destruct componentExists; cbn.
  all: destruct (ServiceSpec.Ports
                   (GenerateServiceSpec (ObjectMeta.Name (componentObjectMeta a))
                      (collectContainerPorts
                         (PodSpec.Containers
                            (PodTemplateSpec.Spec
                               (DeploymentSpec.Template deploymentSpec'))))))
         as [|port ports] eqn:Hp.
  all: cbn.
  all: run_all h.
  all: intros [Hin|Hin].
  all: repeat (apply elem_of_cons in Hin as [Hin|Hin]; [try discriminate Hin|]);
       try (apply elem_of_nil in Hin; contradiction).
  all: pose proof (f_equal ev_call Hin) as Hc; cbn in Hc; injection Hc as ->.
  all: apply (f_equal ev_deployment) in Hin; cbn in Hin; try discriminate Hin.
  all: injection Hin as ->.
  all: subst desired owned; rewrite Hp.
  all: repeat (case_decide; try congruence).
  all: split; [reflexivity|first [reflexivity | discriminate]].
Qed.

(** The first push of the sample component, whose container has a port: a
    Service is created, owned by the Deployment that was created. *)
Lemma createOrUpdateComponent_service_request_witness :
  let d := Sample.devfile (Sample.devrun ∅) [] [] in
  let a := Sample.adapter d in
  let spec := Sample.deploymentSpec d in
  let deployment :=
    {| Deployment.ObjectMeta :=
         PodTemplateSpec.ObjectMeta (DeploymentSpec.Template spec);
       Deployment.Spec := spec |} in
  let tr := trace (Sample.handle (Sample.cluster false))
              (createOrUpdateComponent a false Sample.ei) 0%nat in
  (Ev (UpdateDeployment spec) (inr deployment) ∈ tr
   \/ Ev (CreateDeployment spec) (inr deployment) ∈ tr)
  /\ exists objectMeta serviceSpec,
       filter (fun c => is_service_request c = true) (calls tr)
       = [CreateService objectMeta serviceSpec]
       /\ last (ObjectMeta.OwnerReferences objectMeta)
          = Some {| OwnerReference.APIVersion := "apps/v1";
                    OwnerReference.Kind := "Deployment";
                    OwnerReference.Name := "myapp";
                    OwnerReference.UID := "uid-1" |}.
Proof.
  intros d a spec deployment tr.
  assert (Hdep : Ev (UpdateDeployment spec) (inr deployment) ∈ tr
                 \/ Ev (CreateDeployment spec) (inr deployment) ∈ tr).
  { right. apply (list_elem_of_lookup_2 _ 0%nat). vm_compute. reflexivity. }
  split; [exact Hdep|].
  destruct (createOrUpdateComponent_service_request
              (Sample.handle (Sample.cluster false)) 0%nat a false Sample.ei
              spec deployment Hdep) as [Hreq _].
  eexists _, _. split; [exact Hreq|]. vm_compute. reflexivity.
Defined.
(** ** A push whose configuration cannot be applied *)

(** X14: when the application of the configuration to the component fails,
    [Push] ends the process with the exit code 1: by then the Deployment has
    been created or updated and rolled out, and no file is synchronised and
    no command is executed. *)
Theorem Push_apply_config_failure_exits `{Helpers} {W : Type} (h : handler W)
    (w : W) (a : Adapter) (parameters : PushParameters.t)
    (ei : EnvSpecificInfo.t) (componentExists : bool) (err : error) :
  let tr := trace h (Push a parameters) w in
  Ev (ApplyConfig ei componentExists) (Some err) ∈ tr ->
  result h (Push a parameters) w = Crashed (OsExit 1)
  /\ (exists ev, ev ∈ tr /\ is_deployment_request (ev_call ev) = true
                 /\ ev_error ev = None)
  /\ Ev (WaitForDeploymentRollout (ComponentName a)) None ∈ tr
  /\ Forall (fun c => is_exec_call c = false
                      /\ forall sp, c <> SyncFiles sp) (calls tr).
Proof.
  intros tr Hin. revert Hin. subst tr.
  unfold trace, result, Push.
  push_cbn.
  repeat push_step h.
  all: unfold calls in *.
  all: try (intros Hin; mem_split Hin; fail).
  all: intros Hin; mem_split Hin.
  all: pose proof (f_equal ev_error Hin) as Herr; cbn in Herr;
       try discriminate Herr; clear Herr Hin.
  all: split; [reflexivity|].
  all: split;
       [destruct (Hdeployed eq_refl) as (ev & Hev & Hreq & Hok); exists ev;
        split; [|split; assumption];
        repeat apply list_elem_of_further; apply elem_of_app; left; exact Hev|].
  all: split;
       [repeat apply list_elem_of_further; apply elem_of_app; right;
        apply list_elem_of_here|].
  all: repeat first
         [ apply Forall_nil_2
         | apply Forall_cons_2; [split; [reflexivity|discriminate]|]
         | rewrite fmap_cons
         | rewrite fmap_app; apply Forall_app_2
         | eapply Forall_impl; [eassumption|];
           let c := fresh "c" in
           intros c ?; destruct c; try discriminate;
           (split; [reflexivity|discriminate]) ].
Qed.

(** The first push of the sample component, on a cluster where the
    configuration cannot be applied: the process exits. *)
Lemma Push_apply_config_failure_exits_witness :
  let h := Sample.handle (Sample.failing Scenario.apply_config_fails
                            (Sample.cluster false)) in
  let a := Sample.adapter (Sample.devfile (Sample.devrun ∅) [] []) in
  Ev (ApplyConfig Sample.ei false)
     (Some (ErrorString "unable to apply the configuration"))
    ∈ trace h (Push a Sample.pushParameters) 0%nat
  /\ result h (Push a Sample.pushParameters) 0%nat = Crashed (OsExit 1).
Proof.
  intros h a.
  assert (Hin : Ev (ApplyConfig Sample.ei false)
                   (Some (ErrorString "unable to apply the configuration"))
                  ∈ trace h (Push a Sample.pushParameters) 0%nat).
  { apply (list_elem_of_lookup_2 _ 8%nat). vm_compute. reflexivity. }
  split; [exact Hin|].
  exact (proj1 (Push_apply_config_failure_exits h 0%nat a Sample.pushParameters
                  Sample.ei false _ Hin)).
Defined.
(** ** What a push asks of the synchronisation *)

Ltac sync_step h :=
  first
    [ match goal with
      | |- context [getFirstContainerWithSourceVolume ?c] =>
          destruct (getFirstContainerWithSourceVolume c) as [[? ?] [?|]] eqn:?
      end; push_cbn
    | push_step h ].


(** X15: when [Push] synchronises the files, it does so with the parameters
    of the push, in which a debug push forces the build; for the pod that the
    wait after the rollout returned, in the first of its containers that
    mounts the source volume; with the answer of the check for the component;
    and the pod counts as changed exactly when the component existed and the
    pod that was waited for before the reconciliation has another name. *)
Theorem Push_sync_parameters `{Helpers} {W : Type} (h : handler W) (w : W)
    (a : Adapter) (parameters : PushParameters.t) (sp : SyncParameters.t)
    (r : error + bool) :
  let tr := trace h (Push a parameters) w in
  let componentExists := SyncParameters.ComponentExists sp in
  let compInfo := SyncParameters.CompInfo sp in
  let wait :=
    WaitAndGetPod ("component=" ++ ComponentName a) PodRunning
      "Waiting for component to start" true in
  Ev (SyncFiles sp) r ∈ tr ->
  SyncParameters.PushParams sp
  = (if PushParameters.Debug parameters
     then PushParameters.set_ForceBuild true parameters else parameters)
  /\ tr !! 0%nat
     = Some (Ev (ComponentExists (ComponentName a)) (componentExists, None))
  /\ exists pod before log after,
       tr = (before ++ Ev wait (inr pod)
                    :: Ev (ApplyConfig (PushParameters.EnvSpecificInfo parameters)
                             componentExists) None
                    :: log :: Ev (SyncFiles sp) r :: after)%list
       /\ ComponentInfo.PodName compInfo = Pod.GetName pod
       /\ getFirstContainerWithSourceVolume (PodSpec.Containers (Pod.Spec pod))
          = (ComponentInfo.ContainerName compInfo,
             ComponentInfo.SourceMount compInfo, None)
       /\ if componentExists then
            exists pod0,
              tr !! 1%nat = Some (Ev wait (inr pod0))
              /\ SyncParameters.PodChanged sp
                 = negb (bool_decide (Pod.GetName pod0 = Pod.GetName pod))
          else SyncParameters.PodChanged sp = false.
Proof.
  intros tr componentExists compInfo wait Hin. revert Hin.
  subst tr componentExists compInfo wait.
  unfold trace, Push.
  push_cbn.
  repeat sync_step h.
  all: unfold calls in *.
  all: try (intros Hin; mem_split Hin; fail).
  all: intros Hin; mem_split Hin.
  all: pose proof (f_equal ev_call Hin) as Hsp;
       pose proof (f_equal ev_synced Hin) as Hr;
       cbn in Hsp, Hr; injection Hsp as ->; injection Hr as ->; clear Hin.
  all: cbn [SyncParameters.PushParams SyncParameters.CompInfo
            SyncParameters.ComponentExists SyncParameters.PodChanged
            ComponentInfo.PodName ComponentInfo.ContainerName
            ComponentInfo.SourceMount].
  all: split; [reflexivity|].
  all: split; [reflexivity|].
  all: match goal with
       | Hg : getFirstContainerWithSourceVolume (PodSpec.Containers (Pod.Spec ?p))
              = _ |- _ => exists p
       end.
  all: eexists _, _, _.
  all: split;
       [repeat first [apply split_here | apply split_cons | apply split_app]|].
  all: split; [reflexivity|].
  all: split; [assumption|].
  all: try reflexivity.
  all: eexists; split; reflexivity.
Qed.

(** A push of the sample component when it exists and its pod is the same
    before and after the rollout: the pod does not count as changed. *)
Lemma Push_sync_parameters_witness :
  let h := Sample.handle (Sample.cluster true) in
  let a := Sample.adapter (Sample.devfile (Sample.devrun ∅) [] []) in
  Ev (SyncFiles Scenario.syncParameters_again) (inr true)
    ∈ trace h (Push a Sample.pushParameters) 0%nat
  /\ trace h (Push a Sample.pushParameters) 0%nat !! 0%nat
     = Some (Ev (ComponentExists "myapp") (true, None)).
Proof.
  intros h a.
  assert (Hin : Ev (SyncFiles Scenario.syncParameters_again) (inr true)
                  ∈ trace h (Push a Sample.pushParameters) 0%nat).
  { apply (list_elem_of_lookup_2 _ 12%nat). vm_compute. reflexivity. }
  split; [exact Hin|].
  exact (proj1 (proj2 (Push_sync_parameters h 0%nat a Sample.pushParameters
                         Scenario.syncParameters_again (inr true) Hin))).
Defined.
(** ** A push of a devfile that is not valid *)

Lemma createOrUpdateComponent_no_containers `{Helpers} {W : Type}
    (h : handler W) (w : W) (a : Adapter) (componentExists : bool)
    (ei : EnvSpecificInfo.t) :
  (exists err, GetContainers (Devfile a) = inl err)
  \/ GetContainers (Devfile a) = inr [] ->
  exists err,
    run h (createOrUpdateComponent a componentExists ei) w
    = ([], Returned (Some err), w).
Proof.
  unfold createOrUpdateComponent.
  intros [[err ->]| ->]; eexists; reflexivity.
Qed.

(** X16: [Push] finds out that the devfile is not valid before it changes
    anything: when the validation of the commands of the push fails, or, in
    debug mode, the validation of the debug command, or when the devfile has
    no container (or its containers cannot be computed), [Push] returns an
    error and has asked the cluster for nothing but the check for the
    component and, if the component exists, the wait for its pod. *)
Theorem Push_invalid_devfile_changes_nothing `{Helpers} {W : Type}
    (h : handler W) (w : W) (a : Adapter) (parameters : PushParameters.t) :
  let tr := trace h (Push a parameters) w in
  (exists err,
     ValidateAndGetPushDevfileCommands (Devfile a)
       (PushParameters.DevfileInitCmd parameters)
       (PushParameters.DevfileBuildCmd parameters)
       (PushParameters.DevfileRunCmd parameters) = inl err)
  \/ (PushParameters.Debug parameters = true
      /\ exists err,
           ValidateAndGetDebugDevfileCommands (Devfile a)
             (PushParameters.DevfileDebugCmd parameters) = inl err)
  \/ (exists err, GetContainers (Devfile a) = inl err)
  \/ GetContainers (Devfile a) = inr [] ->
  Forall (fun c => match c with
                   | ComponentExists _ | WaitAndGetPod _ _ _ _ | Logf _ _ => True
                   | _ => False
                   end) (calls tr)
  /\ exists err, result h (Push a parameters) w = Returned (Some err).
Proof.
  intros tr Hinvalid. subst tr.
  unfold trace, result, Push.
  push_cbn.
  repeat first
    [ run_step h; push_cbn
    | run_case; push_cbn
    | match goal with
      | |- context [match ValidateAndGetPushDevfileCommands ?a ?b ?c ?d with _ => _ end] =>
          destruct (ValidateAndGetPushDevfileCommands a b c d) eqn:?
      | |- context [match ValidateAndGetDebugDevfileCommands ?a ?b with _ => _ end] =>
          destruct (ValidateAndGetDebugDevfileCommands a b) eqn:?
      | |- context [if PushParameters.Debug ?p then _ else _] =>
          destruct (PushParameters.Debug p) eqn:?
      end; push_cbn ].
  all: try (split; [repeat constructor|eexists; reflexivity]).
  all: destruct Hinvalid as [[err Hv]|[[Hd [err Hv]]|Hc]]; try congruence.
  all: match goal with
       | |- context [run ?hh (bind (createOrUpdateComponent ?a' ?e ?i) ?k) ?w'] =>
           rewrite (run_bind hh (createOrUpdateComponent a' e i) k w');
           destruct (createOrUpdateComponent_no_containers hh w' a' e i Hc)
             as [err' ->]
       end.
  all: cbn; split; [repeat constructor|eexists; reflexivity].
Qed.

(** The first push of a devfile that has no container: nothing is asked of
    the cluster but the check for the component. *)
Lemma Push_invalid_devfile_changes_nothing_witness :
  let h := Sample.handle (Sample.cluster false) in
  let a := Sample.adapter Scenario.devfile_without_containers in
  GetContainers (Devfile a) = inr []
  /\ head (calls (trace h (Push a Sample.pushParameters) 0%nat))
     = Some (ComponentExists "myapp")
  /\ exists err, result h (Push a Sample.pushParameters) 0%nat
                 = Returned (Some err).
Proof.
  intros h a.
  assert (Hc : GetContainers (Devfile a) = inr []) by reflexivity.
  split; [exact Hc|]. split; [vm_compute; reflexivity|].
  exact (proj2 (Push_invalid_devfile_changes_nothing h 0%nat a
                  Sample.pushParameters (or_intror (or_intror (or_intror Hc))))).
Defined.
(** * Properties of deploy, test, log and exec *)

(** ** Running programs *)

Lemma xrun_bind {W A B : Type} (h : xhandler W) (p : xprog A)
    (f : A -> xprog B) (w : W) :
  xrun h (xbind p f) w =
  match xrun h p w with
  | (t1, XReturned a, w1) =>
      let '(t2, out, w2) := xrun h (f a) w1 in ((t1 ++ t2)%list, out, w2)
  | (t1, XCrashed c, w1) => (t1, XCrashed c, w1)
  end.
Proof.
  revert w. induction p as [a|c|c k IH]; intros w; simpl.
  - now destruct (xrun h (f a) w) as [[t2 out] w2].
  - reflexivity.
  - destruct (h c w) as [r w1]. rewrite IH.
    destruct (xrun h (k r) w1) as [[t1 [a|cr]] w2]; [|reflexivity].
    now destruct (xrun h (f a) w2) as [[t2 out] w3].
Qed.

Lemma xrun_lift {W A : Type} (h : xhandler W) (p : prog A) (w : W) :
  xrun h (lift p) w =
  let '(tr, out, w1) := run (core_handler h) p w in
  (core_event <$> tr, lift_outcome out, w1).
Proof.
  revert w. induction p as [a|c|c k IH]; intros w; simpl; try reflexivity.
  unfold core_handler at 1. destruct (h (Core c) w) as [r w1]. rewrite IH.
  now destruct (run (core_handler h) (k r) w1) as [[tr out] w2].
Qed.

(** A deferred function runs after the body, when the body returns and when
    it panics, and not when it ends the process. *)
Lemma xrun_xdefer {W E : Type} (h : xhandler W) (nil : E) (body : xprog E)
    (deferred : E -> xprog E) (w : W) :
  xrun h (xdefer nil body deferred) w =
  match xrun h body w with
  | (t1, XReturned err, w1) =>
      let '(t2, out, w2) := xrun h (deferred err) w1 in ((t1 ++ t2)%list, out, w2)
  | (t1, XCrashed (Base (OsExit code)), w1) =>
      (t1, XCrashed (Base (OsExit code)), w1)
  | (t1, XCrashed c, w1) =>
      let '(t2, out, w2) := xrun h (deferred nil) w1 in
      ((t1 ++ t2)%list,
       match out with
       | XReturned _ => XCrashed c
       | XCrashed c' => XCrashed c'
       end, w2)
  end.
Proof.
  revert w. induction body as [err|c|c k IH]; intros w; simpl.
  - now destruct (xrun h (deferred err) w) as [[t2 out] w2].
  - destruct c as [[|code]|]; simpl; try reflexivity.
    all: rewrite xrun_bind.
    all: destruct (xrun h (deferred nil) w) as [[t2 [e|c']] w2]; simpl;
      rewrite ?app_nil_r; reflexivity.
  - destruct (h c w) as [r w1]. rewrite IH.
    destruct (xrun h (k r) w1) as [[t1 [err|[[|code]|]]] w2]; try reflexivity.
    + now destruct (xrun h (deferred err) w2) as [[t2 out] w3].
    + now destruct (xrun h (deferred nil) w2) as [[t2 out] w3].
    + now destruct (xrun h (deferred nil) w2) as [[t2 out] w3].
Qed.

Ltac xrun_step h :=
  match goal with
  | |- context [h ?c ?w] =>
      let r := fresh "r" in
      let w1 := fresh "w" in
      destruct (h c w) as [r w1] eqn:?; cbn [xresp resp] in r
  end.

Ltac xrun_case :=
  match goal with
  | |- context [match ?r with _ => _ end] => is_var r; destruct r
  end.

Ltac xrun_all h := cbn; repeat (first [xrun_step h | xrun_case]; cbn).
(** ** Test *)

(** X17: [Test] executes the test command only in a pod of the component
    that is running, and only a test command that the devfile validates: the
    composite of the command if it has one and its exec otherwise, in that
    pod, as the last call; and [Test] returns nil exactly when that execution
    was made and returned no error. *)
Theorem Test_executes_in_running_pod `{Library} {W : Type} (h : xhandler W)
    (w : W) (a : Adapter) (testCmd : string) (show : bool) :
  let tr := xtrace h (Test a testCmd show) w in
  let out := xresult h (Test a testCmd show) w in
  (forall c, c ∈ xcalls tr -> is_execution c = true ->
     exists pod status testCommand,
       XEv (GetPodUsingComponentName (ComponentName a)) (inr (pod, status)) ∈ tr
       /\ PodStatus.Phase status = PodRunning
       /\ ValidateAndGetTestDevfileCommands (Devfile a) testCmd = inr testCommand
       /\ last (xcalls tr) = Some c
       /\ let compInfo (container : string) :=
            {| ComponentInfo.ContainerName := container;
               ComponentInfo.PodName := Pod.GetName pod;
               ComponentInfo.SourceMount := "" |} in
          match DevfileCommand.Composite testCommand,
                DevfileCommand.Exec testCommand with
          | Some composite, _ =>
              c = Core (ExecuteCompositeDevfileAction composite
                          (GetCommandsMap (GetCommands (Devfile a)))
                          (compInfo "") show)
          | None, Some exec =>
              c = Core (ExecuteDevfileCommandSynchronously exec (Exec.Id exec)
                          (compInfo (Exec.Component exec)) show false)
          | None, None => False
          end)
  /\ (out = XReturned None
      <-> exists e, last tr = Some e /\ is_execution (xev_call e) = true
                    /\ xev_error e = None).
Proof.
  unfold xtrace, xresult, Test, execTestCmd.
  cbn. destruct (h _ w) as [[err|[pod status]] w1] eqn:Hpod; cbn.
  { split; [intros c Hin; unfold xcalls in Hin; cbn in Hin;
            repeat (apply elem_of_cons in Hin as [->|Hin]; [discriminate|]);
            apply elem_of_nil in Hin; contradiction|].
    split; [discriminate|]. intros (e & He & Hx & _). cbn in He.
    injection He as <-. discriminate Hx. }
  case_bool_decide as Hphase; cbn.
  2: { split; [intros c Hin; unfold xcalls in Hin; cbn in Hin;
               repeat (apply elem_of_cons in Hin as [->|Hin]; [discriminate|]);
               apply elem_of_nil in Hin; contradiction|].
       split; [discriminate|]. intros (e & He & Hx & _). cbn in He.
       injection He as <-. discriminate Hx. }
  destruct (h _ w1) as [[] w2] eqn:Hlog.
  destruct (ValidateAndGetTestDevfileCommands (Devfile a) testCmd)
    as [err|testCommand] eqn:Hvalid; cbn.
  { split; [intros c Hin; unfold xcalls in Hin; cbn in Hin;
            repeat (apply elem_of_cons in Hin as [->|Hin]; [discriminate|]);
            apply elem_of_nil in Hin; contradiction|].
    split; [discriminate|]. intros (e & He & Hx & _). cbn in He.
    injection He as <-. discriminate Hx. }
  destruct (DevfileCommand.Composite testCommand) as [composite|] eqn:Hcomposite;
    [|destruct (DevfileCommand.Exec testCommand) as [exec|] eqn:Hexec]; cbn.
  3: { split; [intros c Hin; unfold xcalls in Hin; cbn in Hin;
               repeat (apply elem_of_cons in Hin as [->|Hin]; [discriminate|]);
               apply elem_of_nil in Hin; contradiction|].
       split; [discriminate|]. intros (e & He & Hx & _). cbn in He.
       injection He as <-. discriminate Hx. }
  all: destruct (h _ w2) as [[err|] w3] eqn:Hexecuted; cbn.
  all: split;
       [intros c Hin; unfold xcalls in Hin; cbn in Hin;
        repeat (apply elem_of_cons in Hin as [->|Hin]; [try discriminate|]);
        try (apply elem_of_nil in Hin; contradiction);
        intros _; exists pod, status, testCommand;
        split; [apply list_elem_of_here|]; split; [exact Hphase|];
        split; [reflexivity|]; split; [reflexivity|];
        cbv zeta; rewrite Hcomposite, ?Hexec; reflexivity|].
  all: split; [intros Hout; try discriminate Hout;
               eexists; repeat split; reflexivity|].
  all: intros (e & He & Hx & Herr); cbn in He; injection He as <-;
       try discriminate Herr; reflexivity.
Qed.
(** ** Exec *)

Ltac no_such_call Hin :=
  unfold xcalls in Hin; cbn in Hin;
  repeat (apply elem_of_cons in Hin as [Hin|Hin];
          [first [discriminate Hin | subst; discriminate]|]);
  apply elem_of_nil in Hin; contradiction.

(** X18: [Exec] executes the command it is given only when the check says
    that the component exists, the devfile has a run command with an exec,
    and the pod of the component is running: then, as the third and last
    call, in that pod and in the container of the run command, with its
    output shown; and [Exec] returns what the execution returned. In every
    other case it returns an error, or panics on a run command without exec,
    and it does not ask for the pod before it has the run command. *)
Theorem Exec_executes_in_running_component `{Library} {W : Type}
    (h : xhandler W) (w : W) (a : Adapter) (command : list string) :
  let tr := xtrace h (Exec_ a command) w in
  let out := xresult h (Exec_ a command) w in
  (exists pod status runCommand exec r,
     tr = [ XEv (Core (ComponentExists (ComponentName a))) (true, None);
            XEv (GetPodUsingComponentName (ComponentName a)) (inr (pod, status));
            XEv (Core (ExecuteCommand
                         {| ComponentInfo.ContainerName := Exec.Component exec;
                            ComponentInfo.PodName := Pod.GetName pod;
                            ComponentInfo.SourceMount := "" |} command true))
                r ]
     /\ PodStatus.Phase status = PodRunning
     /\ GetRunCommand (Devfile a) "" = inr runCommand
     /\ DevfileCommand.Exec runCommand = Some exec
     /\ out = XReturned r)
  \/ (Forall (fun c => is_execution c = false) (xcalls tr)
      /\ (GetPodUsingComponentName (ComponentName a) ∈ xcalls tr ->
          exists runCommand exec,
            GetRunCommand (Devfile a) "" = inr runCommand
            /\ DevfileCommand.Exec runCommand = Some exec)
      /\ ((exists err, out = XReturned (Some err))
          \/ (out = XCrashed (Base NilDereference)
              /\ exists runCommand,
                   GetRunCommand (Devfile a) "" = inr runCommand
                   /\ DevfileCommand.Exec runCommand = None))).
Proof.
  unfold xtrace, xresult, Exec_.
  cbn. destruct (h _ w) as [[exists_ [err|]] w1] eqn:Hexists; cbn.
  { right. split; [repeat constructor|].
    split; [intros Hin; no_such_call Hin|]. left. eexists; reflexivity. }
  destruct exists_; cbn.
  2: { right. split; [repeat constructor|].
       split; [intros Hin; no_such_call Hin|]. left. eexists; reflexivity. }
  destruct (GetRunCommand (Devfile a) "") as [err|runCommand] eqn:Hrun; cbn.
  { right. split; [repeat constructor|].
    split; [intros Hin; no_such_call Hin|]. left. eexists; reflexivity. }
  destruct (DevfileCommand.Exec runCommand) as [exec|] eqn:Hexec; cbn.
  2: { right. split; [repeat constructor|].
       split; [intros Hin; no_such_call Hin|]. right.
       split; [reflexivity|]. exists runCommand. split; [reflexivity|exact Hexec]. }
  destruct (h _ w1) as [[err|[pod status]] w2] eqn:Hpod; cbn.
  { right. split; [repeat constructor|].
    split; [intros _; eauto|]. left. eexists; reflexivity. }
  case_bool_decide as Hphase; cbn.
  2: { right. split; [repeat constructor|].
       split; [intros _; eauto|]. left. eexists; reflexivity. }
  destruct (h _ w2) as [r w3] eqn:Hexecuted; cbn in *.
  left. exists pod, status, runCommand, exec, r. repeat split; assumption.
Qed.

(** ** Log *)

(** X19: [Log] asks for the logs of a pod only when the pod of the
    component was found and is running and the devfile has the command whose
    logs are asked for (the debug command in debug mode, the run command
    otherwise) with an exec: then for the logs of that pod and of the
    container of that command, and [Log] returns what the request returned.
    In every other case it returns no stream and an error, or panics on a
    command without exec; the error for a pod that was not found does not
    hold the error of the lookup. *)
Theorem Log_reads_running_pod `{Library} {W : Type} (h : xhandler W) (w : W)
    (a : Adapter) (follow debug : bool) :
  let tr := xtrace h (Log a follow debug) w in
  let out := xresult h (Log a follow debug) w in
  (exists pod status command exec r,
     tr = [ XEv (GetPodUsingComponentName (ComponentName a)) (inr (pod, status));
            XEv (GetPodLogs (Pod.GetName pod) (Exec.Component exec) follow) r ]
     /\ PodStatus.Phase status = PodRunning
     /\ (if debug then GetDebugCommand (Devfile a) ""
         else GetRunCommand (Devfile a) "") = inr command
     /\ DevfileCommand.Exec command = Some exec
     /\ out = XReturned r)
  \/ (exists r,
        tr = [XEv (GetPodUsingComponentName (ComponentName a)) r]
        /\ match r with
           | inl _ =>
               out = XReturned
                       (None, Some (ErrorString
                                      ("the component " ++ ComponentName a
                                       ++ " doesn't exist on the cluster")))
           | inr (pod, status) =>
               (exists err, out = XReturned (None, Some err))
               \/ (out = XCrashed (Base NilDereference)
                   /\ PodStatus.Phase status = PodRunning)
           end).
Proof.
  unfold xtrace, xresult, Log.
  cbn. destruct (h _ w) as [[err|[pod status]] w1] eqn:Hpod; cbn.
  { right. eexists. split; reflexivity. }
  case_bool_decide as Hphase; cbn.
  2: { right. eexists. split; [reflexivity|]. left. eexists; reflexivity. }
  destruct debug.
  - destruct (GetDebugCommand (Devfile a) "") as [err|command] eqn:Hcommand; cbn.
    { right. eexists. split; [reflexivity|]. left. eexists; reflexivity. }
    case_bool_decide as Hzero; cbn.
    { right. eexists. split; [reflexivity|]. left. eexists; reflexivity. }
    destruct (DevfileCommand.Exec command) as [exec|] eqn:Hexec; cbn.
    2: { right. eexists. split; [reflexivity|]. right. split; [reflexivity|assumption]. }
    destruct (h _ w1) as [r w2] eqn:Hlogs; cbn in *.
    left. exists pod, status, command, exec, r. repeat split; assumption.
  - destruct (GetRunCommand (Devfile a) "") as [err|command] eqn:Hcommand; cbn.
    { right. eexists. split; [reflexivity|]. left. eexists; reflexivity. }
    destruct (DevfileCommand.Exec command) as [exec|] eqn:Hexec; cbn.
    2: { right. eexists. split; [reflexivity|]. right. split; [reflexivity|assumption]. }
    destruct (h _ w1) as [r w2] eqn:Hlogs; cbn in *.
    left. exists pod, status, command, exec, r. repeat split; assumption.
Qed.
(** ** Splitting at a separator *)


Lemma bytes_Split_empty (sep : string) : bytes_Split "" sep = [""].
Proof. reflexivity. Qed.

(** A manifest that starts with the separator of documents has an empty
    first part. *)
Lemma bytes_Split_leading_separator (rest : string) :
  bytes_Split ("---" ++ rest) "---" = "" :: bytes_Split rest "---".
Proof.
  unfold bytes_Split.
  change ("---" ++ rest) with (String "-" (String "-" (String "-" rest))).
  simpl.
  assert (Hp : String.prefix "" rest = true) by (destruct rest; reflexivity).
  rewrite Hp.
  destruct (splitFrom "---" rest 0) as [seg segs]. reflexivity.
Qed.

(** ** Deletion of what was deployed *)

Section DeployDelete.
Context `{Library} {W : Type} (h : xhandler W) (a : Adapter).

Lemma rangeDeleteManifests_run (manifest : string) (manifests : list string)
    (w : W) :
  let tr := xtrace h (rangeDeleteManifests a manifest manifests) w in
  let out := xresult h (rangeDeleteManifests a manifest manifests) w in
  (forall i gvr ns name,
     xcalls tr !! i = Some (ResourceDelete gvr ns name) ->
     exists j item,
       i = S j /\ tr !! j = Some (XEv (ResourceGet gvr ns name) (item, None)))
  /\ Forall (fun c => exists gvr name,
                        c = ResourceGet gvr (Client_Namespace a) name
                        \/ c = ResourceDelete gvr (Client_Namespace a) name)
       (xcalls tr)
  /\ (forall i ev, tr !! i = Some ev -> (S i < List.length tr)%nat ->
        xev_error ev = None)
  /\ match last tr with
     | Some (XEv (ResourceGet gvr ns name) (_, Some _)) =>
         out = XReturned
                 (Some (ErrorString ("Could not delete component " ++ name
                                     ++ " as component was not found")))
     | Some (XEv (ResourceDelete _ _ _) (Some err)) => out = XReturned (Some err)
     | _ =>
         out = XReturned None
         \/ exists part err,
              part ∈ manifests /\ Decode part = inl err
              /\ out = XReturned (Some err)
     end.
Proof.
  cbv zeta. unfold xtrace, xresult.
  revert w. induction manifests as [|part manifests IH]; intros w.
  { cbn. split; [intros i ? ? ? Hi; now rewrite lookup_nil in Hi|].
    split; [constructor|]. split; [|now left].
    intros i ev Hi. now rewrite lookup_nil in Hi. }
  cbn [rangeDeleteManifests].
  assert (Hweaken :
    forall out : xoutcome (option error),
      (out = XReturned None
       \/ exists p err, p ∈ manifests /\ Decode p = inl err
                        /\ out = XReturned (Some err)) ->
      out = XReturned None
      \/ exists p err, p ∈ part :: manifests /\ Decode p = inl err
                       /\ out = XReturned (Some err)).
  { intros out [Hn|(p & err & Hp & Hd & Ho)]; [now left|right].
    exists p, err. split; [now apply list_elem_of_further|]. now split. }
  destruct (0 <? String.length manifest)%nat; cycle 1.
  { specialize (IH w).
    destruct (xrun h (rangeDeleteManifests a manifest manifests) w)
      as [[tr out] w1]. cbn [fst snd] in *.
    destruct IH as (H1 & H2 & H3 & H4). repeat split; try assumption.
    destruct (last tr) as [[c r]|]; [|now apply Hweaken].
    destruct c; try (now apply Hweaken); cbn [xresp] in *.
    - destruct r as [item [err|]]; [exact H4|now apply Hweaken].
    - destruct r as [err|]; [exact H4|now apply Hweaken]. }
  destruct (Decode part) as [err|[gvk deploymentManifest]] eqn:Hdecode.
  { cbn. split; [intros i ? ? ? Hi; now rewrite lookup_nil in Hi|].
    split; [constructor|].
    split; [intros i ev Hi; now rewrite lookup_nil in Hi|].
    right. exists part, err. split; [apply list_elem_of_here|]. now split. }
  cbn. destruct (h _ w) as [[item [err|]] w1] eqn:Hget; cbn.
  { split; [intros [|i] ? ? ? Hi; cbn in Hi; discriminate Hi|].
    split; [repeat constructor; eauto|].
    split; [intros i ev Hi Hlt; cbn in Hlt; lia|]. reflexivity. }
  destruct (h _ w1) as [[err|] w2] eqn:Hdel; cbn.
  { split.
    - intros [|[|i]] ? ? ? Hi; cbn in Hi; try discriminate.
      injection Hi as <- <- <-. exists 0%nat, item. split; reflexivity.
    - split; [repeat constructor; eauto|].
      split; [|reflexivity].
      intros [|[|i]] ev Hi Hlt; cbn in Hi, Hlt; try lia.
      now injection Hi as <-. }
  specialize (IH w2).
  destruct (xrun h (rangeDeleteManifests a manifest manifests) w2)
    as [[tr out] w3]. cbn [fst snd] in *.
  destruct IH as (H1 & H2 & H3 & H4). split; [|split; [|split]].
  - intros [|[|i]] ? ? ? Hi; cbn in Hi; try discriminate.
    + injection Hi as <- <- <-. exists 0%nat, item. split; reflexivity.
    + destruct (H1 i _ _ _ Hi) as (j & item' & -> & Hj).
      exists (S (S j)), item'. split; [reflexivity|exact Hj].
  - repeat (constructor; [eauto|]). exact H2.
  - intros [|[|i]] ev Hi Hlt; cbn in Hi, Hlt.
    + now injection Hi as <-.
    + now injection Hi as <-.
    + apply (H3 i ev Hi). lia.
  - rewrite !last_cons.
    destruct (last tr) as [[c r]|]; [|now apply Hweaken].
    destruct c; try (now apply Hweaken); cbn [xresp] in *.
    + destruct r as [item' [err|]]; [exact H4|now apply Hweaken].
    + destruct r as [err|]; [exact H4|now apply Hweaken].
Qed.

End DeployDelete.

(** X20: [DeployDelete] asks the cluster only to look up and to delete
    resources, in the namespace of the client, and it deletes a resource only
    just after a lookup of that resource succeeded; it stops at the first
    call that fails: a lookup that fails, whatever its error, gives the error
    that the component was not found, and a deletion that fails gives its
    error; otherwise it returns nil, or the error of a part of the manifest
    that does not decode. For an empty manifest it does nothing and returns
    nil. *)
Theorem DeployDelete_deletes_what_it_finds `{Library} {W : Type}
    (h : xhandler W) (w : W) (a : Adapter) (manifest : string) :
  let tr := xtrace h (DeployDelete a manifest) w in
  let out := xresult h (DeployDelete a manifest) w in
  (forall i gvr ns name,
     xcalls tr !! i = Some (ResourceDelete gvr ns name) ->
     exists j item,
       i = S j /\ tr !! j = Some (XEv (ResourceGet gvr ns name) (item, None)))
  /\ Forall (fun c => exists gvr name,
                        c = ResourceGet gvr (Client_Namespace a) name
                        \/ c = ResourceDelete gvr (Client_Namespace a) name)
       (xcalls tr)
  /\ (forall i ev, tr !! i = Some ev -> (S i < List.length tr)%nat ->
        xev_error ev = None)
  /\ match last tr with
     | Some (XEv (ResourceGet gvr ns name) (_, Some _)) =>
         out = XReturned
                 (Some (ErrorString ("Could not delete component " ++ name
                                     ++ " as component was not found")))
     | Some (XEv (ResourceDelete _ _ _) (Some err)) => out = XReturned (Some err)
     | _ =>
         out = XReturned None
         \/ exists part err,
              part ∈ bytes_Split manifest "---" /\ Decode part = inl err
              /\ out = XReturned (Some err)
     end
  /\ (manifest = "" -> tr = [] /\ out = XReturned None).
Proof.
  cbv zeta. unfold DeployDelete.
  destruct (rangeDeleteManifests_run h a manifest (bytes_Split manifest "---") w)
    as (H1 & H2 & H3 & H4).
  split; [exact H1|]. split; [exact H2|]. split; [exact H3|].
  split; [exact H4|].
  intros ->. split; reflexivity.
Qed.

(** X21: [DeployDelete] tests the length of the whole manifest, and not of
    its parts: of a manifest that starts with the separator of documents, it
    decodes the empty part before the separator, and when the decoder
    refuses an empty document it asks nothing of the cluster and returns the
    error of the decoder. *)
Theorem DeployDelete_decodes_empty_part `{Library} {W : Type} (h : xhandler W)
    (w : W) (a : Adapter) (rest : string) (err : error) :
  Decode "" = inl err ->
  xtrace h (DeployDelete a ("---" ++ rest)) w = []
  /\ xresult h (DeployDelete a ("---" ++ rest)) w = XReturned (Some err).
Proof.
  intros Hempty. unfold xtrace, xresult, DeployDelete.
  rewrite bytes_Split_leading_separator. cbn. rewrite Hempty. split; reflexivity.
Qed.
(** ** Deploy *)

Section Deploy.
Context `{Library} `{TextTemplate} {W : Type} (h : xhandler W) (a : Adapter).
Context (namespace applicationName : string)
  (yamlSubstitutions : gmap string string) (manifestFile : string).

(** The takeover of what the cluster has makes no call: it returns the
    manifest, or panics at the assertion of a type. *)
Lemma adoptInstance_run (item deploymentManifest : Manifest.t) (w : W) :
  exists out,
    xrun h (adoptInstance item deploymentManifest) w = ([], out, w)
    /\ (out = XCrashed InterfaceConversion \/ exists m, out = XReturned m).
Proof.
  unfold adoptInstance. case_bool_decide; [|eexists; split; [reflexivity|eauto]].
  destruct (Manifest.UnstructuredContent item !! "spec") as [[| |spec|]|];
    cbn; try (eexists; split; [reflexivity|eauto]; fail).
  destruct (spec !! "clusterIP") as [[|[|]| |]|];
    cbn; try (eexists; split; [reflexivity|eauto]; fail).
  all: destruct (Manifest.UnstructuredContent _ !! "spec") as [[| |spec'|]|];
       cbn; eexists; split; try reflexivity; eauto.
Qed.

Ltac loop_step :=
  first
    [ match goal with
      | |- context [xrun ?hh (xbind (xbind (adoptInstance ?i ?m) ?k1) ?k2) ?w] =>
          rewrite (xrun_bind hh (xbind (adoptInstance i m) k1) k2 w);
          rewrite (xrun_bind hh (adoptInstance i m) k1 w);
          let out := fresh "out" in
          let Hrun := fresh "Hadopt" in
          let Hout := fresh "Hout" in
          destruct (adoptInstance_run i m w) as (out & Hrun & Hout);
          rewrite Hrun; clear Hrun;
          destruct Hout as [->|[? ->]]
      end
    | xrun_step h
    | match goal with
      | |- context [match ?r with _ => _ end] =>
          is_var r; destruct r
      end ];
  cbn -[rangeManifests adoptInstance filter].

Ltac loop_rec IH :=
  match goal with
  | |- context [xrun ?hh (rangeManifests ?a1 ?a2 ?a3 ?a4 ?a5 ?ms ?st') ?w'] =>
      specialize (IH st' w');
      destruct (xrun hh (rangeManifests a1 a2 a3 a4 a5 ms st') w') as [[? ?] ?];
      cbn [fst snd] in *
  end.

Ltac stops_here :=
  repeat (constructor;
          [first [exact I
                 | intros ? Herr; cbn in Herr;
                   first [discriminate Herr | injection Herr as <-; eauto]]|]).

Lemma rangeManifests_calls (manifests : list string) (st : DeployLoop.t) (w : W) :
  let p := rangeManifests a namespace applicationName yamlSubstitutions
             manifestFile manifests st in
  Forall (loop_call namespace manifestFile) (xcalls (xtrace h p w))
  /\ match xresult h p w with
     | XCrashed c => c = InterfaceConversion
     | XReturned _ => True
     end
  /\ Forall (stops_with (loop_outcome (xresult h p w))) (xtrace h p w).
Proof.
  cbv zeta. unfold xtrace, xresult.
  revert st w. induction manifests as [|manifest manifests IH]; intros st w.
  { cbn. repeat split; constructor. }
  cbn [rangeManifests].
  destruct (0 <? String.length manifest)%nat; [|apply IH].
  destruct (substitueYamlVariables manifest yamlSubstitutions) as [deployYaml [err|]].
  { cbn. repeat split; constructor. }
  destruct (Decode deployYaml) as [err|[gvk deploymentManifest]].
  { cbn. repeat split; constructor. }
  destruct st as [imageStream [|]].
  all: cbn -[rangeManifests adoptInstance].
  all: repeat loop_step.
  all: try (split; [repeat constructor|];
            split; [first [exact I | reflexivity]|];
            stops_here; constructor; fail).
  all: loop_rec IH.
  all: destruct IH as (IHc & IHo & IHs).
  all: split; [repeat (constructor; [repeat constructor|]); exact IHc|].
  all: split; [exact IHo|].
  all: stops_here; exact IHs.
Qed.

Ltac applies_here :=
  cbn; unfold Lookup.found; cbn; repeat split; eauto;
  try (intros [[? Hx] Hy]; first [discriminate Hx | discriminate Hy]).

Ltac norm_trace :=
  unfold xcalls; rewrite ?fmap_cons;
  cbn -[filter rangeManifests adoptInstance separated];
  repeat first [ rewrite filter_cons_True by reflexivity
               | rewrite filter_cons_False by (cbn; discriminate) ];
  rewrite ?filter_nil;
  cbn -[filter rangeManifests adoptInstance separated].

(** Each lookup of the loop is followed by the update of what it found or
    by the creation of what it did not find; only a panic of the takeover
    leaves a lookup, the last one, without its request. *)
Lemma rangeManifests_applies (manifests : list string) (st : DeployLoop.t)
    (w : W) :
  let p := rangeManifests a namespace applicationName yamlSubstitutions
             manifestFile manifests st in
  let lookups := omap xev_lookup (xtrace h p w) in
  let writes := filter (fun c => is_apply c = true) (xcalls (xtrace h p w)) in
  Forall2 applies (take (length writes) lookups) writes
  /\ (length lookups = length writes
      \/ length lookups = S (length writes)
         /\ xresult h p w = XCrashed InterfaceConversion
         /\ exists l, last lookups = Some l /\ Lookup.found l).
Proof.
  cbv zeta. unfold xtrace, xresult.
  revert st w. induction manifests as [|manifest manifests IH]; intros st w.
  { cbn. split; [constructor|now left]. }
  cbn [rangeManifests].
  destruct (0 <? String.length manifest)%nat; [|apply IH].
  destruct (substitueYamlVariables manifest yamlSubstitutions) as [deployYaml [err|]].
  { cbn. split; [constructor|now left]. }
  destruct (Decode deployYaml) as [err|[gvk deploymentManifest]].
  { cbn. split; [constructor|now left]. }
  destruct st as [imageStream [|]].
  all: cbn -[rangeManifests adoptInstance filter].
  all: repeat loop_step.
  all: try loop_rec IH.
  all: norm_trace.
  all: try (split; [repeat constructor; applies_here|left; reflexivity]; fail).
  all: try (split; [constructor|right; repeat split; eexists; split;
                                [reflexivity|applies_here]]; fail).
  all: unfold xcalls in IH.
  all: destruct IH as [IH1 [IH2|(IH2 & IH3 & lk & IH4 & IH5)]].
  all: (split; [constructor; [applies_here|exact IH1]|]).
  all: try (left; congruence).
  all: right; split; [congruence|]; split; [exact IH3|].
  all: exists lk; split; [|exact IH5].
  all: rewrite last_cons, IH4; reflexivity.
Qed.

(** The loop writes to the local manifest file the resources that the
    cluster returned, in their order, with the separator of documents before
    each one but the first of the file. *)
Lemma rangeManifests_writes (manifests : list string) (st : DeployLoop.t)
    (w : W) :
  let p := rangeManifests a namespace applicationName yamlSubstitutions
             manifestFile manifests st in
  let results := omap xev_result (xtrace h p w) in
  let writes :=
    filter (fun c => is_file_write c = true) (xcalls (xtrace h p w)) in
  let expected :=
    if DeployLoop.writtenToManifest st then separated manifestFile results
    else expected_writes manifestFile results in
  writes `prefix_of` expected
  /\ (forall st', xresult h p w = XReturned (None, st') -> writes = expected).
Proof.
  cbv zeta. unfold xtrace, xresult.
  revert st w. induction manifests as [|manifest manifests IH]; intros st w.
  { cbn. split; [|now destruct (DeployLoop.writtenToManifest st)].
    apply prefix_nil. }
  cbn [rangeManifests].
  destruct (0 <? String.length manifest)%nat; [|apply IH].
  destruct (substitueYamlVariables manifest yamlSubstitutions) as [deployYaml [err|]].
  { cbn. split; [apply prefix_nil|discriminate]. }
  destruct (Decode deployYaml) as [err|[gvk deploymentManifest]].
  { cbn. split; [apply prefix_nil|discriminate]. }
  destruct st as [imageStream [|]].
  all: cbn -[rangeManifests adoptInstance filter].
  all: repeat loop_step.
  all: try loop_rec IH.
  all: norm_trace.
  all: try (split; [repeat apply prefix_cons; apply prefix_nil|discriminate]; fail).
  all: unfold xcalls in IH; cbn [DeployLoop.writtenToManifest] in IH.
  all: destruct IH as [IH1 IH2].
  all: split; [repeat apply prefix_cons; exact IH1|].
  all: intros st' Hst'; rewrite (IH2 st' Hst'); reflexivity.
Qed.

Lemma withOwners_nil (imageStream : ImageStream.t) :
  withOwners [] imageStream = imageStream.
Proof.
  destruct imageStream as [[]]. unfold withOwners, ObjectMeta.set_OwnerReferences.
  cbn. now rewrite app_nil_r.
Qed.

(** The image stream leaves the loop with an owner more for each resource
    that the cluster returned. *)
Lemma rangeManifests_owners (manifests : list string) (st : DeployLoop.t)
    (w : W) :
  let p := rangeManifests a namespace applicationName yamlSubstitutions
             manifestFile manifests st in
  forall st', xresult h p w = XReturned (None, st') ->
    DeployLoop.imageStream st'
    = withOwners (omap xev_result (xtrace h p w)) <$> DeployLoop.imageStream st.
Proof.
  cbv zeta. unfold xtrace, xresult.
  revert st w. induction manifests as [|manifest manifests IH]; intros st w.
  { cbn. intros st' [= <-]. destruct (DeployLoop.imageStream st); cbn; [|reflexivity].
    now rewrite withOwners_nil. }
  cbn [rangeManifests].
  destruct (0 <? String.length manifest)%nat; [|apply IH].
  destruct (substitueYamlVariables manifest yamlSubstitutions) as [deployYaml [err|]].
  { cbn. discriminate. }
  destruct (Decode deployYaml) as [err|[gvk deploymentManifest]].
  { cbn. discriminate. }
  destruct st as [[imageStream|] written].
  all: destruct written.
  all: cbn -[rangeManifests adoptInstance filter].
  all: repeat loop_step.
  all: try discriminate.
  all: loop_rec IH.
  all: intros st' Hst'; rewrite (IH st' Hst'); cbn.
  all: try reflexivity.
  all: unfold withOwners; cbn; rewrite <- app_assoc; reflexivity.
Qed.

(** A loop that ends without an error has applied one resource for each
    part of the manifest that is not empty. *)
Lemma rangeManifests_all_parts (manifests : list string) (st : DeployLoop.t)
    (w : W) :
  let p := rangeManifests a namespace applicationName yamlSubstitutions
             manifestFile manifests st in
  forall st', xresult h p w = XReturned (None, st') ->
    length (filter (fun c => is_apply c = true) (xcalls (xtrace h p w)))
    = length (filter (fun manifest => manifest <> "") manifests).
Proof.
  cbv zeta. unfold xtrace, xresult.
  revert st w. induction manifests as [|manifest manifests IH]; intros st w.
  { reflexivity. }
  destruct manifest as [|ch manifest].
  { rewrite filter_cons_False by tauto. apply IH. }
  rewrite filter_cons_True by discriminate.
  cbn [rangeManifests String.length Nat.ltb Nat.leb].
  destruct (substitueYamlVariables (String ch manifest) yamlSubstitutions)
    as [deployYaml [err|]].
  { cbn. discriminate. }
  destruct (Decode deployYaml) as [err|[gvk deploymentManifest]].
  { cbn. discriminate. }
  destruct st as [imageStream [|]].
  all: cbn -[rangeManifests adoptInstance filter].
  all: repeat loop_step.
  all: try discriminate.
  all: loop_rec IH.
  all: norm_trace.
  all: intros st' Hst'; f_equal; exact (IH st' Hst').
Qed.

Lemma loop_call_no_close (c : xcall) :
  loop_call namespace manifestFile c ->
  is_FileClose c = false /\ is_OsCreate c = false.
Proof. now destruct c. Qed.

Lemma stops_with_None (res : option error) (t : list xevent) :
  Forall (stops_with (XReturned None)) t -> Forall (stops_with (XReturned res)) t.
Proof.
  intros Ht. eapply Forall_impl; [exact Ht|].
  intros [c r]; unfold stops_with; cbn; destruct c; auto.
  all: intros Hs err' Herr'; destruct (Hs err' Herr') as [Hx|[msg Hx]];
       discriminate Hx.
Qed.

Lemma deployManifests_run (parameters : DeployParameters.t)
    (imageStream : option ImageStream.t) (w : W) :
  let p := deployManifests a namespace applicationName yamlSubstitutions
             manifestFile parameters imageStream in
  Forall (fun c => is_FileClose c = false /\ is_OsCreate c = false)
    (xcalls (xtrace h p w))
  /\ match xresult h p w with
     | XCrashed c => c = InterfaceConversion
     | XReturned _ => True
     end
  /\ Forall (stops_with (xresult h p w)) (xtrace h p w).
Proof.
  cbv zeta. unfold xtrace, xresult, deployManifests.
  rewrite xrun_bind.
  pose proof (rangeManifests_calls
                (bytes_Split (DeployParameters.ManifestSource parameters) "---")
                {| DeployLoop.imageStream := imageStream;
                   DeployLoop.writtenToManifest := false |} w) as (Hc & Ho & Hs).
  unfold xtrace, xresult in Hc, Ho, Hs.
  destruct (xrun h (rangeManifests _ _ _ _ _ _ _) w) as [[t1 [[err st]|c]] w1];
    cbn [fst snd loop_outcome] in *.
  2: { split; [|split; assumption]. eapply Forall_impl; [exact Hc|].
       apply loop_call_no_close. }
  assert (Hc' : Forall (fun c => is_FileClose c = false /\ is_OsCreate c = false)
                  (xcalls t1)).
  { eapply Forall_impl; [exact Hc|]. apply loop_call_no_close. }
  destruct err as [err|].
  { cbn. rewrite app_nil_r. repeat split; assumption. }
  destruct (DeployLoop.imageStream st) as [stream|].
  all: xrun_all h.
  all: unfold xcalls in *; rewrite fmap_app.
  all: split; [apply Forall_app; split; [exact Hc'|repeat constructor]|].
  all: split; [exact I|].
  all: apply Forall_app; split; [apply stops_with_None; exact Hs|].
  all: stops_here; constructor.
Qed.

End Deploy.
Lemma filter_no_close (l : list xcall) :
  Forall (fun c => is_FileClose c = false /\ is_OsCreate c = false) l ->
  filter (fun c => is_FileClose c = true) l = [].
Proof.
  induction 1 as [|c l [Hc _] _ IH]; [reflexivity|].
  rewrite filter_cons_False by congruence. exact IH.
Qed.

(** X22: once [Deploy] has created the local manifest file, every way out
    (a manifest that does not decode, a request that fails, a panic at the
    assertion of a type, or the end) closes that file, once, as the last
    call; the error of a call that stops the deployment is returned, as it is
    or wrapped, whatever the closing returns, and the result of the closing is
    returned only when nothing else failed. *)
Theorem Deploy_closes_manifest_file `{Library} `{TextTemplate} {W : Type}
    (h : xhandler W) (w : W) (a : Adapter) (parameters : DeployParameters.t)
    (name manifestFile : string) :
  let tr := xtrace h (Deploy a parameters) w in
  let out := xresult h (Deploy a parameters) w in
  XEv (OsCreate name) (inr manifestFile) ∈ tr ->
  exists merr,
    last tr = Some (XEv (FileClose manifestFile) merr)
    /\ filter (fun c => is_FileClose c = true) (xcalls tr)
       = [FileClose manifestFile]
    /\ (out = XReturned merr \/ out = XCrashed InterfaceConversion
        \/ exists err, out = XReturned (Some err))
    /\ Forall (stops_with out) tr.
Proof.
  intros tr out. subst tr out.
  unfold xtrace, xresult, Deploy.
  cbn -[deployManifests closeManifestFile].
  repeat (first [ xrun_step h | xrun_case
                | match goal with
                  | |- context [bool_decide (DeployParameters.Tag ?p = "")] =>
                      destruct (bool_decide (DeployParameters.Tag p = ""))
                  end ];
          cbn -[deployManifests closeManifestFile]).
  all: try (intros Hin;
            repeat (apply elem_of_cons in Hin as [Hin|Hin];
                    [first [discriminate Hin
                           | apply (f_equal xev_error) in Hin; discriminate Hin]|]);
            apply elem_of_nil in Hin; contradiction).
  all: rewrite xrun_xdefer.
  all: match goal with
       | |- context [xrun ?hh (deployManifests ?a1 ?a2 ?a3 ?a4 ?a5 ?a6 ?a7) ?w'] =>
           pose proof (deployManifests_run hh a1 a2 a3 a4 a5 a6 a7 w')
             as (Hc & Ho & Hs);
           unfold xtrace, xresult in Hc, Ho, Hs;
           destruct (xrun hh (deployManifests a1 a2 a3 a4 a5 a6 a7) w')
             as [[t1 [res|c]] w1'];
           cbn [fst snd] in Hc, Ho, Hs; [|subst c]
       end.
  all: try match goal with
           | res : option error |- _ => destruct res as [err|]
           end.
  all: cbn -[filter].
  all: xrun_step h; cbn -[filter].
  all: intros Hin.
  all: repeat (apply elem_of_cons in Hin as [Hin|Hin];
               [first [discriminate Hin
                      | apply (f_equal xev_created) in Hin; cbn in Hin;
                        injection Hin as ->]|]).
  all: try (exfalso; apply elem_of_app in Hin as [Hin|Hin];
            [apply (list_elem_of_fmap_2 xev_call) in Hin;
             rewrite Forall_forall in Hc; apply Hc in Hin as [_ Hin];
             discriminate Hin
            |apply elem_of_cons in Hin as [Hin|Hin];
             [discriminate Hin|apply elem_of_nil in Hin; contradiction]]).
  all: eexists.
  all: split; [rewrite !last_cons, last_app; reflexivity|].
  all: split;
       [unfold xcalls; rewrite ?fmap_cons;
        repeat (rewrite filter_cons_False by (cbn; discriminate));
        rewrite fmap_app, filter_app; fold (xcalls t1);
        rewrite (filter_no_close _ Hc); reflexivity|].
  all: split; [eauto|].
  all: repeat (constructor; [first [exact I | intros ? Herr; discriminate Herr]|]).
  all: apply Forall_app; split; [|repeat constructor].
  all: first [exact Hs | apply stops_with_None; exact Hs].
Qed.
(** The run of [Deploy], up to the run of the loop over the manifests. *)
Ltac deploy_run h :=
  unfold xtrace, xresult, Deploy;
  cbn -[deployManifests closeManifestFile filter];
  repeat (first [ xrun_step h | xrun_case
                | match goal with
                  | |- context [bool_decide (DeployParameters.Tag ?p = "")] =>
                      let Htag := fresh "Htag" in
                      destruct (bool_decide_reflect (DeployParameters.Tag p = ""))
                        as [Htag|Htag]
                  end ];
          cbn -[deployManifests closeManifestFile filter]);
  try rewrite xrun_xdefer;
  unfold deployManifests;
  try rewrite xrun_bind.

Ltac deploy_loop lemma :=
  match goal with
  | |- context [xrun ?hh (rangeManifests ?a1 ?a2 ?a3 ?a4 ?a5 ?ms ?st) ?w'] =>
      let Hloop := fresh "Hloop" in
      let Hcalls := fresh "Hcalls" in
      pose proof (lemma _ _ _ _ hh a1 a2 a3 a4 a5 ms st w') as Hloop;
      pose proof (proj1 (rangeManifests_calls hh a1 a2 a3 a4 a5 ms st w'))
        as Hcalls;
      cbv zeta in Hloop;
      unfold xtrace, xresult in Hloop, Hcalls;
      destruct (xrun hh (rangeManifests a1 a2 a3 a4 a5 ms st) w')
        as [[t_loop [[[?|] ?]|?]] ?];
      cbn [fst snd] in Hloop, Hcalls
  end.

Lemma in_loop (namespace manifestFile : string) (t : list xevent)
    (ev : xevent) :
  Forall (loop_call namespace manifestFile) (xcalls t) -> ev ∈ t ->
  loop_call namespace manifestFile (xev_call ev).
Proof.
  intros Ht Hev. rewrite Forall_forall in Ht. apply Ht.
  now apply list_elem_of_fmap_2.
Qed.

(** The places of an event in a run of [Deploy]. *)
Ltac mem_cases Hin Hcalls :=
  repeat first
    [ apply elem_of_cons in Hin as [Hin|Hin]
    | apply elem_of_app in Hin as [Hin|Hin]
    | (apply elem_of_nil in Hin; contradiction)
    | (apply (in_loop _ _ _ _ Hcalls) in Hin; cbn in Hin; contradiction) ].

Ltac deploy_end h :=
  cbn -[filter];
  repeat (first [ xrun_step h | xrun_case
                | match goal with
                  | |- context [match DeployLoop.imageStream ?st with _ => _ end] =>
                      let Hstream := fresh "Hstream" in
                      destruct (DeployLoop.imageStream st) eqn:Hstream
                  end ];
          cbn -[filter]).

Ltac norm_filters :=
  unfold xcalls;
  cbn -[filter separated expected_writes];
  repeat (progress
            (repeat first
               [ rewrite fmap_cons | rewrite fmap_app
               | rewrite omap_app | rewrite filter_app
               | rewrite filter_cons_True by reflexivity
               | rewrite filter_cons_False by (cbn; discriminate)
               | rewrite filter_nil | rewrite app_nil_r ]);
          cbn -[filter separated expected_writes]).

(** X23: every resource that [Deploy] looks up on the cluster is then
    updated, if the lookup found it without an error, and created under the
    name that was looked up otherwise, with the same resource type and
    namespace; the only lookup that no request follows is the last one of a
    run that panics while it takes over what the lookup found. *)
Theorem Deploy_creates_or_updates `{Library} `{TextTemplate} {W : Type}
    (h : xhandler W) (w : W) (a : Adapter) (parameters : DeployParameters.t) :
  let tr := xtrace h (Deploy a parameters) w in
  let out := xresult h (Deploy a parameters) w in
  let lookups := omap xev_lookup tr in
  let writes := filter (fun c => is_apply c = true) (xcalls tr) in
  Forall2 applies (take (length writes) lookups) writes
  /\ (length lookups = length writes
      \/ length lookups = S (length writes)
         /\ out = XCrashed InterfaceConversion
         /\ exists l, last lookups = Some l /\ Lookup.found l).
Proof.
  cbv zeta. deploy_run h.
  all: try (cbn; split; [constructor|left; reflexivity]; fail).
  all: deploy_loop @rangeManifests_applies.
  all: deploy_end h.
  all: norm_filters.
  all: unfold xcalls in Hloop.
  all: destruct Hloop as [Hap [Hlen|(Hlen & Hout & l & Hlast & Hfound)]].
  all: (split; [exact Hap|]); try (left; exact Hlen).
  all: try discriminate Hout.
  all: right; split; [exact Hlen|]; split; [|exists l; split; assumption].
  all: first [reflexivity | injection Hout as ->; reflexivity].
Qed.

(** X24: what [Deploy] writes to the local manifest file that it created is
    the resources that the cluster returned for the creations and updates,
    in their order, with the separator of documents between two of them and
    not before the first; a run that stops early has written a prefix of
    that, and a run that returns no error has written all of it. *)
Theorem Deploy_writes_local_manifest `{Library} `{TextTemplate} {W : Type}
    (h : xhandler W) (w : W) (a : Adapter) (parameters : DeployParameters.t)
    (name manifestFile : string) :
  let tr := xtrace h (Deploy a parameters) w in
  let out := xresult h (Deploy a parameters) w in
  let results := omap xev_result tr in
  let writes := filter (fun c => is_file_write c = true) (xcalls tr) in
  XEv (OsCreate name) (inr manifestFile) ∈ tr ->
  writes `prefix_of` expected_writes manifestFile results
  /\ (out = XReturned None -> writes = expected_writes manifestFile results).
Proof.
  cbv zeta. deploy_run h.
  all: try (intros Hin; mem_cases Hin I;
            first [discriminate Hin
                  | apply (f_equal xev_error) in Hin; discriminate Hin]).
  all: deploy_loop @rangeManifests_writes.
  all: deploy_end h.
  all: intros Hin; mem_cases Hin Hcalls.
  all: try discriminate Hin.
  all: apply (f_equal xev_created) in Hin; cbn in Hin; injection Hin as ->.
  all: norm_filters.
  all: unfold xcalls in Hloop; destruct Hloop as [Hprefix Hall].
  all: split; [exact Hprefix|].
  all: intros Hout; first [discriminate Hout | eapply Hall; reflexivity].
Qed.

(** X25: the image stream that [Deploy] updates at the end is the one of the
    component that it got at the start, which it does when no tag was given,
    with one owner more for each resource that the cluster returned for a
    creation or an update, in their order. *)
Theorem Deploy_image_stream_owners `{Library} `{TextTemplate} {W : Type}
    (h : xhandler W) (w : W) (a : Adapter) (parameters : DeployParameters.t)
    (updated : ImageStream.t) :
  let tr := xtrace h (Deploy a parameters) w in
  UpdateImageStream updated ∈ xcalls tr ->
  DeployParameters.Tag parameters = ""
  /\ exists imageStream,
       XEv (GetImageStream (Client_Namespace a) (ComponentName a) "latest")
         (inr imageStream) ∈ tr
       /\ updated = withOwners (omap xev_result tr) imageStream.
Proof.
  cbv zeta. unfold xcalls. intros Hin.
  apply list_elem_of_fmap in Hin as (ev & Hev & Hin). revert Hev Hin.
  deploy_run h.
  all: try (intros Hev Hin; mem_cases Hin I; subst ev; discriminate Hev).
  all: deploy_loop @rangeManifests_owners.
  all: deploy_end h.
  all: intros Hev Hin.
  all: repeat first
         [ apply elem_of_cons in Hin as [Hin|Hin]
         | apply elem_of_app in Hin as [Hin|Hin]
         | (apply elem_of_nil in Hin; contradiction)
         | (apply (in_loop _ _ _ _ Hcalls) in Hin; rewrite <- Hev in Hin;
            contradiction) ].
  all: try (subst ev; discriminate Hev).
  all: subst ev; cbn in Hev; injection Hev as ->.
  all: specialize (Hloop _ eq_refl); cbn in Hloop; rewrite Hstream in Hloop.
  all: try discriminate Hloop.
  all: injection Hloop as ->.
  all: split; [assumption|].
  all: eexists; split;
       [apply elem_of_cons; right; apply elem_of_cons; left; reflexivity|].
  all: norm_filters; reflexivity.
Qed.

(** X26: a failure to determine the application URL does not fail the
    deployment: [Deploy] logs it as a warning, closes the local manifest file
    and returns what the closing returned. *)
Theorem Deploy_url_failure_is_a_warning `{Library} `{TextTemplate} {W : Type}
    (h : xhandler W) (w : W) (a : Adapter) (parameters : DeployParameters.t)
    (applicationName labelSelector : string) (err : error) :
  let tr := xtrace h (Deploy a parameters) w in
  let out := xresult h (Deploy a parameters) w in
  XEv (GetApplicationURL applicationName labelSelector) (inl err) ∈ tr ->
  exists manifestFile merr,
    last tr = Some (XEv (FileClose manifestFile) merr)
    /\ out = XReturned merr
    /\ XEv (Core (Logf LogWarning
                    ("Unable to determine the application URL for component "
                     ++ ComponentName a ++ ": " ++ Error_ err))) tt ∈ tr.
Proof.
  cbv zeta. deploy_run h.
  all: try (intros Hin; mem_cases Hin I; discriminate Hin).
  all: deploy_loop @rangeManifests_calls.
  all: deploy_end h.
  all: intros Hin; mem_cases Hin Hcalls.
  all: try discriminate Hin.
  all: apply (f_equal xev_error) in Hin; cbn in Hin.
  all: try discriminate Hin.
  all: injection Hin as ->.
  all: repeat match goal with u : unit |- _ => destruct u end.
  all: do 2 eexists.
  all: split; [rewrite ?last_cons, last_app; reflexivity|].
  all: split; [reflexivity|].
  all: repeat (rewrite ?elem_of_cons, ?elem_of_app); auto 20.
Qed.

(** X27: when the local manifest file cannot be created, [Deploy] applies
    nothing to the cluster and returns, instead of the error of the creation,
    the error of closing a file that is nil, wrapped. *)
Theorem Deploy_file_creation_failure `{Library} `{TextTemplate} {W : Type}
    (h : xhandler W) (w : W) (a : Adapter) (parameters : DeployParameters.t)
    (name : string) (err : error) :
  let tr := xtrace h (Deploy a parameters) w in
  let out := xresult h (Deploy a parameters) w in
  XEv (OsCreate name) (inl err) ∈ tr ->
  name = filepath_Join [Context_ a; ".odo"; "manifest.yaml"]
  /\ last tr = Some (XEv (OsCreate name) (inl err))
  /\ out = XReturned
             (Some (Wrap ErrInvalid "Unable to create the local manifest file"))
  /\ Forall (fun c => is_resource_call c = false /\ is_file_write c = false
                      /\ is_FileClose c = false) (xcalls tr).
Proof.
  cbv zeta. deploy_run h.
  all: try (intros Hin; mem_cases Hin I; try discriminate Hin;
            pose proof (f_equal xev_call Hin) as Hname; cbn in Hname;
            injection Hname as ->;
            apply (f_equal xev_error) in Hin; cbn in Hin;
            first [discriminate Hin | injection Hin as ->];
            repeat split; repeat constructor; fail).
  all: deploy_loop @rangeManifests_calls.
  all: deploy_end h.
  all: intros Hin; mem_cases Hin Hcalls.
  all: try discriminate Hin.
  all: apply (f_equal xev_error) in Hin; discriminate Hin.
Qed.

(** X28: a run of [Deploy] that returns no error has applied, by a creation
    or an update, one resource for each part of the manifest source that is
    not empty, the parts being what the separator of documents separates. *)
Theorem Deploy_applies_every_part `{Library} `{TextTemplate} {W : Type}
    (h : xhandler W) (w : W) (a : Adapter) (parameters : DeployParameters.t) :
  let tr := xtrace h (Deploy a parameters) w in
  let out := xresult h (Deploy a parameters) w in
  out = XReturned None ->
  length (filter (fun c => is_apply c = true) (xcalls tr))
  = length (filter (fun manifest => manifest <> "")
              (bytes_Split (DeployParameters.ManifestSource parameters) "---")).
Proof.
  cbv zeta. deploy_run h.
  all: try discriminate.
  all: deploy_loop @rangeManifests_all_parts.
  all: deploy_end h.
  all: try discriminate.
  all: intros _; norm_filters.
  all: exact (Hloop _ eq_refl).
Qed.
(** ** The deployment of the sample component *)

(** The decoder of the sample refuses an empty document. *)
Lemma DeployDelete_decodes_empty_part_witness :
  let h := SampleDeploy.handle SampleDeploy.nothing_found
             SampleDeploy.nothing_fails in
  let err := ErrorString "Object 'Kind' is missing" in
  @Decode Sample.helpers SampleDeploy.library "" = inl err
  /\ xtrace h (SampleDeploy.deployDelete "---Service web ") 0%nat = []
  /\ xresult h (SampleDeploy.deployDelete "---Service web ") 0%nat
     = XReturned (Some err).
Proof.
  intros h err.
  assert (Hdecode : @Decode Sample.helpers SampleDeploy.library "" = inl err)
    by reflexivity.
  split; [exact Hdecode|].
  exact (@DeployDelete_decodes_empty_part Sample.helpers SampleDeploy.library
           nat h 0%nat SampleDeploy.adapter "Service web " err Hdecode).
Defined.

(** The deployment of the sample manifest, with the image of the image
    stream: the local manifest file is the fourth call. *)
Lemma Deploy_closes_manifest_file_witness :
  let h := SampleDeploy.handle SampleDeploy.nothing_found
             SampleDeploy.nothing_fails in
  let p := SampleDeploy.deploy (SampleDeploy.parameters "") in
  let tr := xtrace h p 0%nat in
  let out := xresult h p 0%nat in
  XEv (OsCreate "./.odo/manifest.yaml") (inr "./.odo/manifest.yaml") ∈ tr
  /\ exists merr,
       last tr = Some (XEv (FileClose "./.odo/manifest.yaml") merr)
       /\ filter (fun c => is_FileClose c = true) (xcalls tr)
          = [FileClose "./.odo/manifest.yaml"]
       /\ (out = XReturned merr \/ out = XCrashed InterfaceConversion
           \/ exists err, out = XReturned (Some err))
       /\ Forall (stops_with out) tr.
Proof.
  intros h p tr out.
  assert (Hin : XEv (OsCreate "./.odo/manifest.yaml")
                  (inr "./.odo/manifest.yaml") ∈ tr).
  { apply (list_elem_of_lookup_2 _ 3%nat). vm_compute. reflexivity. }
  split; [exact Hin|].
  exact (@Deploy_closes_manifest_file Sample.helpers SampleDeploy.library
           Sample.textTemplate nat h 0%nat SampleDeploy.adapter
           (SampleDeploy.parameters "") _ _ Hin).
Defined.

(** The deployment of the sample manifest when the cluster has the Service
    "web": the local manifest file gets the two resources. *)
Lemma Deploy_writes_local_manifest_witness :
  let found name :=
    if bool_decide (name = "web") then Some SampleDeploy.web else None in
  let h := SampleDeploy.handle found SampleDeploy.nothing_fails in
  let p := SampleDeploy.deploy (SampleDeploy.parameters "quay.io/dev/myapp:1") in
  let tr := xtrace h p 0%nat in
  let out := xresult h p 0%nat in
  let results := omap xev_result tr in
  let writes := filter (fun c => is_file_write c = true) (xcalls tr) in
  XEv (OsCreate "./.odo/manifest.yaml") (inr "./.odo/manifest.yaml") ∈ tr
  /\ writes `prefix_of` expected_writes "./.odo/manifest.yaml" results
  /\ (out = XReturned None
      -> writes = expected_writes "./.odo/manifest.yaml" results).
Proof.
  intros found h p tr out results writes.
  assert (Hin : XEv (OsCreate "./.odo/manifest.yaml")
                  (inr "./.odo/manifest.yaml") ∈ tr).
  { apply (list_elem_of_lookup_2 _ 1%nat). vm_compute. reflexivity. }
  split; [exact Hin|].
  exact (@Deploy_writes_local_manifest Sample.helpers SampleDeploy.library
           Sample.textTemplate nat h 0%nat SampleDeploy.adapter
           (SampleDeploy.parameters "quay.io/dev/myapp:1") _ _ Hin).
Defined.

(** The deployment of the sample manifest with the image of the image
    stream: the image stream is updated with the two resources as owners. *)
Lemma Deploy_image_stream_owners_witness :
  let h := SampleDeploy.handle SampleDeploy.nothing_found
             SampleDeploy.nothing_fails in
  let p := SampleDeploy.deploy (SampleDeploy.parameters "") in
  let tr := xtrace h p 0%nat in
  let imageStream :=
    {| ImageStream.ObjectMeta :=
         {| ObjectMeta.Name := "myapp"; ObjectMeta.Namespace := "dev";
            ObjectMeta.Labels := ∅; ObjectMeta.Annotations := ∅;
            ObjectMeta.OwnerReferences := [];
            ObjectMeta.ResourceVersion := "77" |} |} in
  let updated :=
    @withOwners Sample.helpers SampleDeploy.library (omap xev_result tr)
      imageStream in
  UpdateImageStream updated ∈ xcalls tr
  /\ DeployParameters.Tag (SampleDeploy.parameters "") = ""
  /\ exists imageStream,
       XEv (GetImageStream "dev" "myapp" "latest") (inr imageStream) ∈ tr
       /\ updated
          = @withOwners Sample.helpers SampleDeploy.library
              (omap xev_result tr) imageStream.
Proof.
  intros h p tr imageStream updated.
  assert (Hin : UpdateImageStream updated ∈ xcalls tr).
  { apply (list_elem_of_lookup_2 _ 11%nat). vm_compute. reflexivity. }
  split; [exact Hin|].
  exact (@Deploy_image_stream_owners Sample.helpers SampleDeploy.library
           Sample.textTemplate nat h 0%nat SampleDeploy.adapter
           (SampleDeploy.parameters "") updated Hin).
Defined.

(** The deployment of the sample manifest when no route is found for the
    application. *)
Lemma Deploy_url_failure_is_a_warning_witness :
  let h := SampleDeploy.handle SampleDeploy.nothing_found
             SampleDeploy.url_fails in
  let p := SampleDeploy.deploy (SampleDeploy.parameters "") in
  let tr := xtrace h p 0%nat in
  let out := xresult h p 0%nat in
  let err := ErrorString "no route found" in
  XEv (GetApplicationURL "myapp-deploy" "component=myapp-deploy") (inl err) ∈ tr
  /\ exists manifestFile merr,
       last tr = Some (XEv (FileClose manifestFile) merr)
       /\ out = XReturned merr
       /\ XEv (Core (Logf LogWarning
                       ("Unable to determine the application URL for component "
                        ++ "myapp" ++ ": " ++ Error_ err))) tt ∈ tr.
Proof.
  intros h p tr out err.
  assert (Hin : XEv (GetApplicationURL "myapp-deploy" "component=myapp-deploy")
                  (inl err) ∈ tr).
  { apply (list_elem_of_lookup_2 _ 13%nat). vm_compute. reflexivity. }
  split; [exact Hin|].
  exact (@Deploy_url_failure_is_a_warning Sample.helpers SampleDeploy.library
           Sample.textTemplate nat h 0%nat SampleDeploy.adapter
           (SampleDeploy.parameters "") _ _ err Hin).
Defined.

(** The deployment of the sample manifest when the local manifest file
    cannot be created. *)
Lemma Deploy_file_creation_failure_witness :
  let h := SampleDeploy.handle SampleDeploy.nothing_found
             SampleDeploy.creation_fails in
  let p := SampleDeploy.deploy (SampleDeploy.parameters "quay.io/dev/myapp:1") in
  let tr := xtrace h p 0%nat in
  let out := xresult h p 0%nat in
  let err := ErrorString "open .odo/manifest.yaml: permission denied" in
  XEv (OsCreate "./.odo/manifest.yaml") (inl err) ∈ tr
  /\ "./.odo/manifest.yaml"
     = @filepath_Join Sample.helpers SampleDeploy.library
         [Context_ SampleDeploy.adapter; ".odo"; "manifest.yaml"]
  /\ last tr = Some (XEv (OsCreate "./.odo/manifest.yaml") (inl err))
  /\ out = XReturned
             (Some (Wrap ErrInvalid "Unable to create the local manifest file"))
  /\ Forall (fun c => is_resource_call c = false /\ is_file_write c = false
                      /\ is_FileClose c = false) (xcalls tr).
Proof.
  intros h p tr out err.
  assert (Hin : XEv (OsCreate "./.odo/manifest.yaml") (inl err) ∈ tr).
  { apply (list_elem_of_lookup_2 _ 1%nat). vm_compute. reflexivity. }
  split; [exact Hin|].
  exact (@Deploy_file_creation_failure Sample.helpers SampleDeploy.library
           Sample.textTemplate nat h 0%nat SampleDeploy.adapter
           (SampleDeploy.parameters "quay.io/dev/myapp:1") _ err Hin).
Defined.

(** The deployment of the sample manifest, of two documents. *)
Lemma Deploy_applies_every_part_witness :
  let h := SampleDeploy.handle SampleDeploy.nothing_found
             SampleDeploy.nothing_fails in
  let p := SampleDeploy.deploy (SampleDeploy.parameters "") in
  let tr := xtrace h p 0%nat in
  xresult h p 0%nat = XReturned None
  /\ List.length (filter (fun c => is_apply c = true) (xcalls tr))
     = List.length
         (filter (fun manifest => manifest <> "")
            (bytes_Split SampleDeploy.manifest "---")).
Proof.
  intros h p tr.
  assert (Hout : xresult h p 0%nat = XReturned None)
    by (vm_compute; reflexivity).
  split; [exact Hout|].
  exact (@Deploy_applies_every_part Sample.helpers SampleDeploy.library
           Sample.textTemplate nat h 0%nat SampleDeploy.adapter
           (SampleDeploy.parameters "") Hout).
Defined.
